(** * ELF/MC front panel: the register store [elf.py] and the operator
      program [elf_fp.py], embedded as executable definitions.

    Python integers are unbounded, so they are [Z]; [&], [|], [~] and [<<]
    are [Z.land], [Z.lor], [Z.lnot] and [Z.shiftl], which agree with Python
    on negative numbers too (two's complement, infinitely many sign bits).
    A procedure that updates an object is a function from the object's
    state to an outcome and a new state. *)

From Stdlib Require Import ZArith List Bool Ascii String Lia.
From Stdlib Require Import Strings.Byte.
From Stdlib Require Import HexadecimalString.
Import ListNotations.
Local Open Scope Z_scope.

(** ** Python procedures: state and exceptions *)

Module Py.

Inductive exn : Type :=
| ValueError
| TypeError
| FileNotFoundError (path : string).

Inductive outcome (A : Type) : Type :=
| Return (a : A)
| Raise (e : exn).
Arguments Return {A} a.
Arguments Raise {A} e.

(** A procedure over a state [S]: what it returns or raises, and the state
    it leaves.  A raise keeps the state reached so far (nothing is rolled
    back). *)
Definition St (S A : Type) : Type := S -> outcome A * S.

Definition ret {S A} (a : A) : St S A := fun s => (Return a, s).

Definition raise {S A} (e : exn) : St S A := fun s => (Raise e, s).

Definition bind {S A B} (m : St S A) (k : A -> St S B) : St S B :=
  fun s =>
    match m s with
    | (Return a, s') => k a s'
    | (Raise e, s') => (Raise e, s')
    end.

Definition get {S} : St S S := fun s => (Return s, s).

Definition modify {S} (f : S -> S) : St S unit := fun s => (Return tt, f s).

(** Truth value of a Python integer. *)
Definition truthy (z : Z) : bool := negb (z =? 0).

(** What a builtin returns or raises, as a step of a procedure. *)
Definition lift {S A} (o : outcome A) : St S A := fun s => (o, s).

(** A [str] is the sequence of its code points. *)
Definition str : Type := list N.

(** The code point of a character of the program text, and the literal of
    one character. *)
Definition code (a : ascii) : N := N_of_ascii a.
Definition lit (a : ascii) : str := [code a].

(** [s == t] on strings. *)
Fixpoint str_eqb (s t : str) : bool :=
  match s, t with
  | [], [] => true
  | a :: s', b :: t' => (a =? b)%N && str_eqb s' t'
  | _, _ => false
  end.

(** [ord(s)]: the code point of a string of one character, TypeError for
    a string of any other length. *)
Definition ord (s : str) : outcome Z :=
  match s with
  | [c] => Return (Z.of_N c)
  | _ => Raise TypeError
  end.

Section Lower.

(** [s.lower()], for the strings of at most one character the program
    applies it to.  Below 256 the capital letters are A to Z (65-90) and
    the Latin-1 capitals (192-214 and 216-222); each has its small letter
    32 places further on, and every other character is its own lower-case
    form.  From 256 on the lower-case form is given by the Unicode tables
    of the interpreter; they are a parameter here, and nothing is assumed
    of them: the form may be any string (it has two characters for the
    character 304, and is the character itself for a character without
    case such as the euro sign, 8364). *)
Variable wide_lower : N -> str.

Definition lower_char (c : N) : str :=
  if ((65 <=? c) && (c <=? 90) || (192 <=? c) && (c <=? 214)
      || (216 <=? c) && (c <=? 222))%N
  then [(c + 32)%N]
  else if (c <? 256)%N then [c]
  else wide_lower c.

Definition lower (s : str) : str := flat_map lower_char s.

End Lower.

End Py.
Import Py.

Declare Scope py_scope.
Delimit Scope py_scope with py.
Notation "x <- m ;; k" := (bind m (fun x => k))
  (at level 61, m at next level, right associativity) : py_scope.
Notation "m ;; k" := (bind m (fun _ => k))
  (at level 61, right associativity) : py_scope.
Notation "s == t" := (str_eqb s t) (at level 70, no associativity) : py_scope.
Local Open Scope py_scope.

(** ** elf.py *)

Module elf.

Definition OUTPUT : Z := 0.

Definition WAIT_N : Z := Z.shiftl 1 4.
Definition CLEAR_N : Z := Z.shiftl 1 3.
Definition MEM_PROTECT : Z := Z.shiftl 1 0.
Definition EF4_N : Z := Z.shiftl 1 2.
Definition STB_N : Z := Z.shiftl 1 1.

Definition MODE : Z := Z.lor CLEAR_N WAIT_N.

(** The MCP23017 driver object (a library outside the repository): its two
    direction registers and its two port registers.  A register reads back
    the value last assigned to it; every assignment is also recorded, in
    order, in [writes].  The ports of the device hold 8 bits, so this is
    the device for the values 0 to 255 only: what the device does with a
    wider value is not modelled, and a statement about the content of a
    port after such an assignment is a statement about the assignment the
    program makes, not about the device. *)
Inductive Reg : Type := IODIRA | IODIRB | GPIOA | GPIOB.

Record MCP23017 : Type := mkMCP {
  iodira : Z;
  iodirb : Z;
  gpioa : Z;
  gpiob : Z;
  writes : list (Reg * Z)
}.

Definition assign (r : Reg) (v : Z) (m : MCP23017) : MCP23017 :=
  let w := (writes m ++ [(r, v)])%list in
  match r with
  | IODIRA => mkMCP v (iodirb m) (gpioa m) (gpiob m) w
  | IODIRB => mkMCP (iodira m) v (gpioa m) (gpiob m) w
  | GPIOA => mkMCP (iodira m) (iodirb m) v (gpiob m) w
  | GPIOB => mkMCP (iodira m) (iodirb m) (gpioa m) v w
  end.

(** class Elf.Mode(Enum) *)
Inductive Mode : Type := LOAD | RESET | PAUSE | RUN.

Definition value (m : Mode) : Z :=
  match m with
  | LOAD => 0x0
  | RESET => 0x10
  | PAUSE => 0x08
  | RUN => 0x18
  end.

(** [Mode.__str__]: the member's name. *)
Definition Mode_str (m : Mode) : string :=
  match m with
  | LOAD => "LOAD"
  | RESET => "RESET"
  | PAUSE => "PAUSE"
  | RUN => "RUN"
  end.

(** [Mode(v)]: the member whose value is [v]; Python raises ValueError
    when there is none. *)
Definition Mode_of (v : Z) : option Mode :=
  if v =? 0x0 then Some LOAD
  else if v =? 0x10 then Some RESET
  else if v =? 0x08 then Some PAUSE
  else if v =? 0x18 then Some RUN
  else None.

(** What a caller may hand to the [mode] setter: Python is dynamically
    typed, so any object. *)
Inductive PyVal : Type :=
| PyMode (m : Mode)
| PyInt (z : Z)
| PyBool (b : bool)
| PyStr (s : string)
| PyNone.

Record Elf : Type := mkElf {
  _mcp : MCP23017;
  _data : Z;
  _mode : Mode;
  _ef4_n : bool;
  _stb_n : bool;
  _mem_protect : bool
}.

Definition with_mcp (f : MCP23017 -> MCP23017) (e : Elf) : Elf :=
  mkElf (f (_mcp e)) (_data e) (_mode e) (_ef4_n e) (_stb_n e) (_mem_protect e).
Definition with_data (v : Z) (e : Elf) : Elf :=
  mkElf (_mcp e) v (_mode e) (_ef4_n e) (_stb_n e) (_mem_protect e).
Definition with_mode (v : Mode) (e : Elf) : Elf :=
  mkElf (_mcp e) (_data e) v (_ef4_n e) (_stb_n e) (_mem_protect e).
Definition with_ef4_n (v : bool) (e : Elf) : Elf :=
  mkElf (_mcp e) (_data e) (_mode e) v (_stb_n e) (_mem_protect e).
Definition with_stb_n (v : bool) (e : Elf) : Elf :=
  mkElf (_mcp e) (_data e) (_mode e) (_ef4_n e) v (_mem_protect e).
Definition with_mem_protect (v : bool) (e : Elf) : Elf :=
  mkElf (_mcp e) (_data e) (_mode e) (_ef4_n e) (_stb_n e) v.

(** Property getters. *)
Definition data (e : Elf) : Z := _data e.
Definition mode (e : Elf) : Mode := _mode e.
Definition mem_protect (e : Elf) : bool := _mem_protect e.
Definition ef4_n (e : Elf) : bool := _ef4_n e.
Definition stb_n (e : Elf) : bool := _stb_n e.

(** [self._mcp.gpiob = f(self._mcp.gpiob)] *)
Definition update_gpiob (f : Z -> Z) : St Elf unit :=
  modify (with_mcp (fun m => assign GPIOB (f (gpiob m)) m)).

(** Property setters. *)
Definition set_data (v : Z) : St Elf unit :=
  modify (with_data v) ;;
  self <- get ;;
  modify (with_mcp (assign GPIOA (_data self))).

Definition set_mode (v : PyVal) : St Elf unit :=
  match v with
  | PyMode m =>
      modify (with_mode m) ;;
      update_gpiob (fun b => Z.lor (Z.land b (Z.lnot MODE)) (value m))
  | _ => ret tt
  end.

Definition set_mem_protect (v : bool) : St Elf unit :=
  if v then
    modify (with_mem_protect true) ;;
    update_gpiob (fun b => Z.lor b MEM_PROTECT)
  else
    modify (with_mem_protect false) ;;
    update_gpiob (fun b => Z.land b (Z.lnot MEM_PROTECT)).

Definition set_ef4_n (v : bool) : St Elf unit :=
  if v then
    modify (with_ef4_n true) ;;
    update_gpiob (fun b => Z.land b (Z.lnot EF4_N))
  else
    modify (with_ef4_n false) ;;
    update_gpiob (fun b => Z.lor b EF4_N).

Definition set_stb_n (v : bool) : St Elf unit :=
  if v then
    modify (with_stb_n true) ;;
    update_gpiob (fun b => Z.land b (Z.lnot STB_N))
  else
    modify (with_stb_n false) ;;
    update_gpiob (fun b => Z.lor b STB_N).

(** [Elf.__init__], run on the object being built.  [bus] is the driver
    object that [MCP23017(busio.I2C(...))] returns. *)
Definition init (bus : MCP23017) : St Elf unit :=
  modify (with_mcp (fun _ => bus)) ;;
  self <- get ;;
  (if negb (iodira (_mcp self) =? OUTPUT) then
     modify (with_mcp (assign IODIRA OUTPUT)) ;;
     set_data 0x00
   else
     modify (with_data (gpioa (_mcp self)))) ;;
  self <- get ;;
  if negb (iodirb (_mcp self) =? OUTPUT) then
    modify (with_mcp (assign IODIRB OUTPUT)) ;;
    set_mode (PyMode RESET) ;;
    set_ef4_n false ;;
    set_stb_n false ;;
    set_mem_protect false
  else
    let state := gpiob (_mcp self) in
    match Mode_of (Z.land state MODE) with
    | None => raise ValueError
    | Some m =>
        modify (with_mode m) ;;
        modify (with_ef4_n (negb (truthy (Z.land state EF4_N)))) ;;
        modify (with_stb_n (negb (truthy (Z.land state STB_N)))) ;;
        modify (with_mem_protect (truthy (Z.land state MEM_PROTECT)))
    end.

(** The object before [__init__] has assigned anything.  Python has no
    attributes there at all; every one of them is assigned on each path of
    [init] before it is read, so [init] is also stated for an arbitrary
    starting object. *)
Definition blank : Elf :=
  mkElf (mkMCP 0 0 0 0 []) 0 LOAD false false false.

(** [Elf()] *)
Definition new (bus : MCP23017) : outcome Elf :=
  match init bus blank with
  | (Return _, self) => Return self
  | (Raise e, _) => Raise e
  end.

End elf.

(** ** elf_fp.py *)

Module elf_fp.

(** class Mode(Enum): the operator's interaction mode. *)
Inductive Mode : Type := CONTROL | KEYBOARD.

(** What the program asks of the card and of the clock, in program order:
    one entry per assignment to a [CARD] property and per [time.sleep]. *)
Inductive Op : Type :=
| SetData (v : Z)
| SetMode (m : elf.Mode)
| SetMemProtect (b : bool)
| SetEf4N (b : bool)
| SetStbN (b : bool)
| Sleep (ms : Z).

(** What [update_status] shows: the mode column ([None] stands for the
    label KEYBD), memory protection and the data byte. *)
Inductive Out : Type :=
| StatusLine (shown : option elf.Mode) (protect : bool) (data : Z)
| NewLine.

Record World : Type := mkWorld {
  CARD : elf.Elf;
  ops : list Op;
  files : string -> option (list byte);
  release_hooks : list str;
  stdout : list Out
}.

Definition with_CARD (c : elf.Elf) (w : World) : World :=
  mkWorld c (ops w) (files w) (release_hooks w) (stdout w).
Definition with_ops (t : list Op) (w : World) : World :=
  mkWorld (CARD w) t (files w) (release_hooks w) (stdout w).
Definition with_release_hooks (h : list str) (w : World) : World :=
  mkWorld (CARD w) (ops w) (files w) h (stdout w).
Definition with_stdout (o : list Out) (w : World) : World :=
  mkWorld (CARD w) (ops w) (files w) (release_hooks w) o.

(** Run a method of [CARD]. *)
Definition card {A} (m : St elf.Elf A) : St World A :=
  fun w =>
    match m (CARD w) with
    | (r, c) => (r, with_CARD c w)
    end.

Definition record (o : Op) : St World unit :=
  modify (fun w => with_ops (ops w ++ [o])%list w).

Definition print (o : Out) : St World unit :=
  modify (fun w => with_stdout (stdout w ++ [o])%list w).

(** [CARD.<property> = v] *)
Definition CARD_set_data (v : Z) : St World unit :=
  record (SetData v) ;; card (elf.set_data v).
Definition CARD_set_mode (m : elf.Mode) : St World unit :=
  record (SetMode m) ;; card (elf.set_mode (elf.PyMode m)).
Definition CARD_set_mem_protect (b : bool) : St World unit :=
  record (SetMemProtect b) ;; card (elf.set_mem_protect b).
Definition CARD_set_ef4_n (b : bool) : St World unit :=
  record (SetEf4N b) ;; card (elf.set_ef4_n b).
Definition CARD_set_stb_n (b : bool) : St World unit :=
  record (SetStbN b) ;; card (elf.set_stb_n b).

(** [time.sleep(0.005)]: a blocking wait, recorded with the duration asked
    for, in milliseconds. *)
Definition time_sleep (ms : Z) : St World unit := record (Sleep ms).

Definition update_status (mode : Mode) : St World unit :=
  w <- get ;;
  print (StatusLine
           (match mode with KEYBOARD => None | CONTROL => Some (elf.mode (CARD w)) end)
           (elf.mem_protect (CARD w))
           (elf.data (CARD w))).

(** The text of the status line.  [f'{s:5}'] pads a string with spaces on
    the right up to the width and never cuts it; [f'{n:02X}'] writes an
    integer in capital hexadecimal digits, a minus sign first when it is
    negative, with a zero in front when that gives fewer than two
    characters. *)
Fixpoint spaces (n : nat) : string :=
  match n with
  | O => EmptyString
  | S n' => String " " (spaces n')
  end.

Definition format_str (width : nat) (s : string) : string :=
  String.append s (spaces (width - String.length s)).

Definition upper_digit (c : ascii) : ascii :=
  let n := N_of_ascii c in
  if ((97 <=? n) && (n <=? 102))%N then ascii_of_N (n - 32) else c.

Fixpoint upper_digits (s : string) : string :=
  match s with
  | EmptyString => EmptyString
  | String c s' => String (upper_digit c) (upper_digits s')
  end.

Definition hex_digits (n : N) : string :=
  upper_digits (NilZero.string_of_uint (N.to_hex_uint n)).

Definition format_02X (n : Z) : string :=
  if n <? 0 then String "-" (hex_digits (Z.to_N (- n)))
  else
    let s := hex_digits (Z.to_N n) in
    if (String.length s <? 2)%nat then String "0" s else s.

(** What [print] writes for an entry of [stdout]: for a status line
    [f'\rMode: {...:5} Mem Protect: {...:3} Data: {...:02X}'] without a
    line end, and the line end alone for the closing [print()]. *)
Definition render (o : Out) : string :=
  match o with
  | StatusLine shown protect data =>
      String.append (String "013" "Mode: ")
        (String.append
           (format_str 5
              (match shown with
               | None => "KEYBD"
               | Some m => elf.Mode_str m
               end))
           (String.append " Mem Protect: "
              (String.append (format_str 3 (if protect then "ON" else "OFF"))
                 (String.append " Data: " (format_02X data)))))
  | NewLine => String "010" EmptyString
  end.

Definition press_input : St World unit :=
  CARD_set_ef4_n true ;;
  time_sleep 5 ;;
  CARD_set_ef4_n false.

(** [byte[0]] *)
Definition byte_value (b : byte) : Z := Z.of_N (Byte.to_N b).

(** The [while byte:] loop of [load_program] over the bytes still to be
    read; a byte string of length one is true whatever the byte. *)
Fixpoint read_loop (rest : list byte) : St World unit :=
  match rest with
  | [] => ret tt
  | b :: rest' =>
      CARD_set_data (byte_value b) ;;
      press_input ;;
      read_loop rest'
  end.

Definition load_program (bin_file : string) : St World unit :=
  w <- get ;;
  match files w bin_file with
  | None => raise (FileNotFoundError bin_file)
  | Some contents => read_loop contents
  end.

Definition load_monitor : St World unit :=
  CARD_set_mode elf.RESET ;;
  CARD_set_mode elf.LOAD ;;
  CARD_set_mem_protect false ;;
  load_program "bootstrap.bin" ;;
  CARD_set_mode elf.RESET ;;
  CARD_set_mode elf.RUN ;;
  CARD_set_data 0x80 ;;
  press_input ;;
  CARD_set_data 0x00 ;;
  press_input ;;
  load_program "max_mon.bin" ;;
  CARD_set_mode elf.RESET ;;
  CARD_set_mode elf.RUN ;;
  CARD_set_data 0x84 ;;
  press_input ;;
  CARD_set_data 0x00 ;;
  press_input ;;
  load_program "max_bios.bin" ;;
  CARD_set_mode elf.RESET.

Definition run_monitor : St World unit :=
  CARD_set_mode elf.RESET ;;
  CARD_set_mode elf.LOAD ;;
  CARD_set_data 0xC0 ;;
  press_input ;;
  CARD_set_data 0x80 ;;
  press_input ;;
  CARD_set_data 0x00 ;;
  press_input ;;
  CARD_set_mode elf.RESET ;;
  CARD_set_mode elf.RUN.

(** [CARD.data = (CARD.data << 4 | n) & 0xff] *)
Definition shift_in (n : Z) : St World unit :=
  w <- get ;;
  CARD_set_data (Z.land (Z.lor (Z.shiftl (elf.data (CARD w)) 4) n) 0xff).

Definition on_key (key : str) : St World unit :=
  if (key == lit "i") || (key == lit "010") || (key == lit " ") then
    CARD_set_ef4_n true
  else if key == lit "0" then shift_in 0x0
  else if key == lit "1" then shift_in 0x1
  else if key == lit "2" then shift_in 0x2
  else if key == lit "3" then shift_in 0x3
  else if key == lit "4" then shift_in 0x4
  else if key == lit "5" then shift_in 0x5
  else if key == lit "6" then shift_in 0x6
  else if key == lit "7" then shift_in 0x7
  else if key == lit "8" then shift_in 0x8
  else if key == lit "9" then shift_in 0x9
  else if key == lit "a" then shift_in 0xA
  else if key == lit "b" then shift_in 0xB
  else if key == lit "c" then shift_in 0xC
  else if key == lit "d" then shift_in 0xD
  else if key == lit "e" then shift_in 0xE
  else if key == lit "f" then shift_in 0xF
  else if key == lit "l" then CARD_set_mode elf.LOAD
  else if key == lit "r" then CARD_set_mode elf.RESET
  else if key == lit "g" then CARD_set_mode elf.RUN
  else if key == lit "w" then CARD_set_mode elf.PAUSE
  else if key == lit "p" then
    w <- get ;;
    CARD_set_mem_protect (negb (elf.mem_protect (CARD w)))
  else if key == lit "z" then load_monitor
  else if key == lit "m" then run_monitor
  else ret tt.

Definition on_release (_key : str) : St World unit :=
  CARD_set_ef4_n false ;;
  CARD_set_stb_n false.

(** [keyboard.on_release_key(key, on_release)]: [on_release] is the only
    callback the program registers, so a hook is the name of the key it is
    for. *)
Definition on_release_key (key : str) : St World unit :=
  modify (fun w => with_release_hooks (release_hooks w ++ [key])%list w).

(** What the two input collaborators deliver, in the order it reaches the
    program: a character read by [getch] (the branch of the program for
    platforms other than win32, where [getch] returns what
    [sys.stdin.read(1)] read: a string of one character, of any code
    point), or the release of a key seen by the keyboard library, the key
    being named as the program names keys when it registers a hook. *)
Inductive Event : Type :=
| Typed (c : N)
| Released (k : str).

(** The keyboard library calls every hook registered for the key. *)
Fixpoint run_hooks (hooks : list str) (k : str) : St World unit :=
  match hooks with
  | [] => ret tt
  | h :: hooks' =>
      (if h == k then on_release k else ret tt) ;;
      run_hooks hooks' k
  end.

Definition deliver_release (k : str) : St World unit :=
  w <- get ;;
  run_hooks (release_hooks w) k.

Section Session.

Variable wide_lower : N -> str.

(** One turn of the [while not done] loop of [run_card] once [getch] has
    returned the string [c]; the result is the new [done] and [mode]. *)
Definition loop_body (c : str) (mode : Mode) : St World (bool * Mode) :=
  let char := lower wide_lower c in
  r <- (if char == lit "q" then ret (true, mode)
        else
          o <- lift (ord char) ;;
          if o =? 0 then
            match mode with
            | CONTROL => ret (false, KEYBOARD)
            | KEYBOARD => ret (false, CONTROL)
            end
          else
            match mode with
            | KEYBOARD =>
                v <- lift (ord char) ;;
                CARD_set_data v ;;
                CARD_set_stb_n true ;;
                ret (false, mode)
            | CONTROL =>
                on_key char ;;
                ret (false, mode)
            end) ;;
  update_status (snd r) ;;
  ret r.

(** The loop over what is still to come.  At the end of the input
    [sys.stdin.read(1)] returns the empty string; the turn on it raises
    (in [ord]), so nothing follows that turn. *)
Fixpoint loop (input : list Event) (mode : Mode) : St World unit :=
  match input with
  | [] =>
      loop_body [] mode ;;
      ret tt
  | Released k :: input' =>
      deliver_release k ;;
      loop input' mode
  | Typed c :: input' =>
      r <- loop_body [c] mode ;;
      if fst r then ret tt else loop input' (snd r)
  end.

Definition run_card (input : list Event) : St World unit :=
  on_release_key (lit "i") ;;
  on_release_key (lit "010") ;;
  on_release_key (lit " ") ;;
  let mode := CONTROL in
  update_status mode ;;
  loop input mode ;;
  print NewLine.

End Session.

End elf_fp.

(** * Vocabulary of the properties *)

Import elf.

(** [a] and [b] agree on every bit that [mask] does not select. *)
Definition same_outside (mask a b : Z) : Prop :=
  Z.land a (Z.lnot mask) = Z.land b (Z.lnot mask).

Definition port_a (e : Elf) : Z := gpioa (_mcp e).
Definition port_b (e : Elf) : Z := gpiob (_mcp e).

(** The logical fields agree with the control port byte: the mode value is
    the two-bit field, the two active-low lines are stored inverted, memory
    protection is stored as it is. *)
Definition coherent (e : Elf) : Prop :=
  value (mode e) = Z.land (port_b e) MODE /\
  ef4_n e = negb (Z.testbit (port_b e) 2) /\
  stb_n e = negb (Z.testbit (port_b e) 1) /\
  mem_protect e = Z.testbit (port_b e) 0.

(** The new control byte each setter writes, from the old one. *)
Definition mode_byte (m : Mode) (b : Z) : Z :=
  Z.lor (Z.land b (Z.lnot MODE)) (value m).
Definition line_byte (BIT : Z) (asserted : bool) (b : Z) : Z :=
  if asserted then Z.land b (Z.lnot BIT) else Z.lor b BIT.
Definition protect_byte (on : bool) (b : Z) : Z :=
  if on then Z.lor b MEM_PROTECT else Z.land b (Z.lnot MEM_PROTECT).

(** [isinstance(value, self.Mode)] *)
Definition is_mode (v : PyVal) : bool :=
  match v with
  | PyMode _ => true
  | _ => false
  end.

(** C5, as the specification words it: a value that is no member of the
    enumeration makes [set_mode] fail, leaving the state as it was. *)
Definition rejects_foreign_values : Prop :=
  forall (v : PyVal) (e : Elf),
    is_mode v = false ->
    (exists x, fst (set_mode v e) = Raise x) /\ snd (set_mode v e) = e.

(** The mode that the two control lines spell. *)
Definition mode_of_lines (wait_n clear_n : bool) : Mode :=
  match wait_n, clear_n with
  | false, false => LOAD
  | false, true => PAUSE
  | true, false => RESET
  | true, true => RUN
  end.

(** The driver object after the port A half of [init]. *)
Definition after_port_a (bus : MCP23017) : MCP23017 :=
  if iodira bus =? OUTPUT then bus
  else assign GPIOA 0 (assign IODIRA OUTPUT bus).

(** The four control-port writes of a cold start, from the byte found. *)
Definition cold_b1 (b : Z) : Z := mode_byte RESET b.
Definition cold_b2 (b : Z) : Z := line_byte EF4_N false (cold_b1 b).
Definition cold_b3 (b : Z) : Z := line_byte STB_N false (cold_b2 b).
Definition cold_b4 (b : Z) : Z := protect_byte false (cold_b3 b).

Definition after_port_b (m : MCP23017) : MCP23017 :=
  if iodirb m =? OUTPUT then m
  else
    let b := gpiob m in
    assign GPIOB (cold_b4 b)
      (assign GPIOB (cold_b3 b)
         (assign GPIOB (cold_b2 b)
            (assign GPIOB (cold_b1 b) (assign IODIRB OUTPUT m)))).

(** The object [init] leaves. *)
Definition attached (bus : MCP23017) : Elf :=
  let warm_b := iodirb bus =? OUTPUT in
  let b := gpiob bus in
  mkElf (after_port_b (after_port_a bus))
    (if iodira bus =? OUTPUT then gpioa bus else 0)
    (if warm_b then mode_of_lines (Z.testbit b 4) (Z.testbit b 3) else RESET)
    (if warm_b then negb (Z.testbit b 2) else false)
    (if warm_b then negb (Z.testbit b 1) else false)
    (if warm_b then Z.testbit b 0 else false).

(** A call of one of the five setters, and a run of such calls. *)
Inductive Call : Type :=
| CallData (v : Z)
| CallMode (v : PyVal)
| CallMemProtect (v : bool)
| CallEf4N (v : bool)
| CallStbN (v : bool).

Definition call (c : Call) : St Elf unit :=
  match c with
  | CallData v => set_data v
  | CallMode v => set_mode v
  | CallMemProtect v => set_mem_protect v
  | CallEf4N v => set_ef4_n v
  | CallStbN v => set_stb_n v
  end.

(** A procedure of the front panel keeps a property of the world, whether
    it returns or raises. *)
Definition keeps {A} (Q : elf_fp.World -> Prop) (m : St elf_fp.World A) : Prop :=
  forall w, Q w -> Q (snd (m w)).

(** The states a card object can be in: what [Elf()] returns, then any
    setter call on it, then any session of the front panel with it, on any
    input and whatever the lower-case forms beyond Latin-1 are. *)
Inductive reachable : Elf -> Prop :=
| reach_new (bus : MCP23017) (e : Elf) : new bus = Return e -> reachable e
| reach_call (c : Call) (e : Elf) : reachable e -> reachable (snd (call c e))
| reach_run (wide_lower : N -> str) (input : list elf_fp.Event)
    (w : elf_fp.World) :
    reachable (elf_fp.CARD w) ->
    reachable (elf_fp.CARD (snd (elf_fp.run_card wide_lower input w))).

(** What an entry of the operation record does to the card. *)
Definition apply_op (o : elf_fp.Op) (e : Elf) : Elf :=
  match o with
  | elf_fp.SetData v => snd (set_data v e)
  | elf_fp.SetMode m => snd (set_mode (PyMode m) e)
  | elf_fp.SetMemProtect b => snd (set_mem_protect b e)
  | elf_fp.SetEf4N b => snd (set_ef4_n b e)
  | elf_fp.SetStbN b => snd (set_stb_n b e)
  | elf_fp.Sleep _ => e
  end.

Definition apply_ops (t : list elf_fp.Op) (e : Elf) : Elf :=
  fold_left (fun e o => apply_op o e) t e.

(** The world once the operations [t] have been made, in order, and nothing
    else has happened. *)
Definition after (t : list elf_fp.Op) (w : elf_fp.World) : elf_fp.World :=
  elf_fp.mkWorld (apply_ops t (elf_fp.CARD w)) (elf_fp.ops w ++ t)
    (elf_fp.files w) (elf_fp.release_hooks w) (elf_fp.stdout w).

(** From [w] the procedure returns, having made exactly the operations [t]. *)
Definition runs (m : St elf_fp.World unit) (w : elf_fp.World)
    (t : list elf_fp.Op) : Prop :=
  m w = (Return tt, after t w).

(** One press of the input key, and a byte put on the data bus and entered
    with it. *)
Definition pulse : list elf_fp.Op :=
  [elf_fp.SetEf4N true; elf_fp.Sleep 5; elf_fp.SetEf4N false].

Definition stage (v : Z) : list elf_fp.Op := elf_fp.SetData v :: pulse.

Definition image (contents : list byte) : list elf_fp.Op :=
  flat_map (fun b => stage (elf_fp.byte_value b)) contents.

Definition is_pulse (a b c : elf_fp.Op) : bool :=
  match a, b, c with
  | elf_fp.SetEf4N true, elf_fp.Sleep ms, elf_fp.SetEf4N false => ms =? 5
  | _, _, _ => false
  end.

(** The presses of the input key in a record of operations. *)
Fixpoint count_pulses (t : list elf_fp.Op) : nat :=
  match t with
  | a :: ((b :: c :: rest) as tl) =>
      if is_pulse a b c then S (count_pulses rest) else count_pulses tl
  | _ => 0%nat
  end.

Definition run_monitor_ops : list elf_fp.Op :=
  [elf_fp.SetMode RESET; elf_fp.SetMode LOAD] ++
  stage 0xC0 ++ stage 0x80 ++ stage 0x00 ++
  [elf_fp.SetMode RESET; elf_fp.SetMode RUN].

Definition load_monitor_ops (bootstrap max_mon max_bios : list byte) :
    list elf_fp.Op :=
  [elf_fp.SetMode RESET; elf_fp.SetMode LOAD; elf_fp.SetMemProtect false] ++
  image bootstrap ++
  [elf_fp.SetMode RESET; elf_fp.SetMode RUN] ++
  stage 0x80 ++ stage 0x00 ++
  image max_mon ++
  [elf_fp.SetMode RESET; elf_fp.SetMode RUN] ++
  stage 0x84 ++ stage 0x00 ++
  image max_bios ++
  [elf_fp.SetMode RESET].

(** Reduction of a run of setter calls down to the records, leaving the
    integer operations as they stand. *)
Ltac run_setters :=
  cbv [after apply_ops apply_op fold_left snd fst
       set_data set_mode set_mem_protect set_ef4_n set_stb_n update_gpiob
       bind modify get ret
       with_mcp with_data with_mode with_ef4_n with_stb_n with_mem_protect
       assign _mcp _data _mode _ef4_n _stb_n _mem_protect
       iodira iodirb gpioa gpiob writes
       data mode mem_protect ef4_n stb_n port_a port_b
       elf_fp.CARD elf_fp.ops elf_fp.files elf_fp.release_hooks elf_fp.stdout
       pulse].

(** The operations a procedure adds to the record when run from [w]. *)
Definition new_ops {A} (m : St elf_fp.World A) (w : elf_fp.World) :
    list elf_fp.Op :=
  skipn (List.length (elf_fp.ops w)) (elf_fp.ops (snd (m w))).


(** A card found cold on both ports, and a world holding it together with
    three images of 3, 2 and 1 bytes. *)
Definition cold_bus : MCP23017 := mkMCP 0xFF 0xFF 0 0 [].

Definition three_images (name : string) : option (list byte) :=
  if (name =? "bootstrap.bin")%string then Some [x01; x02; x03]
  else if (name =? "max_mon.bin")%string then Some [x04; x05]
  else if (name =? "max_bios.bin")%string then Some [x06]
  else None.

Definition bench : elf_fp.World :=
  elf_fp.mkWorld (attached cold_bus) [] three_images [] [].

(** The hex-digit symbols, [0]-[9] and [a]-[f], with their values. *)
Definition hex_digit_table : list (N * Z) :=
  [(code "0", 0); (code "1", 1); (code "2", 2); (code "3", 3);
   (code "4", 4); (code "5", 5); (code "6", 6); (code "7", 7);
   (code "8", 8); (code "9", 9); (code "a", 10); (code "b", 11);
   (code "c", 12); (code "d", 13); (code "e", 14); (code "f", 15)].

Definition nibble_value (s : N) : option Z :=
  option_map snd (find (fun p => (fst p =? s)%N) hex_digit_table).

Definition is_hex_digit (s : N) : Prop := exists n, nibble_value s = Some n.

(** [((data << 4) | n) & 0xFF] *)
Definition shift_nibble (d n : Z) : Z := Z.land (Z.lor (Z.shiftl d 4) n) 0xFF.

(** The world after a hex digit was handled in CONTROL mode: the data
    setter was called once and the status line was printed. *)
Definition after_hex_digit (n : Z) (w : elf_fp.World) : elf_fp.World :=
  let d := shift_nibble (data (elf_fp.CARD w)) n in
  elf_fp.mkWorld (snd (set_data d (elf_fp.CARD w)))
    (elf_fp.ops w ++ [elf_fp.SetData d])
    (elf_fp.files w) (elf_fp.release_hooks w)
    (elf_fp.stdout w ++
     [elf_fp.StatusLine (Some (mode (elf_fp.CARD w)))
        (mem_protect (elf_fp.CARD w)) d]).

(** The data byte after a symbol was typed in CONTROL mode, for a run of
    hex digits. *)
Definition type_hex (d : Z) (s : N) : Z :=
  match nibble_value s with
  | Some n => shift_nibble d n
  | None => d
  end.

(** A printable symbol: a character code from space to tilde. *)
Definition printable (c : N) : bool := ((32 <=? c) && (c <=? 126))%N.

(** The keys [run_card] registers a release hook for. *)
Definition hooked_keys : list str := [lit "i"; lit "010"; lit " "].

(** C8, as the specification words it: in KEYBOARD mode every printable
    symbol received is sent (its code to data, then the strobe asserted),
    and the release of any such symbol, as of i, newline and space, reaches
    [on_release]. *)
Definition keyboard_mode_sends_every_symbol (wide_lower : N -> str) : Prop :=
  (forall (c : N) (w : elf_fp.World),
     printable c = true ->
     fst (elf_fp.loop_body wide_lower [c] elf_fp.KEYBOARD w) =
       Return (false, elf_fp.KEYBOARD) /\
     new_ops (elf_fp.loop_body wide_lower [c] elf_fp.KEYBOARD) w =
       [elf_fp.SetData (Z.of_N c); elf_fp.SetStbN true]) /\
  (forall (c : N) (w : elf_fp.World),
     printable c = true ->
     elf_fp.release_hooks w = hooked_keys ->
     elf_fp.deliver_release [c] w = elf_fp.on_release [c] w).

(** The lower-case forms beyond Latin-1 that the examples are run with:
    each such character is its own, as it is for a character without case.
    The characters the examples type are below 256, or without case. *)
Definition caseless (c : N) : str := [c].

(** The bench once [run_card] has registered its hooks, and the bench with
    0x05 on the data bus. *)
Definition hooked_bench : elf_fp.World :=
  elf_fp.with_release_hooks hooked_keys bench.

Definition bench_05 : elf_fp.World :=
  snd (elf_fp.CARD_set_data 0x05 bench).

(** * Further vocabulary *)

(** A card as a session leaves it: both ports are outputs, the stored data
    byte is the byte on port A, and the control fields agree with port B. *)
Definition settled (e : Elf) : Prop :=
  iodira (_mcp e) = OUTPUT /\
  iodirb (_mcp e) = OUTPUT /\
  data e = port_a e /\
  coherent e.

(** What can be observed of a card: the four registers and the five stored
    fields, without the record of port writes. *)
Definition observed (e : Elf) : Z * Z * Z * Z * (Z * Mode * bool * bool * bool) :=
  (iodira (_mcp e), iodirb (_mcp e), port_a e, port_b e,
   (data e, mode e, mem_protect e, ef4_n e, stb_n e)).

(** Two calls go to the same setter. *)
Definition same_setter (c1 c2 : Call) : bool :=
  match c1, c2 with
  | CallData _, CallData _ => true
  | CallMode _, CallMode _ => true
  | CallMemProtect _, CallMemProtect _ => true
  | CallEf4N _, CallEf4N _ => true
  | CallStbN _, CallStbN _ => true
  | _, _ => false
  end.

(** A call that the setter acts on: any call but a mode call with a value
    that is no member of the enumeration. *)
Definition effective (c : Call) : bool :=
  match c with
  | CallMode v => is_mode v
  | _ => true
  end.

(** The symbols [on_key] has a branch for. *)
Definition on_key_symbols : list str :=
  map lit
    ["i"; "010"; " ";
     "0"; "1"; "2"; "3"; "4"; "5"; "6"; "7"; "8"; "9";
     "a"; "b"; "c"; "d"; "e"; "f";
     "l"; "r"; "g"; "w"; "p"; "z"; "m"]%char.

Definition has_branch (key : str) : bool :=
  existsb (fun s => key == s) on_key_symbols.

(** The character ends the session: its lower-case form is q, as that of q
    and of Q is. *)
Definition is_quit (wide_lower : N -> str) (c : N) : bool :=
  lower wide_lower [c] == lit "q".

(** The character changes the interaction mode: its lower-case form is the
    character of code 0. *)
Definition is_toggle (wide_lower : N -> str) (c : N) : bool :=
  lower wide_lower [c] == [0%N].

(** An input whose typed characters all have a code below 256. *)
Definition narrow (ev : elf_fp.Event) : Prop :=
  match ev with
  | elf_fp.Typed c => (c < 256)%N
  | elf_fp.Released _ => True
  end.

(** The card after a setter call, written out. *)
Definition step (c : Call) (e : Elf) : Elf :=
  match c with
  | CallData v => with_mcp (assign GPIOA v) (with_data v e)
  | CallMode (PyMode m) =>
      with_mcp (assign GPIOB (mode_byte m (port_b e))) (with_mode m e)
  | CallMode _ => e
  | CallMemProtect v =>
      with_mcp (assign GPIOB (protect_byte v (port_b e))) (with_mem_protect v e)
  | CallEf4N v =>
      with_mcp (assign GPIOB (line_byte EF4_N v (port_b e))) (with_ef4_n v e)
  | CallStbN v =>
      with_mcp (assign GPIOB (line_byte STB_N v (port_b e))) (with_stb_n v e)
  end.

(** The call that writes back what the getter of the same field returns. *)
Definition write_back (c : Call) (e : Elf) : Call :=
  match c with
  | CallData _ => CallData (data e)
  | CallMode _ => CallMode (PyMode (mode e))
  | CallMemProtect _ => CallMemProtect (mem_protect e)
  | CallEf4N _ => CallEf4N (ef4_n e)
  | CallStbN _ => CallStbN (stb_n e)
  end.

(** The other interaction mode. *)
Definition other_mode (m : elf_fp.Mode) : elf_fp.Mode :=
  match m with
  | elf_fp.CONTROL => elf_fp.KEYBOARD
  | elf_fp.KEYBOARD => elf_fp.CONTROL
  end.

(** From [w] the procedure raises [x], having made exactly the operations
    [t] before. *)
Definition raises (m : St elf_fp.World unit) (w : elf_fp.World) (x : exn)
    (t : list elf_fp.Op) : Prop :=
  m w = (Raise x, after t w).

(** The world when the loop of [run_card] starts: the three hooks are
    registered and the first status line is printed. *)
Definition session_start (w : elf_fp.World) : elf_fp.World :=
  snd ((elf_fp.on_release_key (lit "i") ;;
        elf_fp.on_release_key (lit "010") ;;
        elf_fp.on_release_key (lit " ") ;;
        elf_fp.update_status elf_fp.CONTROL) w).

(** The bench with one of the image files taken away. *)
Definition bench_without (name : string) : elf_fp.World :=
  elf_fp.mkWorld (attached cold_bus) []
    (fun n => if (n =? name)%string then None else three_images n) [] [].

(** A value that fits a port, and a port write of such a value to one of
    the two data registers. *)
Definition is_byte (v : Z) : Prop := 0 <= v < 256.

Definition gpio_byte (x : Reg * Z) : Prop :=
  (fst x = GPIOA \/ fst x = GPIOB) /\ is_byte (snd x).

(** Since [w0] the card of [w] has only had bytes written to its two data
    registers, and port B holds a byte. *)
Definition wrote_bytes_since (w0 w : elf_fp.World) : Prop :=
  exists t : list (Reg * Z),
    writes (_mcp (elf_fp.CARD w)) =
      (writes (_mcp (elf_fp.CARD w0)) ++ t)%list /\
    Forall gpio_byte t /\
    is_byte (port_b (elf_fp.CARD w)).

(** Since [w0] every status line printed is 38 characters long, and the
    data byte of the card is a byte. *)
Definition fixed_width (o : elf_fp.Out) : Prop :=
  o = elf_fp.NewLine \/ String.length (elf_fp.render o) = 38%nat.

Definition printed_fixed_width_since (w0 w : elf_fp.World) : Prop :=
  is_byte (data (elf_fp.CARD w)) /\
  exists outs : list elf_fp.Out,
    elf_fp.stdout w = (elf_fp.stdout w0 ++ outs)%list /\
    Forall fixed_width outs.

(** The low five bits of port B that the stored fields stand for: the mode
    value, the two active-low lines and memory protection. *)
Definition control_bits (m : Mode) (protect ef4 stb : bool) : Z :=
  Z.lor (value m)
    (Z.lor (if ef4 then 0 else EF4_N)
       (Z.lor (if stb then 0 else STB_N) (if protect then MEM_PROTECT else 0))).

(** The last value a run of operations gives to a field, [d] when it gives
    none: [pick] tells the value an operation writes to the field. *)
Fixpoint last_written {A} (pick : elf_fp.Op -> option A)
    (t : list elf_fp.Op) (d : A) : A :=
  match t with
  | [] => d
  | o :: t' =>
      last_written pick t' (match pick o with Some v => v | None => d end)
  end.

Definition data_of (o : elf_fp.Op) : option Z :=
  match o with elf_fp.SetData v => Some v | _ => None end.
Definition mode_of (o : elf_fp.Op) : option Mode :=
  match o with elf_fp.SetMode m => Some m | _ => None end.
Definition protect_of (o : elf_fp.Op) : option bool :=
  match o with elf_fp.SetMemProtect b => Some b | _ => None end.
Definition ef4_of (o : elf_fp.Op) : option bool :=
  match o with elf_fp.SetEf4N b => Some b | _ => None end.
Definition stb_of (o : elf_fp.Op) : option bool :=
  match o with elf_fp.SetStbN b => Some b | _ => None end.

(** * Properties *)

(** ** Bits of the control port *)

Lemma testbit_5bit_high (c n : Z) :
  0 <= c < 32 -> 5 <= n -> Z.testbit c n = false.
Proof.
  intros Hc Hn.
  rewrite <- (Z.mod_small c (2 ^ 5)) by (change (2 ^ 5) with 32; lia).
  apply Z.mod_pow2_bits_high. lia.
Qed.

(** Bit [n] of an expression built from variables and constants below 32:
    split on the five low positions, and on all the higher ones at once. *)
Ltac low_bit_cases n :=
  destruct (Z.eq_dec n 0) as [->|];
  [ | destruct (Z.eq_dec n 1) as [->|];
  [ | destruct (Z.eq_dec n 2) as [->|];
  [ | destruct (Z.eq_dec n 3) as [->|];
  [ | destruct (Z.eq_dec n 4) as [->|];
  [ | assert (5 <= n) by lia ]]]]].

Ltac abstract_var_bits :=
  repeat match goal with
         | |- context [Z.testbit ?v ?k] =>
             is_var v; generalize (Z.testbit v k); intro
         end.

Ltac const_bits n :=
  repeat match goal with
         | |- context [Z.testbit ?c n] =>
             rewrite (testbit_5bit_high c n) by lia
         end.

Ltac bool_cases :=
  repeat match goal with
         | x : bool |- _ => destruct x
         end;
  try reflexivity; try discriminate.

Ltac bitwise :=
  let n := fresh "n" in
  let Hn := fresh "Hn" in
  apply Z.bits_inj'; intros n Hn;
  repeat first [ rewrite Z.land_spec | rewrite Z.lor_spec
               | rewrite Z.lnot_spec by assumption ];
  abstract_var_bits;
  low_bit_cases n;
  [ vm_compute; bool_cases .. | const_bits n; bool_cases ].

Lemma consts :
  MODE = 24 /\ WAIT_N = 16 /\ CLEAR_N = 8 /\ EF4_N = 4 /\ STB_N = 2 /\
  MEM_PROTECT = 1.
Proof. repeat split. Qed.

Lemma mode_field_written (b : Z) (m : Mode) :
  Z.land (Z.lor (Z.land b (Z.lnot MODE)) (value m)) MODE = value m.
Proof.
  change MODE with 24. destruct m; cbv [value]; bitwise.
Qed.

Lemma mode_field_frame (b : Z) (m : Mode) :
  same_outside MODE (Z.lor (Z.land b (Z.lnot MODE)) (value m)) b.
Proof.
  unfold same_outside. change MODE with 24. destruct m; cbv [value]; bitwise.
Qed.

Lemma same_outside_testbit (mask a b i : Z) :
  same_outside mask a b -> 0 <= i -> Z.testbit mask i = false ->
  Z.testbit a i = Z.testbit b i.
Proof.
  unfold same_outside. intros H Hi Hm.
  apply (f_equal (fun z => Z.testbit z i)) in H.
  rewrite !Z.land_spec, Z.lnot_spec, Hm in H by assumption.
  cbn in H. now rewrite !andb_true_r in H.
Qed.

Lemma same_outside_land (mask a b f : Z) :
  same_outside mask a b -> Z.land mask f = 0 -> Z.land a f = Z.land b f.
Proof.
  intros H Hf. apply Z.bits_inj'. intros n Hn.
  rewrite !Z.land_spec.
  destruct (Z.testbit f n) eqn:Ef; [ | now rewrite !andb_false_r ].
  rewrite !andb_true_r. apply (same_outside_testbit mask); trivial.
  apply (f_equal (fun z => Z.testbit z n)) in Hf.
  rewrite Z.land_spec, Ef, Z.bits_0, andb_true_r in Hf. exact Hf.
Qed.

Lemma land_bit (b k : Z) :
  0 <= k -> Z.land b (2 ^ k) = if Z.testbit b k then 2 ^ k else 0.
Proof.
  intros Hk. apply Z.bits_inj'. intros n Hn.
  rewrite Z.land_spec, Z.pow2_bits_eqb by assumption.
  destruct (Z.eqb_spec k n) as [->|Hne].
  - destruct (Z.testbit b n) eqn:E.
    + now rewrite Z.pow2_bits_eqb, Z.eqb_refl.
    + now rewrite Z.bits_0.
  - rewrite andb_false_r. destruct (Z.testbit b k).
    + rewrite Z.pow2_bits_eqb by assumption.
      symmetry. now apply Z.eqb_neq.
    + now rewrite Z.bits_0.
Qed.

(** [bool(state & BIT)] is bit [k] of [state] when [BIT = 1 << k]. *)
Lemma truthy_bit (b k : Z) :
  0 <= k -> truthy (Z.land b (Z.shiftl 1 k)) = Z.testbit b k.
Proof.
  intros Hk. unfold truthy.
  rewrite Z.shiftl_1_l, land_bit by assumption.
  destruct (Z.testbit b k); [ | reflexivity ].
  destruct (Z.eqb_spec (2 ^ k) 0) as [E|]; [ | reflexivity ].
  pose proof (Z.pow_pos_nonneg 2 k). lia.
Qed.

Lemma bit_set_frame (b c : Z) : same_outside c (Z.lor b c) b.
Proof.
  unfold same_outside. apply Z.bits_inj'. intros n Hn.
  rewrite !Z.land_spec, Z.lor_spec, Z.lnot_spec by assumption.
  destruct (Z.testbit b n), (Z.testbit c n); reflexivity.
Qed.

Lemma bit_clear_frame (b c : Z) : same_outside c (Z.land b (Z.lnot c)) b.
Proof.
  unfold same_outside. apply Z.bits_inj'. intros n Hn.
  rewrite !Z.land_spec, Z.lnot_spec by assumption.
  destruct (Z.testbit b n), (Z.testbit c n); reflexivity.
Qed.

Lemma bit_set_written (b k : Z) :
  0 <= k -> Z.testbit (Z.lor b (Z.shiftl 1 k)) k = true.
Proof.
  intros Hk.
  now rewrite Z.lor_spec, Z.shiftl_1_l, Z.pow2_bits_true, orb_true_r.
Qed.

Lemma bit_clear_written (b k : Z) :
  0 <= k -> Z.testbit (Z.land b (Z.lnot (Z.shiftl 1 k))) k = false.
Proof.
  intros Hk.
  rewrite Z.land_spec, Z.lnot_spec, Z.shiftl_1_l, Z.pow2_bits_true by assumption.
  apply andb_false_r.
Qed.

(** ** The setters in closed form *)

Lemma set_data_eq (v : Z) (e : Elf) :
  set_data v e =
  (Return tt, with_mcp (assign GPIOA v) (with_data v e)).
Proof. reflexivity. Qed.

Lemma set_mode_eq (m : Mode) (e : Elf) :
  set_mode (PyMode m) e =
  (Return tt,
   with_mcp (assign GPIOB (mode_byte m (port_b e))) (with_mode m e)).
Proof. reflexivity. Qed.

Lemma set_ef4_n_eq (v : bool) (e : Elf) :
  set_ef4_n v e =
  (Return tt,
   with_mcp (assign GPIOB (line_byte EF4_N v (port_b e))) (with_ef4_n v e)).
Proof. destruct v; reflexivity. Qed.

Lemma set_stb_n_eq (v : bool) (e : Elf) :
  set_stb_n v e =
  (Return tt,
   with_mcp (assign GPIOB (line_byte STB_N v (port_b e))) (with_stb_n v e)).
Proof. destruct v; reflexivity. Qed.

Lemma set_mem_protect_eq (v : bool) (e : Elf) :
  set_mem_protect v e =
  (Return tt,
   with_mcp (assign GPIOB (protect_byte v (port_b e))) (with_mem_protect v e)).
Proof. destruct v; reflexivity. Qed.

Lemma line_byte_frame (BIT : Z) (v : bool) (b : Z) :
  same_outside BIT (line_byte BIT v b) b.
Proof. destruct v; [ apply bit_clear_frame | apply bit_set_frame ]. Qed.

Lemma line_byte_written (k : Z) (v : bool) (b : Z) :
  0 <= k -> Z.testbit (line_byte (Z.shiftl 1 k) v b) k = negb v.
Proof.
  intros Hk.
  destruct v; [ now apply bit_clear_written | now apply bit_set_written ].
Qed.

Lemma protect_byte_frame (v : bool) (b : Z) :
  same_outside MEM_PROTECT (protect_byte v b) b.
Proof. destruct v; [ apply bit_set_frame | apply bit_clear_frame ]. Qed.

Lemma protect_byte_written (v : bool) (b : Z) :
  Z.testbit (protect_byte v b) 0 = v.
Proof.
  destruct v; [ now apply (bit_set_written b 0) | now apply (bit_clear_written b 0) ].
Qed.

(** ** The register store, field by field *)

(** C3.  Each setter of a control-port field writes its own field and
    nothing else: the other three getters, the data byte and port A read as
    before, and the control byte keeps every bit outside the field's mask.
    In particular after [set_mode X] the mode reads [X] for each of the four
    modes. *)
Theorem setters_leave_other_fields (e : Elf) :
  (forall X : Mode,
     let r := set_mode (PyMode X) e in
     fst r = Return tt /\
     mode (snd r) = X /\
     mem_protect (snd r) = mem_protect e /\
     ef4_n (snd r) = ef4_n e /\
     stb_n (snd r) = stb_n e /\
     data (snd r) = data e /\
     port_a (snd r) = port_a e /\
     same_outside MODE (port_b (snd r)) (port_b e) /\
     Z.land (port_b (snd r)) MODE = value X) /\
  (forall v : bool,
     let r := set_mem_protect v e in
     fst r = Return tt /\
     mem_protect (snd r) = v /\
     mode (snd r) = mode e /\
     ef4_n (snd r) = ef4_n e /\
     stb_n (snd r) = stb_n e /\
     data (snd r) = data e /\
     port_a (snd r) = port_a e /\
     same_outside MEM_PROTECT (port_b (snd r)) (port_b e) /\
     Z.testbit (port_b (snd r)) 0 = v) /\
  (forall v : bool,
     let r := set_ef4_n v e in
     fst r = Return tt /\
     ef4_n (snd r) = v /\
     mode (snd r) = mode e /\
     mem_protect (snd r) = mem_protect e /\
     stb_n (snd r) = stb_n e /\
     data (snd r) = data e /\
     port_a (snd r) = port_a e /\
     same_outside EF4_N (port_b (snd r)) (port_b e) /\
     Z.testbit (port_b (snd r)) 2 = negb v) /\
  (forall v : bool,
     let r := set_stb_n v e in
     fst r = Return tt /\
     stb_n (snd r) = v /\
     mode (snd r) = mode e /\
     mem_protect (snd r) = mem_protect e /\
     ef4_n (snd r) = ef4_n e /\
     data (snd r) = data e /\
     port_a (snd r) = port_a e /\
     same_outside STB_N (port_b (snd r)) (port_b e) /\
     Z.testbit (port_b (snd r)) 1 = negb v).
Proof.
  split; [ | split; [ | split ] ]; intros v r; subst r.
  - rewrite set_mode_eq. repeat split.
    + apply mode_field_frame.
    + apply mode_field_written.
  - rewrite set_mem_protect_eq. repeat split.
    + apply protect_byte_frame.
    + apply protect_byte_written.
  - rewrite set_ef4_n_eq. repeat split.
    + apply line_byte_frame.
    + now apply (line_byte_written 2).
  - rewrite set_stb_n_eq. repeat split.
    + apply line_byte_frame.
    + now apply (line_byte_written 1).
Qed.

Lemma set_mode_skips (v : PyVal) (e : Elf) :
  is_mode v = false -> set_mode v e = (Return tt, e).
Proof.
  destruct v; intros H; try discriminate H; reflexivity.
Qed.

(** C5 fails on the code: handed the integer 5 the setter returns normally;
    nothing is raised. *)
Lemma set_mode_does_not_raise : ~ rejects_foreign_values.
Proof.
  intros H. destruct (H (PyInt 5) blank eq_refl) as [[x Hx] _].
  discriminate Hx.
Qed.

(** C5, amended.  A value that is no member of the enumeration is ignored:
    the setter returns normally and the object, the control port and the
    record of port writes are exactly as before. *)
Theorem set_mode_ignores_foreign_values (v : PyVal) (e : Elf) :
  is_mode v = false -> set_mode v e = (Return tt, e).
Proof. exact (set_mode_skips v e). Qed.

Lemma set_mode_ignores_foreign_values_witness :
  is_mode (PyInt 5) = false /\ set_mode (PyInt 5) blank = (Return tt, blank).
Proof.
  split; [ reflexivity | ].
  apply (set_mode_ignores_foreign_values (PyInt 5) blank). reflexivity.
Defined.

(** C10.  The data setter stores and writes its argument as it is, whatever
    the integer: the getter returns it, port A holds it, and the one port
    write it makes carries it; nothing else changes.  So 0x1234 and -1 are
    kept whole.  Of the program's three call sites only the hex-digit one
    masks, with [& 0xff], before it calls the setter. *)
Theorem set_data_keeps_value_unmasked :
  (forall (v : Z) (e : Elf),
     let r := set_data v e in
     fst r = Return tt /\
     data (snd r) = v /\
     port_a (snd r) = v /\
     writes (_mcp (snd r)) = (writes (_mcp e) ++ [(GPIOA, v)])%list /\
     mode (snd r) = mode e /\
     mem_protect (snd r) = mem_protect e /\
     ef4_n (snd r) = ef4_n e /\
     stb_n (snd r) = stb_n e /\
     port_b (snd r) = port_b e) /\
  data (snd (set_data 0x1234 blank)) = 0x1234 /\
  data (snd (set_data (-1) blank)) = -1 /\
  (forall (n : Z) (w : elf_fp.World),
     let r := elf_fp.shift_in n w in
     let d := Z.land (Z.lor (Z.shiftl (data (elf_fp.CARD w)) 4) n) 0xff in
     fst r = Return tt /\
     data (elf_fp.CARD (snd r)) = d /\
     0 <= d < 256).
Proof.
  split; [ | split; [ | split ] ]; try reflexivity.
  - intros v e r. subst r. rewrite set_data_eq. repeat split.
  - intros n w r d. subst r. split; [ reflexivity | ]. split; [ reflexivity | ].
    subst d. change 0xff with (Z.ones 8). rewrite Z.land_ones by lia.
    change (2 ^ 8) with 256. apply Z.mod_pos_bound. lia.
Qed.

(** ** Decoding the control byte *)

Lemma mode_field_split (b : Z) :
  Z.land b MODE =
  Z.lor (if Z.testbit b 4 then 16 else 0) (if Z.testbit b 3 then 8 else 0).
Proof.
  change 16 with (2 ^ 4). change 8 with (2 ^ 3).
  rewrite <- !land_bit by lia.
  change MODE with 24. change (2 ^ 4) with 16. change (2 ^ 3) with 8.
  bitwise.
Qed.

Lemma mode_field_value (b : Z) :
  Z.land b MODE = value (mode_of_lines (Z.testbit b 4) (Z.testbit b 3)).
Proof.
  rewrite mode_field_split.
  destruct (Z.testbit b 4), (Z.testbit b 3); reflexivity.
Qed.

Lemma Mode_of_value (m : Mode) : Mode_of (value m) = Some m.
Proof. destruct m; reflexivity. Qed.

Lemma Mode_of_field (b : Z) :
  Mode_of (Z.land b MODE) =
  Some (mode_of_lines (Z.testbit b 4) (Z.testbit b 3)).
Proof. rewrite mode_field_value. apply Mode_of_value. Qed.

(** ** Construction in closed form *)

Lemma init_eq (bus : MCP23017) (self : Elf) :
  init bus self = (Return tt, attached bus).
Proof.
  destruct bus as [ia ib ga gb ws].
  unfold init, attached, after_port_a, after_port_b, set_data, bind, modify, get.
  cbn [with_mcp with_data _mcp _data iodira iodirb gpioa gpiob].
  destruct (ia =? OUTPUT) eqn:Ea; cbn [negb];
    cbn [with_mcp with_data _mcp _data iodira iodirb gpioa gpiob assign];
    rewrite ?Ea;
    (destruct (ib =? OUTPUT) eqn:Eb; cbn [negb];
     [ rewrite Mode_of_field;
       unfold EF4_N, STB_N, MEM_PROTECT;
       rewrite (truthy_bit gb 2), (truthy_bit gb 1), (truthy_bit gb 0) by lia;
       reflexivity
     | reflexivity ]).
Qed.

(** [Elf()] always returns, and what it returns does not depend on the
    object [init] started from. *)
Lemma new_eq (bus : MCP23017) : new bus = Return (attached bus).
Proof. unfold new. now rewrite init_eq. Qed.

Lemma cold_start_low_bits (b : Z) : Z.land (cold_b4 b) 0x1F = 0x16.
Proof.
  unfold cold_b4, cold_b3, cold_b2, cold_b1, protect_byte, line_byte, mode_byte.
  change MODE with 24. change (value RESET) with 16. change EF4_N with 4.
  change STB_N with 2. change MEM_PROTECT with 1.
  bitwise.
Qed.

Lemma cold_start_high_bits (b : Z) : same_outside 0x1F (cold_b4 b) b.
Proof.
  unfold same_outside, cold_b4, cold_b3, cold_b2, cold_b1, protect_byte,
    line_byte, mode_byte.
  change MODE with 24. change (value RESET) with 16. change EF4_N with 4.
  change STB_N with 2. change MEM_PROTECT with 1.
  bitwise.
Qed.

Lemma cold_start_bit (b k : Z) :
  0 <= k < 5 -> Z.testbit (cold_b4 b) k = Z.testbit 0x16 k.
Proof.
  intros Hk. rewrite <- (cold_start_low_bits b), Z.land_spec.
  assert (Z.testbit 0x1F k = true) as ->.
  { assert (k = 0 \/ k = 1 \/ k = 2 \/ k = 3 \/ k = 4) as H by lia.
    destruct H as [->|[->|[->|[->| ->]]]]; reflexivity. }
  now rewrite andb_true_r.
Qed.

(** C6.  [Elf()] returns an object, and treats the two ports separately,
    each by its own direction register.  A port that does not read
    all-output is set to all-output and given its defaults through the
    setters (port A: data 0; port B: RESET, protection off, both lines
    released), which is what the getters then return; its low five bits end
    as 0x16 and the three unused bits stay.  A port that already reads
    all-output is not written at all, and the getters return what its byte
    decodes to: the data byte itself, the mode of bits 4 and 3, the two
    lines as the inverse of bits 2 and 1, protection as bit 0.  [wa] and
    [wb] are the port writes made, in order, for port A and then port B. *)
Theorem new_attaches_or_initializes (bus : MCP23017) :
  exists (e : Elf) (wa wb : list (Reg * Z)),
    new bus = Return e /\
    writes (_mcp e) = (writes bus ++ wa ++ wb)%list /\
    (if iodira bus =? OUTPUT
     then wa = [] /\
          iodira (_mcp e) = iodira bus /\
          port_a e = gpioa bus /\
          data e = gpioa bus
     else wa = [(IODIRA, OUTPUT); (GPIOA, 0)] /\
          iodira (_mcp e) = OUTPUT /\
          port_a e = 0 /\
          data e = 0) /\
    (if iodirb bus =? OUTPUT
     then wb = [] /\
          iodirb (_mcp e) = iodirb bus /\
          port_b e = gpiob bus /\
          value (mode e) = Z.land (gpiob bus) MODE /\
          mode e = mode_of_lines (Z.testbit (gpiob bus) 4) (Z.testbit (gpiob bus) 3) /\
          ef4_n e = negb (Z.testbit (gpiob bus) 2) /\
          stb_n e = negb (Z.testbit (gpiob bus) 1) /\
          mem_protect e = Z.testbit (gpiob bus) 0
     else wb = [(IODIRB, OUTPUT);
                (GPIOB, mode_byte RESET (gpiob bus));
                (GPIOB, line_byte EF4_N false (mode_byte RESET (gpiob bus)));
                (GPIOB, line_byte STB_N false
                          (line_byte EF4_N false (mode_byte RESET (gpiob bus))));
                (GPIOB, port_b e)] /\
          iodirb (_mcp e) = OUTPUT /\
          port_b e =
            protect_byte false
              (line_byte STB_N false
                 (line_byte EF4_N false (mode_byte RESET (gpiob bus)))) /\
          Z.land (port_b e) 0x1F = 0x16 /\
          same_outside 0x1F (port_b e) (gpiob bus) /\
          mode e = RESET /\
          mem_protect e = false /\
          ef4_n e = false /\
          stb_n e = false).
Proof.
  exists (attached bus).
  exists (if iodira bus =? OUTPUT then [] else [(IODIRA, OUTPUT); (GPIOA, 0)]).
  exists (if iodirb bus =? OUTPUT then []
          else [(IODIRB, OUTPUT);
                (GPIOB, cold_b1 (gpiob bus)); (GPIOB, cold_b2 (gpiob bus));
                (GPIOB, cold_b3 (gpiob bus)); (GPIOB, cold_b4 (gpiob bus))]).
  split; [ apply new_eq | ].
  destruct bus as [ia ib ga gb ws].
  unfold attached, after_port_b, after_port_a, port_a, port_b, data, mode,
    ef4_n, stb_n, mem_protect.
  cbn [iodira iodirb gpioa gpiob writes].
  destruct (ia =? OUTPUT) eqn:Ea; destruct (ib =? OUTPUT) eqn:Eb;
    cbn [assign iodira iodirb gpioa gpiob writes _mcp _data _mode _ef4_n
           _stb_n _mem_protect];
    rewrite ?Eb; cbn [assign iodira iodirb gpioa gpiob writes];
    rewrite <- ?app_assoc; cbn [app];
    repeat match goal with
           | |- _ /\ _ => split
           end;
    try reflexivity;
    try (symmetry; apply app_nil_r);
    try (symmetry; apply mode_field_value);
    try apply cold_start_low_bits;
    try apply cold_start_high_bits.
Qed.

(** ** The encoding is an invariant *)

Lemma attached_coherent (bus : MCP23017) : coherent (attached bus).
Proof.
  destruct bus as [ia ib ga gb ws].
  unfold coherent, attached, after_port_b, after_port_a, port_b, mode, ef4_n,
    stb_n, mem_protect.
  cbn [iodira iodirb gpioa gpiob _mcp _mode _ef4_n _stb_n _mem_protect].
  destruct (ia =? OUTPUT); cbn [assign iodirb gpiob];
    (destruct (ib =? OUTPUT) eqn:Eb; cbn [assign gpiob];
     [ repeat split; symmetry; apply mode_field_value
     | rewrite !cold_start_bit by lia;
       repeat split;
       change MODE with 24; change 24 with (Z.land 0x1F 24);
       rewrite Z.land_assoc, cold_start_low_bits; reflexivity ]).
Qed.

Lemma set_data_coherent (v : Z) (e : Elf) :
  coherent e -> coherent (snd (set_data v e)).
Proof. rewrite set_data_eq. exact (fun H => H). Qed.

Lemma set_mode_coherent (v : PyVal) (e : Elf) :
  coherent e -> coherent (snd (set_mode v e)).
Proof.
  intros H. destruct (is_mode v) eqn:Ev.
  - destruct v as [m| | | |]; try discriminate Ev.
    destruct H as (_ & He & Hs & Hp).
    rewrite set_mode_eq.
    pose proof (mode_field_frame (port_b e) m) as F.
    unfold coherent, port_b, mode, ef4_n, stb_n, mem_protect in *.
    cbn [snd with_mcp with_mode assign gpiob _mcp _mode _ef4_n _stb_n
           _mem_protect].
    unfold mode_byte in *.
    rewrite (same_outside_testbit _ _ _ 2 F), (same_outside_testbit _ _ _ 1 F),
      (same_outside_testbit _ _ _ 0 F) by (lia || reflexivity).
    repeat split; trivial.
    symmetry. apply mode_field_written.
  - now rewrite set_mode_skips.
Qed.

Lemma set_ef4_n_coherent (v : bool) (e : Elf) :
  coherent e -> coherent (snd (set_ef4_n v e)).
Proof.
  intros (Hm & _ & Hs & Hp).
  rewrite set_ef4_n_eq.
  pose proof (line_byte_frame EF4_N v (port_b e)) as F.
  pose proof (line_byte_written 2 v (port_b e)) as W.
  unfold coherent, port_b, mode, ef4_n, stb_n, mem_protect in *.
  cbn [snd with_mcp with_ef4_n assign gpiob _mcp _mode _ef4_n _stb_n
         _mem_protect].
  rewrite (same_outside_land _ _ _ MODE F), (same_outside_testbit _ _ _ 1 F),
    (same_outside_testbit _ _ _ 0 F) by (lia || reflexivity).
  repeat split; trivial.
  change EF4_N with (Z.shiftl 1 2). rewrite W by lia. now destruct v.
Qed.

Lemma set_stb_n_coherent (v : bool) (e : Elf) :
  coherent e -> coherent (snd (set_stb_n v e)).
Proof.
  intros (Hm & He & _ & Hp).
  rewrite set_stb_n_eq.
  pose proof (line_byte_frame STB_N v (port_b e)) as F.
  pose proof (line_byte_written 1 v (port_b e)) as W.
  unfold coherent, port_b, mode, ef4_n, stb_n, mem_protect in *.
  cbn [snd with_mcp with_stb_n assign gpiob _mcp _mode _ef4_n _stb_n
         _mem_protect].
  rewrite (same_outside_land _ _ _ MODE F), (same_outside_testbit _ _ _ 2 F),
    (same_outside_testbit _ _ _ 0 F) by (lia || reflexivity).
  repeat split; trivial.
  change STB_N with (Z.shiftl 1 1). rewrite W by lia. now destruct v.
Qed.

Lemma set_mem_protect_coherent (v : bool) (e : Elf) :
  coherent e -> coherent (snd (set_mem_protect v e)).
Proof.
  intros (Hm & He & Hs & _).
  rewrite set_mem_protect_eq.
  pose proof (protect_byte_frame v (port_b e)) as F.
  pose proof (protect_byte_written v (port_b e)) as W.
  unfold coherent, port_b, mode, ef4_n, stb_n, mem_protect in *.
  cbn [snd with_mcp with_mem_protect assign gpiob _mcp _mode _ef4_n _stb_n
         _mem_protect].
  rewrite (same_outside_land _ _ _ MODE F), (same_outside_testbit _ _ _ 2 F),
    (same_outside_testbit _ _ _ 1 F) by (lia || reflexivity).
  repeat split; trivial. now rewrite W.
Qed.

Lemma call_coherent (c : Call) (e : Elf) :
  coherent e -> coherent (snd (call c e)).
Proof.
  destruct c; cbn [call].
  - apply set_data_coherent.
  - apply set_mode_coherent.
  - apply set_mem_protect_coherent.
  - apply set_ef4_n_coherent.
  - apply set_stb_n_coherent.
Qed.

(** ** The front panel keeps what the setters keep *)

Section Keeps.

Variable Q : elf_fp.World -> Prop.
Hypothesis Q_card :
  forall c w, Q w -> Q (elf_fp.with_CARD (snd (call c (elf_fp.CARD w))) w).
Hypothesis Q_ops : forall t w, Q w -> Q (elf_fp.with_ops t w).
Hypothesis Q_stdout : forall o w, Q w -> Q (elf_fp.with_stdout o w).

Lemma keeps_ret {A} (a : A) : keeps Q (ret a).
Proof. intros w H. exact H. Qed.

Lemma keeps_raise {A} (x : exn) : keeps Q (@raise _ A x).
Proof. intros w H. exact H. Qed.

Lemma keeps_get : keeps Q get.
Proof. intros w H. exact H. Qed.

Lemma keeps_lift {A} (o : outcome A) : keeps Q (lift o).
Proof. intros w H. exact H. Qed.

Lemma keeps_bind {A B} (m : St elf_fp.World A) (k : A -> St elf_fp.World B) :
  keeps Q m -> (forall a, keeps Q (k a)) -> keeps Q (bind m k).
Proof.
  intros Hm Hk w H. unfold bind.
  specialize (Hm w H). destruct (m w) as [[a|x] w']; cbn [snd] in *.
  - now apply Hk.
  - exact Hm.
Qed.

Lemma keeps_bind_lift {A B} (o : outcome A) (k : A -> St elf_fp.World B) :
  (forall a, o = Return a -> keeps Q (k a)) -> keeps Q (bind (lift o) k).
Proof.
  intros Hk w H. unfold bind, lift.
  destruct o as [a|x]; [ now apply (Hk a) | exact H ].
Qed.

Lemma keeps_record (o : elf_fp.Op) : keeps Q (elf_fp.record o).
Proof. intros w H. now apply Q_ops. Qed.

Lemma keeps_print (o : elf_fp.Out) : keeps Q (elf_fp.print o).
Proof. intros w H. now apply Q_stdout. Qed.

Lemma keeps_card_call (c : Call) : keeps Q (elf_fp.card (call c)).
Proof.
  intros w H. unfold elf_fp.card.
  specialize (Q_card c _ H).
  destruct (call c (elf_fp.CARD w)) as [r e']. exact Q_card.
Qed.

(** One step on a goal [keeps Q m], chosen by the shape of [m]. *)
Ltac keep_basic :=
  idtac; lazymatch goal with
  | |- keeps _ (bind _ _) => apply keeps_bind; [ | intros ? ]
  | |- keeps _ (ret _) => apply keeps_ret
  | |- keeps _ (raise _) => apply keeps_raise
  | |- keeps _ get => apply keeps_get
  | |- keeps _ (lift _) => apply keeps_lift
  | |- keeps _ (elf_fp.record _) => apply keeps_record
  | |- keeps _ (elf_fp.time_sleep _) => apply keeps_record
  | |- keeps _ (elf_fp.print _) => apply keeps_print
  | |- keeps _ (if ?c then _ else _) => destruct c
  | |- keeps _ (match ?c with _ => _ end) => destruct c
  end.

Ltac keep_with tac := repeat first [ tac | keep_basic | assumption ].

Lemma keeps_set_data (v : Z) : keeps Q (elf_fp.CARD_set_data v).
Proof.
  apply keeps_bind; [ apply keeps_record | intros _ ].
  apply (keeps_card_call (CallData v)).
Qed.

Lemma keeps_set_mode (m : Mode) : keeps Q (elf_fp.CARD_set_mode m).
Proof.
  apply keeps_bind; [ apply keeps_record | intros _ ].
  apply (keeps_card_call (CallMode (PyMode m))).
Qed.

Lemma keeps_set_mem_protect (v : bool) : keeps Q (elf_fp.CARD_set_mem_protect v).
Proof.
  apply keeps_bind; [ apply keeps_record | intros _ ].
  apply (keeps_card_call (CallMemProtect v)).
Qed.

Lemma keeps_set_ef4_n (v : bool) : keeps Q (elf_fp.CARD_set_ef4_n v).
Proof.
  apply keeps_bind; [ apply keeps_record | intros _ ].
  apply (keeps_card_call (CallEf4N v)).
Qed.

Lemma keeps_set_stb_n (v : bool) : keeps Q (elf_fp.CARD_set_stb_n v).
Proof.
  apply keeps_bind; [ apply keeps_record | intros _ ].
  apply (keeps_card_call (CallStbN v)).
Qed.

Ltac setters :=
  idtac; lazymatch goal with
  | |- keeps _ (elf_fp.CARD_set_data _) => apply keeps_set_data
  | |- keeps _ (elf_fp.CARD_set_mode _) => apply keeps_set_mode
  | |- keeps _ (elf_fp.CARD_set_mem_protect _) => apply keeps_set_mem_protect
  | |- keeps _ (elf_fp.CARD_set_ef4_n _) => apply keeps_set_ef4_n
  | |- keeps _ (elf_fp.CARD_set_stb_n _) => apply keeps_set_stb_n
  end.

Lemma keeps_press_input : keeps Q elf_fp.press_input.
Proof. unfold elf_fp.press_input, elf_fp.time_sleep. keep_with setters. Qed.

Lemma keeps_read_loop (bs : list byte) : keeps Q (elf_fp.read_loop bs).
Proof.
  induction bs as [|b bs IH]; cbn [elf_fp.read_loop].
  - apply keeps_ret.
  - keep_with ltac:(first [ setters
                          | idtac; lazymatch goal with
                            | |- keeps _ elf_fp.press_input =>
                                apply keeps_press_input
                            end ]).
Qed.

Lemma keeps_load_program (f : string) : keeps Q (elf_fp.load_program f).
Proof.
  unfold elf_fp.load_program.
  keep_with ltac:(idtac; lazymatch goal with
                  | |- keeps _ (elf_fp.read_loop _) => apply keeps_read_loop
                  end).
Qed.

Ltac programs :=
  idtac; lazymatch goal with
  | |- keeps _ elf_fp.press_input => apply keeps_press_input
  | |- keeps _ (elf_fp.load_program _) => apply keeps_load_program
  end.

Ltac steps := first [ setters | programs ].

Lemma keeps_load_monitor : keeps Q elf_fp.load_monitor.
Proof. unfold elf_fp.load_monitor. keep_with steps. Qed.

Lemma keeps_run_monitor : keeps Q elf_fp.run_monitor.
Proof. unfold elf_fp.run_monitor. keep_with steps. Qed.

Lemma keeps_on_key (key : str) : keeps Q (elf_fp.on_key key).
Proof.
  unfold elf_fp.on_key, elf_fp.shift_in.
  keep_with ltac:(first [ setters
                        | idtac; lazymatch goal with
                          | |- keeps _ elf_fp.load_monitor =>
                              apply keeps_load_monitor
                          | |- keeps _ elf_fp.run_monitor =>
                              apply keeps_run_monitor
                          end ]).
Qed.

Lemma keeps_on_release (k : str) : keeps Q (elf_fp.on_release k).
Proof. unfold elf_fp.on_release. keep_with setters. Qed.

Lemma keeps_run_hooks (hooks : list str) (k : str) :
  keeps Q (elf_fp.run_hooks hooks k).
Proof.
  induction hooks as [|h hooks IH]; cbn [elf_fp.run_hooks].
  - apply keeps_ret.
  - keep_with ltac:(idtac; lazymatch goal with
                    | |- keeps _ (elf_fp.on_release _) => apply keeps_on_release
                    end).
Qed.

Lemma keeps_update_status (mode : elf_fp.Mode) :
  keeps Q (elf_fp.update_status mode).
Proof. unfold elf_fp.update_status. keep_with fail. Qed.

Lemma keeps_loop_body (wide_lower : N -> str) (c : str) (mode : elf_fp.Mode) :
  keeps Q (elf_fp.loop_body wide_lower c mode).
Proof.
  unfold elf_fp.loop_body.
  keep_with ltac:(first [ setters
                        | idtac; lazymatch goal with
                          | |- keeps _ (elf_fp.on_key _) => apply keeps_on_key
                          | |- keeps _ (elf_fp.update_status _) =>
                              apply keeps_update_status
                          end ]).
Qed.

Lemma keeps_loop (wide_lower : N -> str) (input : list elf_fp.Event)
    (mode : elf_fp.Mode) :
  keeps Q (elf_fp.loop wide_lower input mode).
Proof.
  revert mode. induction input as [|ev input IH]; intros mode;
    cbn [elf_fp.loop].
  - apply keeps_bind; [ apply keeps_loop_body | intros r; apply keeps_ret ].
  - destruct ev as [c|k].
    + apply keeps_bind; [ apply keeps_loop_body | intros r ].
      destruct (fst r); [ apply keeps_ret | apply IH ].
    + apply keeps_bind; [ | intros _; apply IH ].
      unfold elf_fp.deliver_release.
      keep_with ltac:(idtac; lazymatch goal with
                      | |- keeps _ (elf_fp.run_hooks _ _) => apply keeps_run_hooks
                      end).
Qed.

Lemma keeps_run_card (wide_lower : N -> str) (input : list elf_fp.Event) :
  (forall h w, Q w -> Q (elf_fp.with_release_hooks h w)) ->
  keeps Q (elf_fp.run_card wide_lower input).
Proof.
  intros Q_hooks.
  assert (forall k, keeps Q (elf_fp.on_release_key k)) as Hk
    by (intros k w H; now apply Q_hooks).
  unfold elf_fp.run_card.
  keep_with ltac:(idtac; lazymatch goal with
                  | |- keeps _ (elf_fp.on_release_key _) => apply Hk
                  | |- keeps _ (elf_fp.update_status _) =>
                      apply keeps_update_status
                  | |- keeps _ (elf_fp.loop _ _ _) => apply keeps_loop
                  end).
Qed.

End Keeps.

Lemma coherent_mode (e : Elf) :
  coherent e ->
  mode e = mode_of_lines (Z.testbit (port_b e) 4) (Z.testbit (port_b e) 3).
Proof.
  intros (Hm & _). rewrite mode_field_value in Hm.
  destruct (mode e), (Z.testbit (port_b e) 4), (Z.testbit (port_b e) 3);
    try reflexivity; discriminate Hm.
Qed.

Lemma reachable_coherent (e : Elf) : reachable e -> coherent e.
Proof.
  induction 1 as [bus e H | c e _ IH | wide_lower input w _ IH].
  - rewrite new_eq in H. injection H as <-. apply attached_coherent.
  - now apply call_coherent.
  - revert IH.
    apply (keeps_run_card (fun w => coherent (elf_fp.CARD w)));
      try (intros ? ? H; exact H).
    intros c w0. apply call_coherent.
Qed.

(** C4.  The mode field is bits 4 (WAIT_N) and 3 (CLEAR_N) of the control
    byte; the members carry the literal values 0x00, 0x08, 0x10 and 0x18,
    which pair the four modes one to one with the four settings of the two
    lines (LOAD neither, PAUSE CLEAR_N only, RESET WAIT_N only, RUN both).
    In every state a card can reach (construction, any setter call, any
    front-panel session) the stored mode is the one the two bits spell, and
    the stored [ef4_n] and [stb_n] are the inverse of bits 2 and 1. *)
Theorem encoding_is_invariant :
  (WAIT_N = 2 ^ 4 /\ CLEAR_N = 2 ^ 3 /\ MODE = Z.lor WAIT_N CLEAR_N /\
   EF4_N = 2 ^ 2 /\ STB_N = 2 ^ 1) /\
  (value LOAD = 0x00 /\ value PAUSE = 0x08 /\
   value RESET = 0x10 /\ value RUN = 0x18) /\
  (mode_of_lines false false = LOAD /\ mode_of_lines false true = PAUSE /\
   mode_of_lines true false = RESET /\ mode_of_lines true true = RUN) /\
  (forall wait_n clear_n : bool,
     value (mode_of_lines wait_n clear_n) =
     Z.lor (if wait_n then WAIT_N else 0) (if clear_n then CLEAR_N else 0)) /\
  (forall m : Mode, exists wait_n clear_n, m = mode_of_lines wait_n clear_n) /\
  (forall w c w' c' : bool,
     mode_of_lines w c = mode_of_lines w' c' -> w = w' /\ c = c') /\
  (forall e : Elf,
     reachable e ->
     coherent e /\
     value (mode e) = Z.land (port_b e) MODE /\
     mode e = mode_of_lines (Z.testbit (port_b e) 4) (Z.testbit (port_b e) 3) /\
     ef4_n e = negb (Z.testbit (port_b e) 2) /\
     stb_n e = negb (Z.testbit (port_b e) 1)).
Proof.
  split; [ repeat split | ].
  split; [ repeat split | ].
  split; [ repeat split | ].
  split; [ intros [] []; reflexivity | ].
  split.
  { intros []; [ exists false, false | exists true, false
                 | exists false, true | exists true, true ]; reflexivity. }
  split; [ intros [] [] [] []; cbn; intros H; (split; congruence) | ].
  intros e H. apply reachable_coherent in H.
  split; [ exact H | ].
  split; [ apply H | ].
  split; [ now apply coherent_mode | ].
  split; apply H.
Qed.

Lemma encoding_is_invariant_witness :
  reachable (snd (call (CallEf4N true) (attached (mkMCP 0xFF 0xFF 0 0 [])))) /\
  coherent (snd (call (CallEf4N true) (attached (mkMCP 0xFF 0xFF 0 0 [])))).
Proof.
  assert (reachable
            (snd (call (CallEf4N true) (attached (mkMCP 0xFF 0xFF 0 0 [])))))
    as R.
  { apply reach_call. apply (reach_new (mkMCP 0xFF 0xFF 0 0 [])). reflexivity. }
  split; [ exact R | ].
  destruct encoding_is_invariant as (_ & _ & _ & _ & _ & _ & H).
  exact (proj1 (H _ R)).
Defined.

(** ** Procedures as records of operations *)

Lemma apply_ops_app (t1 t2 : list elf_fp.Op) (e : Elf) :
  apply_ops (t1 ++ t2) e = apply_ops t2 (apply_ops t1 e).
Proof. apply fold_left_app. Qed.

Lemma after_after (t1 t2 : list elf_fp.Op) (w : elf_fp.World) :
  after t2 (after t1 w) = after (t1 ++ t2) w.
Proof.
  unfold after. cbn [elf_fp.CARD elf_fp.ops elf_fp.files elf_fp.release_hooks
                       elf_fp.stdout].
  now rewrite apply_ops_app, app_assoc.
Qed.

Lemma after_nil (w : elf_fp.World) : after [] w = w.
Proof. destruct w. unfold after. cbn. now rewrite app_nil_r. Qed.

Lemma runs_ret (w : elf_fp.World) : runs (ret tt) w [].
Proof. unfold runs, ret. now rewrite after_nil. Qed.

Lemma runs_bind (m : St elf_fp.World unit) (k : unit -> St elf_fp.World unit)
    (w : elf_fp.World) (t1 t2 : list elf_fp.Op) :
  runs m w t1 -> runs (k tt) (after t1 w) t2 -> runs (bind m k) w (t1 ++ t2).
Proof.
  unfold runs, bind. intros -> ->. now rewrite after_after.
Qed.

Lemma runs_set_data (v : Z) (w : elf_fp.World) :
  runs (elf_fp.CARD_set_data v) w [elf_fp.SetData v].
Proof. reflexivity. Qed.

Lemma runs_set_mode (m : Mode) (w : elf_fp.World) :
  runs (elf_fp.CARD_set_mode m) w [elf_fp.SetMode m].
Proof. reflexivity. Qed.

Lemma runs_set_mem_protect (b : bool) (w : elf_fp.World) :
  runs (elf_fp.CARD_set_mem_protect b) w [elf_fp.SetMemProtect b].
Proof. destruct b; reflexivity. Qed.

Lemma runs_set_ef4_n (b : bool) (w : elf_fp.World) :
  runs (elf_fp.CARD_set_ef4_n b) w [elf_fp.SetEf4N b].
Proof. destruct b; reflexivity. Qed.

Lemma runs_set_stb_n (b : bool) (w : elf_fp.World) :
  runs (elf_fp.CARD_set_stb_n b) w [elf_fp.SetStbN b].
Proof. destruct b; reflexivity. Qed.

Lemma runs_sleep (ms : Z) (w : elf_fp.World) :
  runs (elf_fp.time_sleep ms) w [elf_fp.Sleep ms].
Proof. reflexivity. Qed.

Lemma runs_press_input (w : elf_fp.World) : runs elf_fp.press_input w pulse.
Proof.
  unfold elf_fp.press_input.
  apply (runs_bind _ _ w [_] [_; _]); [ apply runs_set_ef4_n | ].
  apply (runs_bind _ _ _ [_] [_]); [ apply runs_sleep | ].
  apply runs_set_ef4_n.
Qed.

Lemma runs_stage (v : Z) (k : St elf_fp.World unit) (w : elf_fp.World)
    (t : list elf_fp.Op) :
  runs k (after (stage v) w) t ->
  runs (elf_fp.CARD_set_data v ;; elf_fp.press_input ;; k) w (stage v ++ t).
Proof.
  intros H. unfold stage.
  apply (runs_bind _ _ w [_] (pulse ++ t)); [ apply runs_set_data | ].
  apply runs_bind; [ apply runs_press_input | ].
  now rewrite after_after.
Qed.

Lemma runs_read_loop (bs : list byte) (w : elf_fp.World) :
  runs (elf_fp.read_loop bs) w (image bs).
Proof.
  revert w. induction bs as [|b bs IH]; intros w.
  - apply runs_ret.
  - cbn [elf_fp.read_loop image flat_map]. apply runs_stage. apply IH.
Qed.

Lemma runs_load_program (f : string) (bs : list byte) (w : elf_fp.World) :
  elf_fp.files w f = Some bs -> runs (elf_fp.load_program f) w (image bs).
Proof.
  intros H. unfold runs, elf_fp.load_program, bind, get. rewrite H.
  apply runs_read_loop.
Qed.

Lemma load_program_missing (f : string) (w : elf_fp.World) :
  elf_fp.files w f = None ->
  elf_fp.load_program f w = (Raise (FileNotFoundError f), w).
Proof.
  intros H. unfold elf_fp.load_program, bind, get. now rewrite H.
Qed.

Lemma runs_run_monitor (w : elf_fp.World) :
  runs elf_fp.run_monitor w run_monitor_ops.
Proof.
  unfold elf_fp.run_monitor, run_monitor_ops.
  apply (runs_bind _ _ w [_]); [ apply runs_set_mode | ].
  apply (runs_bind _ _ _ [_]); [ apply runs_set_mode | ].
  do 3 apply runs_stage.
  apply (runs_bind _ _ _ [_] [_]); [ apply runs_set_mode | ].
  apply runs_set_mode.
Qed.

Lemma runs_load_monitor (i1 i2 i3 : list byte) (w : elf_fp.World) :
  elf_fp.files w "bootstrap.bin" = Some i1 ->
  elf_fp.files w "max_mon.bin" = Some i2 ->
  elf_fp.files w "max_bios.bin" = Some i3 ->
  runs elf_fp.load_monitor w (load_monitor_ops i1 i2 i3).
Proof.
  intros H1 H2 H3.
  unfold elf_fp.load_monitor, load_monitor_ops.
  apply (runs_bind _ _ w [_] (_ :: _)); [ apply runs_set_mode | ].
  apply (runs_bind _ _ _ [_] (_ :: _)); [ apply runs_set_mode | ].
  apply (runs_bind _ _ _ [_]); [ apply runs_set_mem_protect | ].
  apply runs_bind; [ now apply runs_load_program | ].
  apply (runs_bind _ _ _ [_] (_ :: _)); [ apply runs_set_mode | ].
  apply (runs_bind _ _ _ [_]); [ apply runs_set_mode | ].
  do 2 apply runs_stage.
  apply runs_bind; [ now apply runs_load_program | ].
  apply (runs_bind _ _ _ [_] (_ :: _)); [ apply runs_set_mode | ].
  apply (runs_bind _ _ _ [_]); [ apply runs_set_mode | ].
  do 2 apply runs_stage.
  apply runs_bind; [ now apply runs_load_program | ].
  apply runs_set_mode.
Qed.

(** ** The bootstrap protocols *)

Lemma run_monitor_ops_eq :
  run_monitor_ops =
  [elf_fp.SetMode RESET; elf_fp.SetMode LOAD;
   elf_fp.SetData 0xC0;
   elf_fp.SetEf4N true; elf_fp.Sleep 5; elf_fp.SetEf4N false;
   elf_fp.SetData 0x80;
   elf_fp.SetEf4N true; elf_fp.Sleep 5; elf_fp.SetEf4N false;
   elf_fp.SetData 0x00;
   elf_fp.SetEf4N true; elf_fp.Sleep 5; elf_fp.SetEf4N false;
   elf_fp.SetMode RESET; elf_fp.SetMode RUN].
Proof. reflexivity. Qed.

(** C1.  From any world [run_monitor] returns, and the operations it has
    made are exactly these, in this order: mode RESET, mode LOAD, then data
    0xC0, 0x80 and 0x00 each followed by one press of the input key (assert,
    5 ms, release), then mode RESET, mode RUN.  The card is the one these
    setter calls produce and nothing else in the world has changed; on the
    bus that is thirteen port writes, three of them to port A.  Whatever the
    state before, the card ends in RUN with data 0 and the input line
    released; protection and strobe are as before. *)
Theorem run_monitor_fixed_sequence (w : elf_fp.World) :
  exists w' : elf_fp.World,
    elf_fp.run_monitor w = (Return tt, w') /\
    elf_fp.ops w' =
      (elf_fp.ops w ++
       [elf_fp.SetMode RESET; elf_fp.SetMode LOAD;
        elf_fp.SetData 0xC0;
        elf_fp.SetEf4N true; elf_fp.Sleep 5; elf_fp.SetEf4N false;
        elf_fp.SetData 0x80;
        elf_fp.SetEf4N true; elf_fp.Sleep 5; elf_fp.SetEf4N false;
        elf_fp.SetData 0x00;
        elf_fp.SetEf4N true; elf_fp.Sleep 5; elf_fp.SetEf4N false;
        elf_fp.SetMode RESET; elf_fp.SetMode RUN])%list /\
    elf_fp.CARD w' = apply_ops run_monitor_ops (elf_fp.CARD w) /\
    elf_fp.files w' = elf_fp.files w /\
    elf_fp.release_hooks w' = elf_fp.release_hooks w /\
    elf_fp.stdout w' = elf_fp.stdout w /\
    (exists nw : list (Reg * Z),
       writes (_mcp (elf_fp.CARD w')) =
         (writes (_mcp (elf_fp.CARD w)) ++ nw)%list /\
       map fst nw =
         [GPIOB; GPIOB; GPIOA; GPIOB; GPIOB; GPIOA; GPIOB; GPIOB;
          GPIOA; GPIOB; GPIOB; GPIOB; GPIOB] /\
       filter (fun x => match fst x with GPIOA => true | _ => false end) nw =
         [(GPIOA, 0xC0); (GPIOA, 0x80); (GPIOA, 0x00)]) /\
    mode (elf_fp.CARD w') = RUN /\
    data (elf_fp.CARD w') = 0 /\
    ef4_n (elf_fp.CARD w') = false /\
    mem_protect (elf_fp.CARD w') = mem_protect (elf_fp.CARD w) /\
    stb_n (elf_fp.CARD w') = stb_n (elf_fp.CARD w).
Proof.
  exists (after run_monitor_ops w).
  split; [ apply runs_run_monitor | ].
  repeat match goal with
         | |- _ /\ _ => split
         end; try reflexivity.
  eexists. split.
  - rewrite run_monitor_ops_eq. run_setters.
    rewrite <- !app_assoc. cbn [app]. reflexivity.
  - split; reflexivity.
Qed.

(** C9.  [press_input] returns from any world having made three operations
    in this order: [ef4_n] true, a blocking sleep asked to last 5 ms, [ef4_n]
    false.  On the bus that is two writes to port B, bit 2 cleared and then
    set again.  Afterwards the line reads released; data, mode, protection,
    strobe, port A, the other bits of port B and the rest of the world are
    as before. *)
Theorem press_input_pulses_ef4 (w : elf_fp.World) :
  exists w' : elf_fp.World,
    elf_fp.press_input w = (Return tt, w') /\
    elf_fp.ops w' =
      (elf_fp.ops w ++
       [elf_fp.SetEf4N true; elf_fp.Sleep 5; elf_fp.SetEf4N false])%list /\
    elf_fp.CARD w' =
      snd (set_ef4_n false (snd (set_ef4_n true (elf_fp.CARD w)))) /\
    writes (_mcp (elf_fp.CARD w')) =
      (writes (_mcp (elf_fp.CARD w)) ++
       [(GPIOB, Z.land (port_b (elf_fp.CARD w)) (Z.lnot EF4_N));
        (GPIOB, Z.lor (Z.land (port_b (elf_fp.CARD w)) (Z.lnot EF4_N)) EF4_N)])%list /\
    ef4_n (elf_fp.CARD w') = false /\
    Z.testbit (port_b (elf_fp.CARD w')) 2 = true /\
    same_outside EF4_N (port_b (elf_fp.CARD w')) (port_b (elf_fp.CARD w)) /\
    port_a (elf_fp.CARD w') = port_a (elf_fp.CARD w) /\
    data (elf_fp.CARD w') = data (elf_fp.CARD w) /\
    mode (elf_fp.CARD w') = mode (elf_fp.CARD w) /\
    mem_protect (elf_fp.CARD w') = mem_protect (elf_fp.CARD w) /\
    stb_n (elf_fp.CARD w') = stb_n (elf_fp.CARD w) /\
    elf_fp.files w' = elf_fp.files w /\
    elf_fp.release_hooks w' = elf_fp.release_hooks w /\
    elf_fp.stdout w' = elf_fp.stdout w.
Proof.
  exists (after pulse w).
  split; [ apply runs_press_input | ].
  repeat match goal with
         | |- _ /\ _ => split
         end; try reflexivity.
  - run_setters. rewrite <- !app_assoc. reflexivity.
  - run_setters. apply (bit_set_written _ 2). lia.
  - run_setters. unfold same_outside.
    rewrite (bit_set_frame _ EF4_N). apply bit_clear_frame.
Qed.





(** ** Key dispatch *)

Lemma nibble_value_cases (s : N) (n : Z) :
  nibble_value s = Some n -> In (s, n) hex_digit_table.
Proof.
  unfold nibble_value.
  destruct (find (fun p => (fst p =? s)%N) hex_digit_table) as [[s' n']|]
    eqn:E; [ | discriminate ].
  cbn [option_map snd]. intros H. injection H as <-.
  apply find_some in E. destruct E as [Hin Heq].
  cbn [fst] in Heq. apply N.eqb_eq in Heq. now subst s'.
Qed.

Ltac each_hex_digit H :=
  apply nibble_value_cases in H; cbn [In hex_digit_table] in H;
  repeat match type of H with
         | _ \/ _ => destruct H as [H|H]
         end;
  try contradiction; injection H as <- <-.

Lemma nibble_value_range (s : N) (n : Z) :
  nibble_value s = Some n -> 0 <= n < 16.
Proof. intros H. each_hex_digit H; lia. Qed.

Lemma loop_body_hex_digit (wide_lower : N -> str) (s : N) (n : Z)
    (w : elf_fp.World) :
  nibble_value s = Some n ->
  elf_fp.loop_body wide_lower [s] elf_fp.CONTROL w =
  (Return (false, elf_fp.CONTROL), after_hex_digit n w).
Proof. intros H. each_hex_digit H; reflexivity. Qed.

Lemma on_key_hex_digit (s : N) (n : Z) (w : elf_fp.World) :
  nibble_value s = Some n ->
  runs (elf_fp.on_key [s]) w
    [elf_fp.SetData (shift_nibble (data (elf_fp.CARD w)) n)].
Proof. intros H. each_hex_digit H; reflexivity. Qed.

Lemma nibble_high_bits (n i : Z) :
  0 <= n < 16 -> 4 <= i -> Z.testbit n i = false.
Proof.
  intros Hn Hi.
  rewrite <- (Z.mod_small n (2 ^ 4)) by (change (2 ^ 4) with 16; lia).
  apply Z.mod_pow2_bits_high. lia.
Qed.

Lemma shift_nibble_bit (d n i : Z) :
  0 <= i ->
  Z.testbit (shift_nibble d n) i =
  (Z.testbit d (i - 4) || Z.testbit n i) && (i <? 8).
Proof.
  intros Hi. unfold shift_nibble. change 0xFF with (Z.ones 8).
  now rewrite Z.land_spec, Z.lor_spec, Z.shiftl_spec, Z.testbit_ones_nonneg
    by lia.
Qed.

(** Two digits push out whatever the data byte held. *)
Lemma shift_nibble_twice (d a b : Z) :
  0 <= a < 16 -> 0 <= b < 16 ->
  shift_nibble (shift_nibble d a) b = Z.lor (Z.shiftl a 4) b.
Proof.
  intros Ha Hb. apply Z.bits_inj'. intros i Hi.
  rewrite shift_nibble_bit, Z.lor_spec, Z.shiftl_spec by assumption.
  destruct (Z.ltb_spec i 8) as [H8|H8].
  - rewrite andb_true_r. f_equal.
    destruct (Z.ltb_spec i 4) as [H4|H4].
    + now rewrite !(Z.testbit_neg_r _ (i - 4)) by lia.
    + rewrite shift_nibble_bit by lia.
      rewrite (Z.testbit_neg_r d) by lia.
      assert ((i - 4 <? 8) = true) as -> by (apply Z.ltb_lt; lia).
      now rewrite andb_true_r.
  - rewrite andb_false_r.
    rewrite (nibble_high_bits a (i - 4)), (nibble_high_bits b i) by lia.
    reflexivity.
Qed.

Lemma loop_typed (wide_lower : N -> str) (c : N) (input : list elf_fp.Event)
    (mode : elf_fp.Mode) (w : elf_fp.World) (mode' : elf_fp.Mode)
    (w' : elf_fp.World) :
  elf_fp.loop_body wide_lower [c] mode w = (Return (false, mode'), w') ->
  elf_fp.loop wide_lower (elf_fp.Typed c :: input) mode w =
  elf_fp.loop wide_lower input mode' w'.
Proof.
  intros H. cbn [elf_fp.loop]. unfold bind. now rewrite H.
Qed.

Lemma loop_hex_digits (wide_lower : N -> str) (ds : list N)
    (rest : list elf_fp.Event) :
  Forall is_hex_digit ds ->
  forall w : elf_fp.World,
  exists w' : elf_fp.World,
    elf_fp.loop wide_lower (map elf_fp.Typed ds ++ rest) elf_fp.CONTROL w =
      elf_fp.loop wide_lower rest elf_fp.CONTROL w' /\
    data (elf_fp.CARD w') = fold_left type_hex ds (data (elf_fp.CARD w)).
Proof.
  induction 1 as [|s ds [n Hs] _ IH]; intros w.
  - exists w. split; reflexivity.
  - destruct (IH (after_hex_digit n w)) as (w' & Hl & Hd).
    exists w'. split.
    + cbn [map app].
      rewrite (loop_typed _ _ _ _ _ _ _
                 (loop_body_hex_digit wide_lower s n w Hs)).
      exact Hl.
    + rewrite Hd. cbn [fold_left].
      assert (type_hex (data (elf_fp.CARD w)) s =
              shift_nibble (data (elf_fp.CARD w)) n) as ->
        by (unfold type_hex; now rewrite Hs).
      reflexivity.
Qed.

Lemma two_digits_value (a b : N) (na nb : Z) :
  nibble_value a = Some na -> nibble_value b = Some nb ->
  Z.lor (Z.shiftl na 4) nb = 16 * na + nb.
Proof.
  intros Ha Hb. each_hex_digit Ha; each_hex_digit Hb; reflexivity.
Qed.

(** C7.  In CONTROL mode a hex digit [s] of value [n] makes the loop call
    the data setter once, with [((data << 4) | n) & 0xFF], and go on in
    CONTROL mode; from data 0x05 the key 1 gives 0x51.  After a run of hex
    digits that ends in the digits [a] and [b] (ten digits are the case of
    eight before them) the data byte is [16 * a + b], whatever it was
    before and whatever the earlier digits were. *)
Theorem hex_digits_shift_into_data :
  (forall (wide_lower : N -> str) (s : N) (n : Z) (w : elf_fp.World),
     nibble_value s = Some n ->
     exists w' : elf_fp.World,
       elf_fp.loop_body wide_lower [s] elf_fp.CONTROL w =
         (Return (false, elf_fp.CONTROL), w') /\
       data (elf_fp.CARD w') =
         Z.land (Z.lor (Z.shiftl (data (elf_fp.CARD w)) 4) n) 0xFF /\
       elf_fp.ops w' =
         (elf_fp.ops w ++ [elf_fp.SetData (data (elf_fp.CARD w'))])%list /\
       mode (elf_fp.CARD w') = mode (elf_fp.CARD w) /\
       mem_protect (elf_fp.CARD w') = mem_protect (elf_fp.CARD w) /\
       ef4_n (elf_fp.CARD w') = ef4_n (elf_fp.CARD w) /\
       stb_n (elf_fp.CARD w') = stb_n (elf_fp.CARD w)) /\
  (forall (wide_lower : N -> str) (w : elf_fp.World),
     data (elf_fp.CARD w) = 0x05 ->
     data (elf_fp.CARD
             (snd (elf_fp.loop_body wide_lower (lit "1") elf_fp.CONTROL w))) =
       0x51) /\
  (forall (wide_lower : N -> str) (pre : list N) (a b : N) (na nb : Z)
          (rest : list elf_fp.Event) (w : elf_fp.World),
     Forall is_hex_digit pre ->
     nibble_value a = Some na ->
     nibble_value b = Some nb ->
     exists w' : elf_fp.World,
       elf_fp.loop wide_lower (map elf_fp.Typed (pre ++ [a; b]) ++ rest)
         elf_fp.CONTROL w =
         elf_fp.loop wide_lower rest elf_fp.CONTROL w' /\
       data (elf_fp.CARD w') = 16 * na + nb /\
       0 <= data (elf_fp.CARD w') < 256).
Proof.
  split; [ | split ].
  - intros wide_lower s n w H. exists (after_hex_digit n w).
    split; [ now apply loop_body_hex_digit | ].
    repeat split.
  - intros wide_lower w H. unfold lit.
    rewrite (loop_body_hex_digit wide_lower (code "1") 1 w eq_refl).
    change (shift_nibble (data (elf_fp.CARD w)) 1 = 0x51).
    rewrite H. reflexivity.
  - intros wide_lower pre a b na nb rest w Hpre Ha Hb.
    assert (Forall is_hex_digit (pre ++ [a; b])) as Hall.
    { apply Forall_app. split; [ exact Hpre | ].
      repeat constructor; [ now exists na | now exists nb ]. }
    destruct (loop_hex_digits wide_lower _ rest Hall w) as (w' & Hl & Hd).
    exists w'. split; [ exact Hl | ].
    assert (data (elf_fp.CARD w') = 16 * na + nb) as E.
    { rewrite Hd, fold_left_app. cbn [fold_left].
      generalize (fold_left type_hex pre (data (elf_fp.CARD w))). intros d.
      unfold type_hex. rewrite Ha, Hb.
      rewrite shift_nibble_twice
        by (eapply nibble_value_range; eassumption).
      now apply (two_digits_value a b). }
    split; [ exact E | ].
    rewrite E.
    pose proof (nibble_value_range _ _ Ha). pose proof (nibble_value_range _ _ Hb).
    lia.
Qed.

Lemma hex_digits_shift_into_data_witness :
  data (elf_fp.CARD
          (snd (elf_fp.loop_body caseless (lit "1") elf_fp.CONTROL bench_05))) =
    0x51 /\
  (exists w' : elf_fp.World,
     elf_fp.loop_body caseless [code "c"] elf_fp.CONTROL bench_05 =
       (Return (false, elf_fp.CONTROL), w') /\
     data (elf_fp.CARD w') = 0x5C) /\
  (exists w' : elf_fp.World,
     elf_fp.loop caseless
       (map elf_fp.Typed
          (map code ["0"; "1"; "2"; "3"; "4"; "5"; "6"; "7"]%char ++
           [code "8"; code "9"]) ++ [])
       elf_fp.CONTROL bench =
       elf_fp.loop caseless [] elf_fp.CONTROL w' /\
     data (elf_fp.CARD w') = 0x89).
Proof.
  destruct hex_digits_shift_into_data as (H1 & H2 & H3).
  split; [ | split ].
  - apply (H2 caseless bench_05). reflexivity.
  - destruct (H1 caseless (code "c") 12 bench_05 eq_refl)
      as (w' & Hl & Hd & _).
    exists w'. split; [ exact Hl | ]. rewrite Hd. reflexivity.
  - destruct (H3 caseless
                (map code ["0"; "1"; "2"; "3"; "4"; "5"; "6"; "7"]%char)
                (code "8") (code "9") 8 9 [] bench) as (w' & Hl & Hd & _).
    + repeat constructor; eexists; reflexivity.
    + reflexivity.
    + reflexivity.
    + exists w'. split; [ exact Hl | exact Hd ].
Defined.

(** ** KEYBOARD mode and key release *)

Lemma lower_one (wide_lower : N -> str) (c : N) :
  lower wide_lower [c] = lower_char wide_lower c.
Proof. unfold lower. cbn [flat_map]. apply app_nil_r. Qed.

(** Below 256 the lower-case form is one character below 256; it is q for
    q and Q only, and of code 0 for the character of code 0 only. *)
Lemma lower_narrow (wide_lower : N -> str) (c : N) :
  (c < 256)%N ->
  exists n : N,
    lower wide_lower [c] = [n] /\ (n < 256)%N /\
    (n = 0%N -> c = 0%N) /\
    (n = code "q" -> c = code "q" \/ c = code "Q").
Proof.
  intros Hc. rewrite lower_one. unfold lower_char.
  change (code "q") with 113%N. change (code "Q") with 81%N.
  destruct (N.ltb_spec c 256) as [_|H]; [ | lia ].
  destruct (N.leb_spec 65 c), (N.leb_spec c 90), (N.leb_spec 192 c),
    (N.leb_spec c 214), (N.leb_spec 216 c), (N.leb_spec c 222);
    cbn [andb orb]; eexists; (split; [ reflexivity | ]);
    (split; [ lia | split; lia ]).
Qed.

Lemma str_eqb_eq (s t : str) : (s == t) = true <-> s = t.
Proof.
  revert t. induction s as [|a s IH]; intros [|b t]; cbn [str_eqb];
    try (split; [ discriminate | discriminate ]); try tauto.
  rewrite andb_true_iff, N.eqb_eq, IH.
  split; [ intros [-> ->]; reflexivity | intros H; injection H; auto ].
Qed.

Lemma str_eqb_one (n m : N) : ([n] == [m]) = (n =? m)%N.
Proof. cbn [str_eqb]. apply andb_true_r. Qed.

(** A turn in KEYBOARD mode on a string whose lower-case form is one
    character, not q and not of code 0. *)
Lemma loop_body_keyboard (wide_lower : N -> str) (c : str) (n : N)
    (w : elf_fp.World) :
  lower wide_lower c = [n] -> n <> code "q" -> n <> 0%N ->
  let v := Z.of_N n in
  elf_fp.loop_body wide_lower c elf_fp.KEYBOARD w =
  (Return (false, elf_fp.KEYBOARD),
   elf_fp.mkWorld
     (snd (set_stb_n true (snd (set_data v (elf_fp.CARD w)))))
     ((elf_fp.ops w ++ [elf_fp.SetData v]) ++ [elf_fp.SetStbN true])
     (elf_fp.files w) (elf_fp.release_hooks w)
     (elf_fp.stdout w ++
      [elf_fp.StatusLine None (mem_protect (elf_fp.CARD w)) v])).
Proof.
  intros Hl Hq H0 v. unfold elf_fp.loop_body. cbv zeta.
  rewrite Hl. unfold lit. rewrite str_eqb_one.
  apply N.eqb_neq in Hq. rewrite Hq.
  assert ((Z.of_N n =? 0) = false) as E by (apply Z.eqb_neq; lia).
  cbn [ord]. unfold bind at 2. unfold lift at 1. rewrite E.
  reflexivity.
Qed.

(** C8 fails on the code: in KEYBOARD mode the symbol q is not sent, it
    ends the loop, because the quit test comes before the mode test. *)
Lemma keyboard_mode_q_quits :
  printable (code "q") = true /\
  forall wide_lower : N -> str,
    fst (elf_fp.loop_body wide_lower (lit "q") elf_fp.KEYBOARD bench) =
      Return (true, elf_fp.KEYBOARD) /\
    new_ops (elf_fp.loop_body wide_lower (lit "q") elf_fp.KEYBOARD) bench =
      [] /\
    ~ keyboard_mode_sends_every_symbol wide_lower.
Proof.
  split; [ reflexivity | ]. intros wide_lower.
  assert (fst (elf_fp.loop_body wide_lower (lit "q") elf_fp.KEYBOARD bench) =
          Return (true, elf_fp.KEYBOARD)) as Hq by reflexivity.
  repeat split; try reflexivity.
  intros [H _].
  destruct (H (code "q") bench eq_refl) as [Hf _].
  unfold lit in Hq. rewrite Hq in Hf. discriminate Hf.
Qed.

Lemma runs_on_release (k : str) (w : elf_fp.World) :
  runs (elf_fp.on_release k) w [elf_fp.SetEf4N false; elf_fp.SetStbN false].
Proof.
  unfold elf_fp.on_release.
  apply (runs_bind _ _ w [_] [_]); [ apply runs_set_ef4_n | ].
  apply runs_set_stb_n.
Qed.

Lemma deliver_release_hooked (k : str) (w : elf_fp.World) :
  elf_fp.release_hooks w = hooked_keys -> In k hooked_keys ->
  elf_fp.deliver_release k w = elf_fp.on_release k w.
Proof.
  intros Hh Hk. unfold elf_fp.deliver_release, bind at 1, get. rewrite Hh.
  cbn [In hooked_keys] in Hk.
  destruct Hk as [<-|[<-|[<-|[]]]]; reflexivity.
Qed.

Lemma loop_keeps_hooks (wide_lower : N -> str) (input : list elf_fp.Event)
    (mode : elf_fp.Mode) (h : list str) :
  keeps (fun w => elf_fp.release_hooks w = h)
    (elf_fp.loop wide_lower input mode).
Proof. apply keeps_loop; intros ? ? H; exact H. Qed.

Lemma run_card_hooks (wide_lower : N -> str) (input : list elf_fp.Event)
    (w : elf_fp.World) :
  elf_fp.release_hooks (snd (elf_fp.run_card wide_lower input w)) =
  (elf_fp.release_hooks w ++ hooked_keys)%list.
Proof.
  set (w3 := elf_fp.with_release_hooks
               (((elf_fp.release_hooks w ++ [lit "i"]) ++ [lit "010"])
                ++ [lit " "]) w).
  assert (elf_fp.run_card wide_lower input w =
          (elf_fp.update_status elf_fp.CONTROL ;;
           elf_fp.loop wide_lower input elf_fp.CONTROL ;;
           elf_fp.print elf_fp.NewLine) w3) as -> by reflexivity.
  assert (keeps (fun w0 => elf_fp.release_hooks w0 =
                           (elf_fp.release_hooks w ++ hooked_keys)%list)
            (elf_fp.update_status elf_fp.CONTROL ;;
             elf_fp.loop wide_lower input elf_fp.CONTROL ;;
             elf_fp.print elf_fp.NewLine)) as K.
  { apply keeps_bind; [ | intros _; apply keeps_bind; [ | intros _ ] ].
    - apply keeps_update_status; intros ? ? H; exact H.
    - apply loop_keeps_hooks.
    - apply keeps_print; intros ? ? H; exact H. }
  apply K. subst w3. cbn [elf_fp.release_hooks elf_fp.with_release_hooks].
  now rewrite <- !app_assoc.
Qed.

(** C8, amended.  In KEYBOARD mode every character received whose code is
    below 256, other than q and Q (which end the loop) and the character of
    code 0 (which changes the mode), makes the loop write the code of the
    lower-case form of the character to data and then assert the strobe,
    and stay in KEYBOARD mode; that code is a value of 8 bits (the capital
    letters A to Z and those of Latin-1 are sent as their small letters).
    A call of [on_release] releases both lines, whatever they were;
    [run_card] registers it for the keys i, newline and space, and the loop
    runs it on the release of one of these in either interaction mode. *)
Theorem keyboard_mode_and_release :
  (forall (wide_lower : N -> str) (c : N) (w : elf_fp.World),
     (c < 256)%N -> c <> code "q" -> c <> code "Q" -> c <> 0%N ->
     exists (n : N) (w' : elf_fp.World),
       lower wide_lower [c] = [n] /\
       elf_fp.loop_body wide_lower [c] elf_fp.KEYBOARD w =
         (Return (false, elf_fp.KEYBOARD), w') /\
       elf_fp.ops w' =
         (elf_fp.ops w ++
          [elf_fp.SetData (Z.of_N n); elf_fp.SetStbN true])%list /\
       data (elf_fp.CARD w') = Z.of_N n /\
       0 <= data (elf_fp.CARD w') < 256 /\
       stb_n (elf_fp.CARD w') = true /\
       Z.testbit (port_b (elf_fp.CARD w')) 1 = false /\
       ef4_n (elf_fp.CARD w') = ef4_n (elf_fp.CARD w) /\
       mode (elf_fp.CARD w') = mode (elf_fp.CARD w) /\
       mem_protect (elf_fp.CARD w') = mem_protect (elf_fp.CARD w)) /\
  (forall (k : str) (w : elf_fp.World),
     exists w' : elf_fp.World,
       elf_fp.on_release k w = (Return tt, w') /\
       elf_fp.ops w' =
         (elf_fp.ops w ++ [elf_fp.SetEf4N false; elf_fp.SetStbN false])%list /\
       ef4_n (elf_fp.CARD w') = false /\
       stb_n (elf_fp.CARD w') = false /\
       Z.testbit (port_b (elf_fp.CARD w')) 2 = true /\
       Z.testbit (port_b (elf_fp.CARD w')) 1 = true /\
       data (elf_fp.CARD w') = data (elf_fp.CARD w) /\
       mode (elf_fp.CARD w') = mode (elf_fp.CARD w) /\
       mem_protect (elf_fp.CARD w') = mem_protect (elf_fp.CARD w)) /\
  (forall (wide_lower : N -> str) (input : list elf_fp.Event)
          (w : elf_fp.World),
     elf_fp.release_hooks (snd (elf_fp.run_card wide_lower input w)) =
     (elf_fp.release_hooks w ++ [lit "i"; lit "010"; lit " "])%list) /\
  (forall (wide_lower : N -> str) (k : str) (rest : list elf_fp.Event)
          (mode : elf_fp.Mode) (w : elf_fp.World),
     elf_fp.release_hooks w = [lit "i"; lit "010"; lit " "] ->
     In k [lit "i"; lit "010"; lit " "] ->
     elf_fp.loop wide_lower (elf_fp.Released k :: rest) mode w =
     elf_fp.loop wide_lower rest mode (snd (elf_fp.on_release k w))).
Proof.
  split; [ | split; [ | split ] ].
  - intros wide_lower c w Hc Hq HQ H0.
    destruct (lower_narrow wide_lower c Hc) as (n & Hl & Hn & Hn0 & Hnq).
    assert (n <> code "q") as Nq by (intros E; destruct (Hnq E); contradiction).
    assert (n <> 0%N) as N0 by (intros E; now apply H0, Hn0).
    exists n. eexists. split; [ exact Hl | ].
    split; [ now apply (loop_body_keyboard wide_lower [c] n) | ].
    cbn [elf_fp.ops elf_fp.CARD].
    split; [ now rewrite <- app_assoc | ].
    split; [ reflexivity | ].
    split; [ change (0 <= Z.of_N n < 256); lia | ].
    split; [ reflexivity | ].
    split; [ | repeat split ].
    rewrite set_stb_n_eq.
    cbn [snd port_b with_mcp assign gpiob _mcp].
    now apply (line_byte_written 1 true).
  - intros k w.
    exists (after [elf_fp.SetEf4N false; elf_fp.SetStbN false] w).
    split; [ apply runs_on_release | ].
    repeat match goal with
           | |- _ /\ _ => split
           end; try reflexivity.
    + run_setters. rewrite Z.lor_spec.
      rewrite (bit_set_written _ 2) by lia. reflexivity.
    + run_setters. apply (bit_set_written _ 1). lia.
  - apply run_card_hooks.
  - intros wide_lower k rest mode w Hh Hk.
    cbn [elf_fp.loop]. unfold bind at 1.
    rewrite (deliver_release_hooked k w Hh Hk).
    rewrite (runs_on_release k w). reflexivity.
Qed.

Lemma keyboard_mode_and_release_witness :
  (exists w' : elf_fp.World,
     elf_fp.loop_body caseless [code "A"] elf_fp.KEYBOARD bench =
       (Return (false, elf_fp.KEYBOARD), w') /\
     data (elf_fp.CARD w') = 97 /\
     stb_n (elf_fp.CARD w') = true) /\
  (exists w' : elf_fp.World,
     elf_fp.loop_body caseless [201%N] elf_fp.KEYBOARD bench =
       (Return (false, elf_fp.KEYBOARD), w') /\
     elf_fp.ops w' = [elf_fp.SetData 233; elf_fp.SetStbN true]) /\
  elf_fp.loop caseless [elf_fp.Released (lit " "); elf_fp.Typed (code "q")]
    elf_fp.KEYBOARD hooked_bench =
  elf_fp.loop caseless [elf_fp.Typed (code "q")] elf_fp.KEYBOARD
    (snd (elf_fp.on_release (lit " ") hooked_bench)).
Proof.
  destruct keyboard_mode_and_release as (H & _ & _ & H4).
  split; [ | split ].
  - destruct (H caseless (code "A") bench)
      as (n & w' & Hn & Hl & _ & Hd & _ & Hs & _);
      try (vm_compute; congruence).
    injection Hn as <-.
    exists w'. split; [ exact Hl | ]. split; [ exact Hd | exact Hs ].
  - destruct (H caseless 201%N bench)
      as (n & w' & Hn & Hl & Ho & _);
      try (vm_compute; congruence).
    injection Hn as <-.
    exists w'. split; [ exact Hl | exact Ho ].
  - apply (H4 caseless (lit " ") [elf_fp.Typed (code "q")] elf_fp.KEYBOARD
             hooked_bench).
    + reflexivity.
    + cbn [In]. tauto.
Defined.

(** * Further properties *)

(** ** Re-attaching to a card *)

Lemma attached_settled (bus : MCP23017) : settled (attached bus).
Proof.
  split; [ | split; [ | split; [ | apply attached_coherent ] ] ];
    destruct bus as [ia ib ga gb ws];
    unfold attached, after_port_b, after_port_a, port_a, data;
    cbn [iodira iodirb gpioa gpiob _mcp _data];
    destruct (Z.eqb_spec ia OUTPUT) as [Ea|Ea];
    cbn [assign iodira iodirb gpioa gpiob];
    destruct (Z.eqb_spec ib OUTPUT) as [Eb|Eb];
    cbn [assign iodira iodirb gpioa gpiob]; congruence.
Qed.

Lemma call_settled (c : Call) (e : Elf) :
  settled e -> settled (snd (call c e)).
Proof.
  intros (Ha & Hb & Hd & Hc).
  split; [ | split; [ | split; [ | now apply call_coherent ] ] ];
    destruct c as [v|v|v|v|v]; cbn [call];
    try (destruct (is_mode v) eqn:Ev;
         [ destruct v as [m| | | |]; try discriminate Ev; rewrite set_mode_eq
         | rewrite (set_mode_skips _ _ Ev); assumption ]);
    rewrite ?set_data_eq, ?set_mem_protect_eq, ?set_ef4_n_eq, ?set_stb_n_eq;
    try assumption; reflexivity.
Qed.

Lemma reachable_settled (e : Elf) : reachable e -> settled e.
Proof.
  induction 1 as [bus e H | c e _ IH | wide_lower input w _ IH].
  - rewrite new_eq in H. injection H as <-. apply attached_settled.
  - now apply call_settled.
  - revert IH.
    apply (keeps_run_card (fun w => settled (elf_fp.CARD w)));
      try (intros ? ? H; exact H).
    intros c w0. apply call_settled.
Qed.

Lemma attached_of_settled (e : Elf) : settled e -> attached (_mcp e) = e.
Proof.
  intros (Ha & Hb & Hd & Hc).
  pose proof (coherent_mode e Hc) as Hm.
  destruct Hc as (_ & He & Hs & Hp).
  destruct e as [[ia ib ga gb ws] d m ef st mp].
  unfold attached, after_port_b, after_port_a, port_a, port_b, data, mode,
    ef4_n, stb_n, mem_protect in *.
  cbn [iodira iodirb gpioa gpiob _mcp _data _mode _ef4_n _stb_n _mem_protect]
    in *.
  subst ia ib. cbn [Z.eqb OUTPUT iodirb]. change (OUTPUT =? OUTPUT) with true.
  cbn [iodirb]. change (OUTPUT =? OUTPUT) with true.
  congruence.
Qed.

(** X1.  Building a new [Elf()] on the driver object of a card that the
    program has reached (by construction, setter calls and front-panel
    sessions), and whose two ports hold bytes as those of the device do,
    returns that very card: every field is recovered from the two port
    bytes (the data byte is the byte on port A) and no register is
    written. *)
Theorem reattach_recovers_card (e : Elf) :
  reachable e -> is_byte (port_a e) -> is_byte (port_b e) ->
  new (_mcp e) = Return e /\ data e = port_a e /\ is_byte (data e).
Proof.
  intros H Ha Hb.
  pose proof (reachable_settled e H) as S.
  pose proof (attached_of_settled e S) as E.
  split; [ rewrite new_eq; now f_equal | ].
  destruct S as (_ & _ & Hd & _).
  split; [ exact Hd | now rewrite Hd ].
Qed.

Lemma reattach_recovers_card_witness :
  reachable (snd (call (CallMode (PyMode RUN)) (attached cold_bus))) /\
  new (_mcp (snd (call (CallMode (PyMode RUN)) (attached cold_bus)))) =
  Return (snd (call (CallMode (PyMode RUN)) (attached cold_bus))).
Proof.
  assert (reachable (snd (call (CallMode (PyMode RUN)) (attached cold_bus))))
    as R by (apply reach_call; apply (reach_new cold_bus); reflexivity).
  split; [ exact R | ].
  apply (reattach_recovers_card _ R).
  - unfold is_byte.
    replace (port_a (snd (call (CallMode (PyMode RUN)) (attached cold_bus))))
      with 0 by (vm_compute; reflexivity).
    lia.
  - unfold is_byte.
    replace (port_b (snd (call (CallMode (PyMode RUN)) (attached cold_bus))))
      with 30 by (vm_compute; reflexivity).
    lia.
Defined.

(** ** How setter calls compose *)

Lemma call_eq (c : Call) (e : Elf) : call c e = (Return tt, step c e).
Proof.
  destruct c as [v|v|v|v|v]; cbn [call step].
  - apply set_data_eq.
  - destruct v; try reflexivity.
  - apply set_mem_protect_eq.
  - apply set_ef4_n_eq.
  - apply set_stb_n_eq.
Qed.

Ltac bits_by_cases :=
  let n := fresh "n" in
  let Hn := fresh "Hn" in
  apply Z.bits_inj'; intros n Hn;
  repeat first [ rewrite Z.land_spec | rewrite Z.lor_spec
               | rewrite Z.lnot_spec by assumption ];
  repeat match goal with
         | |- context [Z.testbit ?x n] => destruct (Z.testbit x n)
         end;
  reflexivity.

Lemma mode_byte_twice (m1 m2 : Mode) (b : Z) :
  mode_byte m2 (mode_byte m1 b) = mode_byte m2 b.
Proof.
  destruct m1, m2; unfold mode_byte; change MODE with 24; cbv [value];
    bitwise.
Qed.

Lemma line_byte_twice (BIT : Z) (v1 v2 : bool) (b : Z) :
  line_byte BIT v2 (line_byte BIT v1 b) = line_byte BIT v2 b.
Proof. destruct v1, v2; unfold line_byte; bits_by_cases. Qed.

Lemma protect_byte_twice (v1 v2 : bool) (b : Z) :
  protect_byte v2 (protect_byte v1 b) = protect_byte v2 b.
Proof. destruct v1, v2; unfold protect_byte; bits_by_cases. Qed.

Lemma mode_line_commute (m : Mode) (k : Z) (v : bool) (b : Z) :
  k = 0 \/ k = 1 \/ k = 2 ->
  mode_byte m (line_byte (Z.shiftl 1 k) v b) =
  line_byte (Z.shiftl 1 k) v (mode_byte m b).
Proof.
  intros [->|[->| ->]]; destruct m, v; unfold mode_byte, line_byte;
    change MODE with 24; cbv [value Z.shiftl Pos.iter Z.mul Pos.mul];
    bitwise.
Qed.

Lemma line_line_commute (k1 k2 : Z) (v1 v2 : bool) (b : Z) :
  0 <= k1 -> 0 <= k2 -> k1 <> k2 ->
  line_byte (Z.shiftl 1 k1) v1 (line_byte (Z.shiftl 1 k2) v2 b) =
  line_byte (Z.shiftl 1 k2) v2 (line_byte (Z.shiftl 1 k1) v1 b).
Proof.
  intros H1 H2 Hne. rewrite !Z.shiftl_1_l.
  destruct v1, v2; unfold line_byte; apply Z.bits_inj'; intros n Hn;
    repeat first [ rewrite Z.land_spec | rewrite Z.lor_spec
                 | rewrite Z.lnot_spec by assumption
                 | rewrite Z.pow2_bits_eqb by assumption ];
    destruct (Z.eqb_spec k1 n), (Z.eqb_spec k2 n); try lia;
    destruct (Z.testbit b n); reflexivity.
Qed.

Lemma protect_as_line (v : bool) (b : Z) :
  protect_byte v b = line_byte (Z.shiftl 1 0) (negb v) b.
Proof. destruct v; reflexivity. Qed.

Ltac observe :=
  rewrite !call_eq; cbn [snd];
  unfold observed, port_a, port_b, data, mode, mem_protect, ef4_n, stb_n;
  cbn [step with_mcp with_data with_mode with_ef4_n with_stb_n
         with_mem_protect assign _mcp _data _mode _ef4_n _stb_n _mem_protect
         iodira iodirb gpioa gpiob port_b].

(** X2.  Of two calls of the same setter in a row only the second shows:
    the registers and the stored fields end as if the first had not been
    made (the second being a call the setter acts on, that is, not a mode
    call with a foreign value). *)
Theorem later_call_wins (c1 c2 : Call) (e : Elf) :
  same_setter c1 c2 = true -> effective c2 = true ->
  observed (snd (call c2 (snd (call c1 e)))) = observed (snd (call c2 e)).
Proof.
  intros Hs He.
  destruct c1 as [v1|v1|v1|v1|v1], c2 as [v2|v2|v2|v2|v2];
    try discriminate Hs.
  - observe. reflexivity.
  - destruct v2 as [m2| | | |]; try discriminate He.
    destruct v1 as [m1| | | |]; observe; try reflexivity.
    now rewrite mode_byte_twice.
  - observe. now rewrite protect_byte_twice.
  - observe. now rewrite line_byte_twice.
  - observe. now rewrite line_byte_twice.
Qed.

Lemma later_call_wins_witness :
  observed (snd (call (CallMode (PyMode RUN))
                   (snd (call (CallMode (PyMode LOAD)) (attached cold_bus))))) =
  observed (snd (call (CallMode (PyMode RUN)) (attached cold_bus))).
Proof.
  apply (later_call_wins (CallMode (PyMode LOAD)) (CallMode (PyMode RUN))
           (attached cold_bus)); reflexivity.
Defined.

(** X3.  Calls of two different setters can be made in either order: the
    registers and the stored fields end the same (only the order of the two
    port writes differs). *)
Theorem setters_commute (c1 c2 : Call) (e : Elf) :
  same_setter c1 c2 = false ->
  observed (snd (call c2 (snd (call c1 e)))) =
  observed (snd (call c1 (snd (call c2 e)))).
Proof.
  intros Hs.
  destruct c1 as [v1|v1|v1|v1|v1], c2 as [v2|v2|v2|v2|v2];
    try discriminate Hs;
    try (destruct v1 as [m1| | | |]); try (destruct v2 as [m2| | | |]);
    observe; try reflexivity;
    rewrite ?protect_as_line;
    change EF4_N with (Z.shiftl 1 2); change STB_N with (Z.shiftl 1 1);
    first [ now rewrite mode_line_commute by lia
          | now rewrite <- mode_line_commute by lia
          | now rewrite (line_line_commute 0 1) by lia
          | now rewrite (line_line_commute 0 2) by lia
          | now rewrite (line_line_commute 1 0) by lia
          | now rewrite (line_line_commute 1 2) by lia
          | now rewrite (line_line_commute 2 0) by lia
          | now rewrite (line_line_commute 2 1) by lia ].
Qed.

Lemma setters_commute_witness :
  observed (snd (call (CallEf4N true)
                   (snd (call (CallMode (PyMode RUN)) (attached cold_bus))))) =
  observed (snd (call (CallMode (PyMode RUN))
                   (snd (call (CallEf4N true) (attached cold_bus))))).
Proof.
  apply (setters_commute (CallMode (PyMode RUN)) (CallEf4N true)
           (attached cold_bus)); reflexivity.
Defined.

(** ** Writing a value back *)

Lemma mode_byte_same (b : Z) (m : Mode) :
  value m = Z.land b MODE -> mode_byte m b = b.
Proof. unfold mode_byte. intros ->. bits_by_cases. Qed.

Lemma line_byte_same (k : Z) (b : Z) :
  0 <= k -> line_byte (Z.shiftl 1 k) (negb (Z.testbit b k)) b = b.
Proof.
  intros Hk. rewrite Z.shiftl_1_l. unfold line_byte.
  destruct (Z.testbit b k) eqn:E; cbn [negb];
    apply Z.bits_inj'; intros n Hn;
    repeat first [ rewrite Z.land_spec | rewrite Z.lor_spec
                 | rewrite Z.lnot_spec by assumption
                 | rewrite Z.pow2_bits_eqb by assumption ];
    destruct (Z.eqb_spec k n) as [->|_]; rewrite ?E;
    cbn [negb]; rewrite ?andb_true_r, ?orb_false_r; reflexivity.
Qed.

Lemma write_back_observed (c : Call) (e : Elf) :
  settled e -> observed (step (write_back c e) e) = observed e.
Proof.
  intros (_ & _ & Hd & Hm & He & Hs & Hp).
  destruct c as [v|v|v|v|v]; cbn [write_back step];
    unfold observed, port_a, port_b, data, mode, mem_protect, ef4_n, stb_n
      in *;
    cbn [with_mcp with_data with_mode with_ef4_n with_stb_n
           with_mem_protect assign _mcp _data _mode _ef4_n _stb_n _mem_protect
           iodira iodirb gpioa gpiob].
  - now rewrite <- Hd.
  - now rewrite mode_byte_same by assumption.
  - rewrite protect_as_line, Hp. now rewrite (line_byte_same 0).
  - rewrite He. change EF4_N with (Z.shiftl 1 2).
    now rewrite (line_byte_same 2).
  - rewrite Hs. change STB_N with (Z.shiftl 1 1).
    now rewrite (line_byte_same 1).
Qed.

(** X4.  On a card the program has reached, calling a setter with the value
    its own getter returns changes neither the registers nor the stored
    fields; the only effect is the port write itself. *)
Theorem writing_back_changes_nothing (c : Call) (e : Elf) :
  reachable e ->
  observed (snd (call (write_back c e) e)) = observed e.
Proof.
  intros H. rewrite call_eq. cbn [snd].
  apply write_back_observed. now apply reachable_settled.
Qed.

Lemma writing_back_changes_nothing_witness :
  observed (snd (call (write_back (CallEf4N true) (attached cold_bus))
                   (attached cold_bus))) =
  observed (attached cold_bus).
Proof.
  apply (writing_back_changes_nothing (CallEf4N true) (attached cold_bus)).
  apply (reach_new cold_bus). reflexivity.
Defined.

(** ** Keys that undo themselves *)

Lemma apply_op_step (o : elf_fp.Op) (e : Elf) :
  apply_op o e =
  match o with
  | elf_fp.SetData v => step (CallData v) e
  | elf_fp.SetMode m => step (CallMode (PyMode m)) e
  | elf_fp.SetMemProtect b => step (CallMemProtect b) e
  | elf_fp.SetEf4N b => step (CallEf4N b) e
  | elf_fp.SetStbN b => step (CallStbN b) e
  | elf_fp.Sleep _ => e
  end.
Proof.
  destruct o; cbn [apply_op]; try reflexivity.
  - now rewrite set_mem_protect_eq.
  - now rewrite set_ef4_n_eq.
  - now rewrite set_stb_n_eq.
Qed.

Lemma runs_on_key_p (w : elf_fp.World) :
  runs (elf_fp.on_key (lit "p")) w
    [elf_fp.SetMemProtect (negb (mem_protect (elf_fp.CARD w)))].
Proof.
  change (elf_fp.on_key (lit "p")) with
    (w0 <- get ;;
     elf_fp.CARD_set_mem_protect (negb (mem_protect (elf_fp.CARD w0)))).
  unfold runs, bind at 1, get. apply runs_set_mem_protect.
Qed.

(** X5.  The key p switches memory protection over, and a second p puts
    the card back: on a card whose fields agree with port B, after p p the
    registers and the stored fields are what they were, and the two
    operations made are protection to the opposite value and back. *)
Theorem protect_key_twice (w : elf_fp.World) :
  coherent (elf_fp.CARD w) ->
  exists w' : elf_fp.World,
    (elf_fp.on_key (lit "p") ;; elf_fp.on_key (lit "p")) w = (Return tt, w') /\
    elf_fp.ops w' =
      (elf_fp.ops w ++
       [elf_fp.SetMemProtect (negb (mem_protect (elf_fp.CARD w)));
        elf_fp.SetMemProtect (mem_protect (elf_fp.CARD w))])%list /\
    mem_protect
      (elf_fp.CARD (snd (elf_fp.on_key (lit "p") w))) =
      negb (mem_protect (elf_fp.CARD w)) /\
    observed (elf_fp.CARD w') = observed (elf_fp.CARD w).
Proof.
  intros (_ & _ & _ & Hp).
  set (mp := mem_protect (elf_fp.CARD w)) in *.
  assert (runs (elf_fp.on_key (lit "p") ;; elf_fp.on_key (lit "p")) w
            [elf_fp.SetMemProtect (negb mp); elf_fp.SetMemProtect mp]) as R.
  { apply (runs_bind _ _ w [_] [_]); [ apply runs_on_key_p | ].
    assert (mem_protect
              (elf_fp.CARD (after [elf_fp.SetMemProtect (negb mp)] w)) =
            negb mp) as E.
    { unfold after, apply_ops. cbn [elf_fp.CARD fold_left].
      rewrite apply_op_step. reflexivity. }
    pose proof (runs_on_key_p (after [elf_fp.SetMemProtect (negb mp)] w)) as R.
    rewrite E, negb_involutive in R. exact R. }
  eexists. split; [ exact R | ].
  split; [ reflexivity | ].
  split.
  - rewrite (runs_on_key_p w). unfold after, apply_ops.
    cbn [snd elf_fp.CARD fold_left]. rewrite apply_op_step. reflexivity.
  - unfold after, apply_ops. cbn [elf_fp.CARD fold_left].
    rewrite !apply_op_step.
    unfold observed, port_a, port_b, data, mode, mem_protect, ef4_n, stb_n
      in *.
    cbn [step with_mcp with_mem_protect assign _mcp _data _mode _ef4_n _stb_n
           _mem_protect iodira iodirb gpioa gpiob port_b].
    rewrite protect_byte_twice, protect_as_line.
    subst mp. rewrite Hp, (line_byte_same 0) by lia.
    reflexivity.
Qed.

Lemma protect_key_twice_witness :
  exists w' : elf_fp.World,
    (elf_fp.on_key (lit "p") ;; elf_fp.on_key (lit "p")) bench = (Return tt, w') /\
    observed (elf_fp.CARD w') = observed (elf_fp.CARD bench).
Proof.
  destruct (protect_key_twice bench) as (w' & Hr & _ & _ & Ho).
  - apply attached_coherent.
  - exists w'. split; [ exact Hr | exact Ho ].
Defined.

(** X6.  A press of the input key leaves no trace on a card whose fields
    agree with port B and whose input line is released: after
    [press_input] the registers and the stored fields are what they
    were. *)
Theorem press_input_restores_card (w : elf_fp.World) :
  coherent (elf_fp.CARD w) ->
  ef4_n (elf_fp.CARD w) = false ->
  observed (elf_fp.CARD (snd (elf_fp.press_input w))) =
  observed (elf_fp.CARD w).
Proof.
  intros (_ & He & _) Hf.
  rewrite (runs_press_input w). unfold after, apply_ops, pulse.
  cbn [snd elf_fp.CARD fold_left]. rewrite !apply_op_step.
  unfold observed, port_a, port_b, data, mode, mem_protect, ef4_n, stb_n in *.
  cbn [step with_mcp with_ef4_n assign _mcp _data _mode _ef4_n _stb_n
         _mem_protect iodira iodirb gpioa gpiob port_b].
  rewrite line_byte_twice. rewrite Hf in He |- *.
  change EF4_N with (Z.shiftl 1 2). rewrite He, (line_byte_same 2) by lia.
  reflexivity.
Qed.

Lemma press_input_restores_card_witness :
  observed (elf_fp.CARD (snd (elf_fp.press_input bench))) =
  observed (elf_fp.CARD bench).
Proof.
  apply (press_input_restores_card bench).
  - apply attached_coherent.
  - reflexivity.
Defined.

(** ** Loading an image *)

Lemma step_observed (c : Call) (e1 e2 : Elf) :
  observed e1 = observed e2 -> observed (step c e1) = observed (step c e2).
Proof.
  unfold observed, port_a, port_b, data, mode, mem_protect, ef4_n, stb_n.
  intros H. injection H as Ha Hb Hpa Hpb Hd Hm Hp He Hs.
  destruct c as [v|v|v|v|v]; try (destruct v as [m| | | |]);
    cbn [step with_mcp with_data with_mode with_ef4_n with_stb_n
           with_mem_protect assign _mcp _data _mode _ef4_n _stb_n _mem_protect
           iodira iodirb gpioa gpiob port_b];
    unfold port_b; congruence.
Qed.

Lemma apply_ops_observed (t : list elf_fp.Op) (e1 e2 : Elf) :
  observed e1 = observed e2 ->
  observed (apply_ops t e1) = observed (apply_ops t e2).
Proof.
  revert e1 e2. induction t as [|o t IH]; intros e1 e2 H; [ exact H | ].
  unfold apply_ops. cbn [fold_left]. apply IH.
  rewrite !apply_op_step. destruct o; try exact H; now apply step_observed.
Qed.

Lemma pulse_observed (e : Elf) :
  coherent e -> ef4_n e = false -> observed (apply_ops pulse e) = observed e.
Proof.
  intros (_ & He & _) Hf.
  unfold apply_ops, pulse. cbn [fold_left]. rewrite !apply_op_step.
  unfold observed, port_a, port_b, data, mode, mem_protect, ef4_n, stb_n in *.
  cbn [step with_mcp with_ef4_n assign _mcp _data _mode _ef4_n _stb_n
         _mem_protect iodira iodirb gpioa gpiob port_b].
  rewrite line_byte_twice. rewrite Hf in He |- *.
  change EF4_N with (Z.shiftl 1 2). rewrite He, (line_byte_same 2) by lia.
  reflexivity.
Qed.

Lemma stage_observed (v : Z) (e : Elf) :
  coherent e -> ef4_n e = false ->
  observed (apply_ops (stage v) e) = observed (step (CallData v) e).
Proof.
  intros Hc Hf.
  change (stage v) with ([elf_fp.SetData v] ++ pulse)%list.
  rewrite apply_ops_app.
  assert (apply_ops [elf_fp.SetData v] e = step (CallData v) e) as ->
    by reflexivity.
  apply pulse_observed.
  - pose proof (set_data_coherent v e Hc) as H.
    now rewrite set_data_eq in H.
  - exact Hf.
Qed.

Lemma image_observed (bs : list byte) (e : Elf) :
  coherent e -> ef4_n e = false ->
  observed (apply_ops (image bs) e) =
  match bs with
  | [] => observed e
  | _ => observed (step (CallData (elf_fp.byte_value (last bs x00))) e)
  end.
Proof.
  revert e. induction bs as [|b bs IH]; intros e Hc Hf; [ reflexivity | ].
  change (image (b :: bs)) with (stage (elf_fp.byte_value b) ++ image bs)%list.
  rewrite apply_ops_app.
  rewrite (apply_ops_observed _ _ _ (stage_observed _ e Hc Hf)).
  rewrite IH.
  - destruct bs as [|c bs]; [ reflexivity | ].
    change (last (b :: c :: bs) x00) with (last (c :: bs) x00).
    reflexivity.
  - pose proof (set_data_coherent (elf_fp.byte_value b) e Hc) as H.
    now rewrite set_data_eq in H.
  - exact Hf.
Qed.

Lemma count_pulses_image (bs : list byte) (t : list elf_fp.Op) :
  count_pulses (image bs ++ t) = (List.length bs + count_pulses t)%nat.
Proof.
  induction bs as [|b bs IH]; [ reflexivity | ].
  change (image (b :: bs) ++ t)%list with
    (elf_fp.SetData (elf_fp.byte_value b) :: elf_fp.SetEf4N true ::
     elf_fp.Sleep 5 :: elf_fp.SetEf4N false :: (image bs ++ t))%list.
  cbn [count_pulses is_pulse Z.eqb Pos.eqb List.length Nat.add].
  now rewrite IH.
Qed.

(** X7.  [load_program] on a file of any length returns having staged each
    byte in file order (the byte to data, then one press of the input key),
    so it makes as many presses as the file has bytes, none for an empty
    file.  On a card whose fields agree with port B and whose input line is
    released, all that remains afterwards is the last byte on the data bus:
    the registers and the stored fields are those of one data write of that
    byte, and unchanged for an empty file. *)
Theorem load_program_leaves_last_byte (f : string) (bs : list byte)
    (w : elf_fp.World) :
  elf_fp.files w f = Some bs ->
  coherent (elf_fp.CARD w) ->
  ef4_n (elf_fp.CARD w) = false ->
  exists w' : elf_fp.World,
    elf_fp.load_program f w = (Return tt, w') /\
    elf_fp.ops w' = (elf_fp.ops w ++ image bs)%list /\
    count_pulses (image bs) = List.length bs /\
    observed (elf_fp.CARD w') =
      match bs with
      | [] => observed (elf_fp.CARD w)
      | _ =>
          observed
            (step (CallData (elf_fp.byte_value (last bs x00))) (elf_fp.CARD w))
      end.
Proof.
  intros Hf Hc He.
  exists (after (image bs) w).
  split; [ now apply runs_load_program | ].
  split; [ reflexivity | ].
  split.
  - rewrite <- (app_nil_r (image bs)), count_pulses_image.
    cbn [count_pulses]. lia.
  - now apply image_observed.
Qed.

Lemma load_program_leaves_last_byte_witness :
  exists w' : elf_fp.World,
    elf_fp.load_program "max_mon.bin" bench = (Return tt, w') /\
    data (elf_fp.CARD w') = 5.
Proof.
  destruct (load_program_leaves_last_byte "max_mon.bin" [x04; x05] bench)
    as (w' & Hr & _ & _ & Ho).
  - reflexivity.
  - apply attached_coherent.
  - reflexivity.
  - exists w'. split; [ exact Hr | ].
    unfold observed in Ho. injection Ho as _ _ _ _ Hd _ _ _ _.
    exact Hd.
Defined.

(** ** Symbols without a branch, and the mode toggle *)

(** X8.  [on_key] does nothing for a symbol it has no branch for (any
    symbol but i, newline, space, the hex digits 0-9 a-f and l r g w p z m;
    capital letters and q among them): it returns and the world is exactly
    as before. *)
Theorem on_key_ignores_other_symbols (key : str) (w : elf_fp.World) :
  has_branch key = false -> elf_fp.on_key key w = (Return tt, w).
Proof.
  unfold has_branch, on_key_symbols. cbn [existsb map]. intros H.
  repeat (apply orb_false_elim in H; destruct H as [? H]).
  unfold elf_fp.on_key.
  repeat match goal with
         | E : (key == _) = false |- _ => rewrite E; clear E
         end.
  reflexivity.
Qed.

Lemma on_key_ignores_other_symbols_witness :
  elf_fp.on_key (lit "Z") bench = (Return tt, bench).
Proof.
  apply (on_key_ignores_other_symbols (lit "Z") bench). reflexivity.
Defined.

Lemma lower_not_nul (wide_lower : N -> str) (c : N) :
  c <> 0%N -> ((256 <= c)%N -> wide_lower c <> [0%N]) ->
  is_toggle wide_lower c = false.
Proof.
  intros Hc Hw. unfold is_toggle. rewrite lower_one. unfold lower_char.
  match goal with
  | |- ((if ?b then _ else _) == _) = _ => destruct b
  end.
  - rewrite str_eqb_one. apply N.eqb_neq. lia.
  - destruct (N.ltb_spec c 256) as [H|H].
    + rewrite str_eqb_one. now apply N.eqb_neq.
    + apply not_true_is_false. rewrite str_eqb_eq. now apply Hw.
Qed.

Lemma bind_returns {A B} (m : St elf_fp.World A) (k : A -> St elf_fp.World B)
    (w : elf_fp.World) (b : B) (w' : elf_fp.World) :
  bind m k w = (Return b, w') ->
  exists a w1, m w = (Return a, w1) /\ k a w1 = (Return b, w').
Proof.
  unfold bind. destruct (m w) as [[a|x] w1]; intros H.
  - now exists a, w1.
  - discriminate H.
Qed.

(** What [loop_body] returns, when it returns: the loop ends exactly when
    the lower-case form of what was read is q, and the mode changes exactly
    when it is the character of code 0. *)
Lemma loop_body_returns (wide_lower : N -> str) (c : N) (mode : elf_fp.Mode)
    (w : elf_fp.World) (d : bool) (mode' : elf_fp.Mode) (w' : elf_fp.World) :
  elf_fp.loop_body wide_lower [c] mode w = (Return (d, mode'), w') ->
  d = is_quit wide_lower c /\
  mode' = (if negb (is_quit wide_lower c) && is_toggle wide_lower c
           then other_mode mode else mode).
Proof.
  unfold elf_fp.loop_body, is_quit, is_toggle. cbv zeta. intros H.
  apply bind_returns in H. destruct H as ([d1 m1] & w1 & H1 & H2).
  apply bind_returns in H2. destruct H2 as (u & w2 & _ & H2).
  unfold ret in H2. injection H2 as Hd Hm _. subst d1 m1.
  destruct (lower wide_lower [c] == lit "q").
  - unfold ret in H1. injection H1 as Hd Hm _. now split.
  - cbn [negb andb].
    apply bind_returns in H1. destruct H1 as (o & w3 & Ho & H1).
    unfold lift in Ho.
    destruct (lower wide_lower [c]) as [|n [|n' l]]; cbn [ord] in Ho;
      try discriminate Ho.
    injection Ho as Ho _. subst o.
    rewrite str_eqb_one.
    assert ((Z.of_N n =? 0) = (n =? 0)%N) as E.
    { destruct (N.eqb_spec n 0) as [->|Hn];
        [ reflexivity | apply Z.eqb_neq; lia ]. }
    rewrite E in H1. destruct (n =? 0)%N.
    + destruct mode; unfold ret in H1; injection H1 as Hd Hm _; now split.
    + destruct mode.
      * apply bind_returns in H1. destruct H1 as (u1 & w4 & _ & H1).
        unfold ret in H1. injection H1 as Hd Hm _. now split.
      * apply bind_returns in H1. destruct H1 as (v & w4 & _ & H1).
        apply bind_returns in H1. destruct H1 as (u1 & w5 & _ & H1).
        apply bind_returns in H1. destruct H1 as (u2 & w6 & _ & H1).
        unfold ret in H1. injection H1 as Hd Hm _. now split.
Qed.

(** X9.  The interaction mode changes on the character of code 0 and on
    nothing else.  On that character the loop goes to the other mode,
    prints the status line and touches neither the card nor the record of
    operations; on every other character, if the turn returns at all, the
    mode it returns is the mode it was given.  (For a character below 256
    nothing more is asked; for one beyond, that its lower-case form is not
    the character of code 0.) *)
Theorem interaction_mode_changes_only_on_nul (wide_lower : N -> str) (c : N)
    (mode : elf_fp.Mode) (w : elf_fp.World) :
  (c = 0%N ->
   exists w' : elf_fp.World,
     elf_fp.loop_body wide_lower [c] mode w =
       (Return (false, other_mode mode), w') /\
     elf_fp.CARD w' = elf_fp.CARD w /\
     elf_fp.ops w' = elf_fp.ops w /\
     elf_fp.release_hooks w' = elf_fp.release_hooks w) /\
  (c <> 0%N -> ((256 <= c)%N -> wide_lower c <> [0%N]) ->
   forall (d : bool) (mode' : elf_fp.Mode) (w' : elf_fp.World),
     elf_fp.loop_body wide_lower [c] mode w = (Return (d, mode'), w') ->
     mode' = mode).
Proof.
  split.
  - intros ->. destruct mode; eexists; (split; [ reflexivity | ]);
      repeat split.
  - intros Hc Hw d mode' w' H.
    apply loop_body_returns in H. destruct H as [_ ->].
    rewrite (lower_not_nul wide_lower c Hc Hw).
    now rewrite andb_false_r.
Qed.

Lemma interaction_mode_changes_only_on_nul_witness :
  (exists w' : elf_fp.World,
     elf_fp.loop_body caseless [0%N] elf_fp.KEYBOARD bench =
       (Return (false, elf_fp.CONTROL), w') /\
     elf_fp.CARD w' = elf_fp.CARD bench) /\
  (exists (d : bool) (mode' : elf_fp.Mode) (w' : elf_fp.World),
     elf_fp.loop_body caseless [code "g"] elf_fp.CONTROL bench =
       (Return (d, mode'), w') /\
     mode' = elf_fp.CONTROL).
Proof.
  destruct (interaction_mode_changes_only_on_nul caseless 0%N
              elf_fp.KEYBOARD bench) as [H0 _].
  destruct (interaction_mode_changes_only_on_nul caseless (code "g")
              elf_fp.CONTROL bench) as [_ H1].
  split.
  - destruct (H0 eq_refl) as (w' & Hr & Hc & _).
    exists w'. split; [ exact Hr | exact Hc ].
  - eexists _, _, _. split; [ reflexivity | ].
    eapply H1; [ discriminate | | reflexivity ].
    intros _. discriminate.
Defined.

(** ** How a session ends *)

Lemma loop_body_quit (wide_lower : N -> str) (c : N) (mode : elf_fp.Mode)
    (w : elf_fp.World) :
  is_quit wide_lower c = true ->
  elf_fp.loop_body wide_lower [c] mode w =
  (Return (true, mode), snd (elf_fp.update_status mode w)).
Proof.
  unfold is_quit, elf_fp.loop_body. cbv zeta. intros ->. reflexivity.
Qed.

Lemma loop_stops_at_quit (wide_lower : N -> str) (pre : list elf_fp.Event)
    (c : N) (post : list elf_fp.Event) (mode : elf_fp.Mode)
    (w : elf_fp.World) :
  is_quit wide_lower c = true ->
  elf_fp.loop wide_lower (pre ++ elf_fp.Typed c :: post) mode w =
  elf_fp.loop wide_lower (pre ++ [elf_fp.Typed c]) mode w.
Proof.
  intros Hq. revert mode w.
  induction pre as [|ev pre IH]; intros mode w; cbn [app elf_fp.loop].
  - unfold bind. now rewrite (loop_body_quit wide_lower c mode w Hq).
  - destruct ev as [c0|k]; unfold bind.
    + destruct (elf_fp.loop_body wide_lower [c0] mode w) as [[[d m]|x] w1];
        [ | reflexivity ].
      cbn [fst snd]. destruct d; [ reflexivity | apply IH ].
    + destruct (elf_fp.deliver_release k w) as [[u|x] w1];
        [ apply IH | reflexivity ].
Qed.

Lemma run_card_eq (wide_lower : N -> str) (input : list elf_fp.Event)
    (w : elf_fp.World) :
  elf_fp.run_card wide_lower input w =
  (elf_fp.loop wide_lower input elf_fp.CONTROL ;;
   elf_fp.print elf_fp.NewLine) (session_start w).
Proof. reflexivity. Qed.

(** At the end of the input the turn on the empty string raises TypeError,
    in [ord], and leaves the world as it was. *)
Lemma loop_at_end_of_input (wide_lower : N -> str) (mode : elf_fp.Mode)
    (w : elf_fp.World) :
  elf_fp.loop wide_lower [] mode w = (Raise TypeError, w).
Proof. reflexivity. Qed.

(** X10.  Nothing typed or released after the first q (or Q) is looked at:
    a session on an input that continues after a quit character ends in
    the same way, with the same world, as on the input cut right after
    it. *)
Theorem nothing_after_quit_is_read (wide_lower : N -> str)
    (pre : list elf_fp.Event) (c : N) (post : list elf_fp.Event)
    (w : elf_fp.World) :
  is_quit wide_lower c = true ->
  elf_fp.run_card wide_lower (pre ++ elf_fp.Typed c :: post) w =
  elf_fp.run_card wide_lower (pre ++ [elf_fp.Typed c]) w.
Proof.
  intros Hq. rewrite !run_card_eq. unfold bind.
  now rewrite (loop_stops_at_quit wide_lower pre c post elf_fp.CONTROL _ Hq).
Qed.

Lemma nothing_after_quit_is_read_witness :
  elf_fp.run_card caseless
    ([elf_fp.Typed (code "g")] ++
     elf_fp.Typed (code "Q") :: [elf_fp.Typed (code "r")]) bench =
  elf_fp.run_card caseless
    ([elf_fp.Typed (code "g")] ++ [elf_fp.Typed (code "Q")]) bench.
Proof.
  apply (nothing_after_quit_is_read caseless [elf_fp.Typed (code "g")]
           (code "Q") [elf_fp.Typed (code "r")] bench).
  reflexivity.
Defined.

(** ** A missing image *)

Lemma raises_bind_l (m : St elf_fp.World unit) (k : unit -> St elf_fp.World unit)
    (w : elf_fp.World) (x : exn) (t : list elf_fp.Op) :
  raises m w x t -> raises (bind m k) w x t.
Proof. unfold raises, bind. now intros ->. Qed.

Lemma raises_bind_r (m : St elf_fp.World unit) (k : unit -> St elf_fp.World unit)
    (w : elf_fp.World) (x : exn) (t1 t2 : list elf_fp.Op) :
  runs m w t1 -> raises (k tt) (after t1 w) x t2 ->
  raises (bind m k) w x (t1 ++ t2).
Proof.
  unfold runs, raises, bind. intros -> ->. now rewrite after_after.
Qed.

Lemma raises_load_program (f : string) (w : elf_fp.World) :
  elf_fp.files w f = None ->
  raises (elf_fp.load_program f) w (FileNotFoundError f) [].
Proof.
  intros H. unfold raises. rewrite after_nil.
  now apply load_program_missing.
Qed.

Lemma raises_stage (v : Z) (k : St elf_fp.World unit) (w : elf_fp.World)
    (x : exn) (t : list elf_fp.Op) :
  raises k (after (stage v) w) x t ->
  raises (elf_fp.CARD_set_data v ;; elf_fp.press_input ;; k) w x (stage v ++ t).
Proof.
  intros H. unfold stage.
  apply (raises_bind_r _ _ w x [_] (pulse ++ t)); [ apply runs_set_data | ].
  apply raises_bind_r; [ apply runs_press_input | ].
  now rewrite after_after.
Qed.

(** X12.  When an image file is missing, [load_monitor] raises
    FileNotFoundError for the first missing file and leaves everything it
    did before in place: with no bootstrap image the card stays in LOAD
    mode with protection off; with no monitor image the bootstrap image and
    the bytes 0x80 and 0x00 have been entered and the mode is RUN; with no
    BIOS image the monitor image and the bytes 0x84 and 0x00 have been
    entered as well.  Nothing is undone and the
    later steps, the closing RESET among them, are not made. *)
Theorem load_monitor_stops_at_missing_image (w : elf_fp.World) :
  (elf_fp.files w "bootstrap.bin" = None ->
   elf_fp.load_monitor w =
     (Raise (FileNotFoundError "bootstrap.bin"),
      after [elf_fp.SetMode RESET; elf_fp.SetMode LOAD;
             elf_fp.SetMemProtect false] w) /\
   mode (elf_fp.CARD (snd (elf_fp.load_monitor w))) = LOAD) /\
  (forall i1 : list byte,
     elf_fp.files w "bootstrap.bin" = Some i1 ->
     elf_fp.files w "max_mon.bin" = None ->
     elf_fp.load_monitor w =
       (Raise (FileNotFoundError "max_mon.bin"),
        after ([elf_fp.SetMode RESET; elf_fp.SetMode LOAD;
                elf_fp.SetMemProtect false] ++
               image i1 ++
               [elf_fp.SetMode RESET; elf_fp.SetMode RUN] ++
               stage 0x80 ++ stage 0x00) w) /\
     mode (elf_fp.CARD (snd (elf_fp.load_monitor w))) = RUN) /\
  (forall i1 i2 : list byte,
     elf_fp.files w "bootstrap.bin" = Some i1 ->
     elf_fp.files w "max_mon.bin" = Some i2 ->
     elf_fp.files w "max_bios.bin" = None ->
     elf_fp.load_monitor w =
       (Raise (FileNotFoundError "max_bios.bin"),
        after ([elf_fp.SetMode RESET; elf_fp.SetMode LOAD;
                elf_fp.SetMemProtect false] ++
               image i1 ++
               [elf_fp.SetMode RESET; elf_fp.SetMode RUN] ++
               stage 0x80 ++ stage 0x00 ++
               image i2 ++
               [elf_fp.SetMode RESET; elf_fp.SetMode RUN] ++
               stage 0x84 ++ stage 0x00) w) /\
     mode (elf_fp.CARD (snd (elf_fp.load_monitor w))) = RUN).
Proof.
  split; [ | split ].
  - intros H1.
    assert (raises elf_fp.load_monitor w (FileNotFoundError "bootstrap.bin")
              ([elf_fp.SetMode RESET; elf_fp.SetMode LOAD;
                elf_fp.SetMemProtect false] ++ [])) as R.
    { unfold elf_fp.load_monitor.
      apply (raises_bind_r _ _ w _ [_] [_; _]); [ apply runs_set_mode | ].
      apply (raises_bind_r _ _ _ _ [_] [_]); [ apply runs_set_mode | ].
      apply (raises_bind_r _ _ _ _ [_] []); [ apply runs_set_mem_protect | ].
      apply raises_bind_l. now apply raises_load_program. }
    split; [ exact R | ]. rewrite R. reflexivity.
  - intros i1 H1 H2.
    assert (raises elf_fp.load_monitor w (FileNotFoundError "max_mon.bin")
              ([elf_fp.SetMode RESET; elf_fp.SetMode LOAD;
                elf_fp.SetMemProtect false] ++
               image i1 ++
               [elf_fp.SetMode RESET; elf_fp.SetMode RUN] ++
               stage 0x80 ++ stage 0x00 ++ [])) as R.
    { unfold elf_fp.load_monitor.
      apply (raises_bind_r _ _ w _ [_] (_ :: _)); [ apply runs_set_mode | ].
      apply (raises_bind_r _ _ _ _ [_] (_ :: _)); [ apply runs_set_mode | ].
      apply (raises_bind_r _ _ _ _ [_]); [ apply runs_set_mem_protect | ].
      apply raises_bind_r; [ now apply runs_load_program | ].
      apply (raises_bind_r _ _ _ _ [_] (_ :: _)); [ apply runs_set_mode | ].
      apply (raises_bind_r _ _ _ _ [_]); [ apply runs_set_mode | ].
      do 2 apply raises_stage.
      apply raises_bind_l. now apply raises_load_program. }
    rewrite app_nil_r in R.
    split; [ exact R | ]. rewrite R. cbn [snd after elf_fp.CARD].
    rewrite app_assoc, app_assoc, !apply_ops_app. reflexivity.
  - intros i1 i2 H1 H2 H3.
    assert (raises elf_fp.load_monitor w (FileNotFoundError "max_bios.bin")
              ([elf_fp.SetMode RESET; elf_fp.SetMode LOAD;
                elf_fp.SetMemProtect false] ++
               image i1 ++
               [elf_fp.SetMode RESET; elf_fp.SetMode RUN] ++
               stage 0x80 ++ stage 0x00 ++
               image i2 ++
               [elf_fp.SetMode RESET; elf_fp.SetMode RUN] ++
               stage 0x84 ++ stage 0x00 ++ [])) as R.
    { unfold elf_fp.load_monitor.
      apply (raises_bind_r _ _ w _ [_] (_ :: _)); [ apply runs_set_mode | ].
      apply (raises_bind_r _ _ _ _ [_] (_ :: _)); [ apply runs_set_mode | ].
      apply (raises_bind_r _ _ _ _ [_]); [ apply runs_set_mem_protect | ].
      apply raises_bind_r; [ now apply runs_load_program | ].
      apply (raises_bind_r _ _ _ _ [_] (_ :: _)); [ apply runs_set_mode | ].
      apply (raises_bind_r _ _ _ _ [_]); [ apply runs_set_mode | ].
      do 2 apply raises_stage.
      apply raises_bind_r; [ now apply runs_load_program | ].
      apply (raises_bind_r _ _ _ _ [_] (_ :: _)); [ apply runs_set_mode | ].
      apply (raises_bind_r _ _ _ _ [_]); [ apply runs_set_mode | ].
      do 2 apply raises_stage.
      apply raises_bind_l. now apply raises_load_program. }
    rewrite app_nil_r in R.
    split; [ exact R | ]. rewrite R. cbn [snd after elf_fp.CARD].
    rewrite !app_assoc, !apply_ops_app. reflexivity.
Qed.

Lemma load_monitor_stops_at_missing_image_witness :
  fst (elf_fp.load_monitor (bench_without "bootstrap.bin")) =
    Raise (FileNotFoundError "bootstrap.bin") /\
  mode (elf_fp.CARD (snd (elf_fp.load_monitor (bench_without "max_mon.bin")))) =
    RUN /\
  fst (elf_fp.load_monitor (bench_without "max_bios.bin")) =
    Raise (FileNotFoundError "max_bios.bin").
Proof.
  split; [ | split ].
  - destruct (load_monitor_stops_at_missing_image
                (bench_without "bootstrap.bin")) as (H & _).
    destruct (H eq_refl) as [-> _]. reflexivity.
  - destruct (load_monitor_stops_at_missing_image
                (bench_without "max_mon.bin")) as (_ & H & _).
    exact (proj2 (H [x01; x02; x03] eq_refl eq_refl)).
  - destruct (load_monitor_stops_at_missing_image
                (bench_without "max_bios.bin")) as (_ & _ & H).
    destruct (H [x01; x02; x03] [x04; x05] eq_refl eq_refl eq_refl)
      as [-> _].
    reflexivity.
Defined.

(** ** Releases that reach no hook *)




(** ** Only bytes reach the ports *)

Lemma is_byte_land (x : Z) : is_byte x <-> Z.land x 255 = x.
Proof.
  unfold is_byte. change 255 with (Z.ones 8). rewrite Z.land_ones by lia.
  change (2 ^ 8) with 256. split.
  - intros H. now apply Z.mod_small.
  - intros <-. apply Z.mod_pos_bound. lia.
Qed.

Lemma is_byte_lor (a b : Z) : is_byte a -> is_byte b -> is_byte (Z.lor a b).
Proof.
  rewrite !is_byte_land. intros Ha Hb.
  now rewrite Z.land_lor_distr_l, Ha, Hb.
Qed.

Lemma is_byte_land_l (a b : Z) : is_byte a -> is_byte (Z.land a b).
Proof.
  rewrite !is_byte_land. intros Ha.
  now rewrite <- Z.land_assoc, (Z.land_comm b), Z.land_assoc, Ha.
Qed.

Lemma is_byte_mode_byte (m : Mode) (b : Z) :
  is_byte b -> is_byte (mode_byte m b).
Proof.
  intros H. apply is_byte_lor; [ now apply is_byte_land_l | ].
  destruct m; unfold is_byte; cbn; lia.
Qed.

Lemma is_byte_line_byte (k : Z) (v : bool) (b : Z) :
  k = 0 \/ k = 1 \/ k = 2 ->
  is_byte b -> is_byte (line_byte (Z.shiftl 1 k) v b).
Proof.
  intros Hk H. destruct v; unfold line_byte.
  - now apply is_byte_land_l.
  - apply is_byte_lor; [ exact H | ].
    destruct Hk as [->|[->| ->]]; unfold is_byte; cbn; lia.
Qed.

Lemma is_byte_byte_value (b : byte) : is_byte (elf_fp.byte_value b).
Proof.
  unfold is_byte, elf_fp.byte_value. pose proof (Byte.to_N_bounded b). lia.
Qed.

Lemma is_byte_shift_nibble (d n : Z) : is_byte (shift_nibble d n).
Proof. apply is_byte_land. unfold shift_nibble. now rewrite <- Z.land_assoc. Qed.

Section Steps.

Variable Q : elf_fp.World -> Prop.
Hypothesis Q_data : forall v, is_byte v -> keeps Q (elf_fp.CARD_set_data v).
Hypothesis Q_mode : forall m, keeps Q (elf_fp.CARD_set_mode m).
Hypothesis Q_protect : forall b, keeps Q (elf_fp.CARD_set_mem_protect b).
Hypothesis Q_ef4 : forall b, keeps Q (elf_fp.CARD_set_ef4_n b).
Hypothesis Q_stb : forall b, keeps Q (elf_fp.CARD_set_stb_n b).
Hypothesis Q_ops : forall t w, Q w -> Q (elf_fp.with_ops t w).
Hypothesis Q_status : forall mode, keeps Q (elf_fp.update_status mode).
Hypothesis Q_newline : keeps Q (elf_fp.print elf_fp.NewLine).
Hypothesis Q_hooks : forall h w, Q w -> Q (elf_fp.with_release_hooks h w).

Ltac byte_side :=
  first [ assumption
        | apply is_byte_byte_value
        | apply is_byte_shift_nibble
        | unfold is_byte; lia ].

Ltac step_basic :=
  idtac; lazymatch goal with
  | |- keeps _ (bind _ _) => apply keeps_bind; [ | intros ? ]
  | |- keeps _ (ret _) => apply keeps_ret
  | |- keeps _ (raise _) => apply keeps_raise
  | |- keeps _ get => apply keeps_get
  | |- keeps _ (lift _) => apply keeps_lift
  | |- keeps _ (elf_fp.time_sleep _) => apply (keeps_record Q Q_ops)
  | |- keeps _ (elf_fp.print elf_fp.NewLine) => apply Q_newline
  | |- keeps _ (elf_fp.update_status _) => apply Q_status
  | |- keeps _ (elf_fp.on_release_key _) =>
      let w := fresh "w" in
      let H := fresh "H" in
      intros w H; now apply Q_hooks
  | |- keeps _ (elf_fp.CARD_set_data _) => apply Q_data; byte_side
  | |- keeps _ (elf_fp.CARD_set_mode _) => apply Q_mode
  | |- keeps _ (elf_fp.CARD_set_mem_protect _) => apply Q_protect
  | |- keeps _ (elf_fp.CARD_set_ef4_n _) => apply Q_ef4
  | |- keeps _ (elf_fp.CARD_set_stb_n _) => apply Q_stb
  | |- keeps _ (if ?c then _ else _) => destruct c
  | |- keeps _ (match ?c with _ => _ end) => destruct c
  end.

Ltac steps_with tac := repeat first [ tac | step_basic | assumption ].

Lemma steps_press_input : keeps Q elf_fp.press_input.
Proof. unfold elf_fp.press_input. steps_with fail. Qed.

Lemma steps_read_loop (bs : list byte) : keeps Q (elf_fp.read_loop bs).
Proof.
  induction bs as [|b bs IH]; cbn [elf_fp.read_loop].
  - apply keeps_ret.
  - steps_with ltac:(idtac; lazymatch goal with
                     | |- keeps _ elf_fp.press_input => apply steps_press_input
                     end).
Qed.

Lemma steps_load_program (f : string) : keeps Q (elf_fp.load_program f).
Proof.
  unfold elf_fp.load_program.
  steps_with ltac:(idtac; lazymatch goal with
                   | |- keeps _ (elf_fp.read_loop _) => apply steps_read_loop
                   end).
Qed.

Ltac protocol_steps :=
  idtac; lazymatch goal with
  | |- keeps _ elf_fp.press_input => apply steps_press_input
  | |- keeps _ (elf_fp.load_program _) => apply steps_load_program
  end.

Lemma steps_load_monitor : keeps Q elf_fp.load_monitor.
Proof. unfold elf_fp.load_monitor. steps_with protocol_steps. Qed.

Lemma steps_run_monitor : keeps Q elf_fp.run_monitor.
Proof. unfold elf_fp.run_monitor. steps_with protocol_steps. Qed.

Lemma steps_on_key (key : str) : keeps Q (elf_fp.on_key key).
Proof.
  unfold elf_fp.on_key, elf_fp.shift_in.
  steps_with ltac:(idtac; lazymatch goal with
                   | |- keeps _ elf_fp.load_monitor => apply steps_load_monitor
                   | |- keeps _ elf_fp.run_monitor => apply steps_run_monitor
                   | |- keeps _ (elf_fp.CARD_set_data (Z.land _ 255)) =>
                       apply Q_data; apply is_byte_shift_nibble
                   end).
Qed.

Lemma steps_on_release (k : str) : keeps Q (elf_fp.on_release k).
Proof. unfold elf_fp.on_release. steps_with fail. Qed.

Lemma steps_run_hooks (hooks : list str) (k : str) :
  keeps Q (elf_fp.run_hooks hooks k).
Proof.
  induction hooks as [|h hooks IH]; cbn [elf_fp.run_hooks].
  - apply keeps_ret.
  - steps_with ltac:(idtac; lazymatch goal with
                     | |- keeps _ (elf_fp.on_release _) => apply steps_on_release
                     end).
Qed.

(** A turn that, when it sends a character, sends a byte. *)
Lemma steps_loop_body (wide_lower : N -> str) (c : str) (mode : elf_fp.Mode) :
  (forall n, lower wide_lower c = [n] -> (n < 256)%N) ->
  keeps Q (elf_fp.loop_body wide_lower c mode).
Proof.
  intros Hn. unfold elf_fp.loop_body. cbv zeta.
  apply keeps_bind; [ | intros r; steps_with fail ].
  destruct (lower wide_lower c == lit "q"); [ apply keeps_ret | ].
  apply keeps_bind_lift. intros o _.
  destruct (o =? 0); [ destruct mode; apply keeps_ret | ].
  destruct mode.
  - steps_with ltac:(idtac; lazymatch goal with
                     | |- keeps _ (elf_fp.on_key _) => apply steps_on_key
                     end).
  - apply keeps_bind_lift. intros v Hv.
    assert (is_byte v) as Hb.
    { destruct (lower wide_lower c) as [|n [|n' l]]; cbn [ord] in Hv;
        try discriminate Hv.
      injection Hv as <-. specialize (Hn n eq_refl). unfold is_byte. lia. }
    steps_with fail.
Qed.

Lemma narrow_sends_byte (wide_lower : N -> str) (c : N) :
  (c < 256)%N -> forall n, lower wide_lower [c] = [n] -> (n < 256)%N.
Proof.
  intros Hc n Hl.
  destruct (lower_narrow wide_lower c Hc) as (n0 & Hl0 & Hn0 & _).
  rewrite Hl0 in Hl. now injection Hl as <-.
Qed.

Lemma steps_loop (wide_lower : N -> str) (input : list elf_fp.Event)
    (mode : elf_fp.Mode) :
  Forall narrow input -> keeps Q (elf_fp.loop wide_lower input mode).
Proof.
  intros Hin. revert mode.
  induction Hin as [|ev input Hev _ IH]; intros mode; cbn [elf_fp.loop].
  - apply keeps_bind; [ | intros r; apply keeps_ret ].
    apply steps_loop_body. intros n Hl. discriminate Hl.
  - destruct ev as [c|k].
    + apply keeps_bind; [ | intros r ].
      * apply steps_loop_body. now apply narrow_sends_byte.
      * destruct (fst r); [ apply keeps_ret | apply IH ].
    + apply keeps_bind; [ | intros _; apply IH ].
      unfold elf_fp.deliver_release.
      steps_with ltac:(idtac; lazymatch goal with
                       | |- keeps _ (elf_fp.run_hooks _ _) =>
                           apply steps_run_hooks
                       end).
Qed.

Lemma steps_run_card (wide_lower : N -> str) (input : list elf_fp.Event) :
  Forall narrow input -> keeps Q (elf_fp.run_card wide_lower input).
Proof.
  intros Hin. unfold elf_fp.run_card.
  steps_with ltac:(idtac; lazymatch goal with
                   | |- keeps _ (elf_fp.loop _ _ _) => now apply steps_loop
                   end).
Qed.

End Steps.

Lemma step_writes_byte (c : Call) (e : Elf) :
  match c with CallData v => is_byte v | _ => True end ->
  is_byte (port_b e) ->
  exists t : list (Reg * Z),
    writes (_mcp (step c e)) = (writes (_mcp e) ++ t)%list /\
    Forall gpio_byte t /\
    is_byte (port_b (step c e)).
Proof.
  intros Hc Hb.
  assert (forall v, is_byte v -> gpio_byte (GPIOA, v)) as GA
    by (intros v Hv; split; [ now left | exact Hv ]).
  assert (forall v, is_byte v -> gpio_byte (GPIOB, v)) as GB
    by (intros v Hv; split; [ now right | exact Hv ]).
  destruct c as [v|v|v|v|v]; cbn [step].
  - exists [(GPIOA, v)]. split; [ reflexivity | ].
    split; [ repeat constructor; now apply GA | exact Hb ].
  - destruct v as [m| | | |];
      try (exists []; rewrite app_nil_r;
           split; [ reflexivity | split; [ constructor | exact Hb ] ]).
    pose proof (is_byte_mode_byte m _ Hb) as H.
    eexists [_]. split; [ reflexivity | ].
    split; [ repeat constructor; now apply GB | exact H ].
  - assert (is_byte (protect_byte v (port_b e))) as H
      by (rewrite protect_as_line; apply (is_byte_line_byte 0); tauto).
    eexists [_]. split; [ reflexivity | ].
    split; [ repeat constructor; now apply GB | exact H ].
  - assert (is_byte (line_byte EF4_N v (port_b e))) as H
      by (apply (is_byte_line_byte 2); tauto).
    eexists [_]. split; [ reflexivity | ].
    split; [ repeat constructor; now apply GB | exact H ].
  - assert (is_byte (line_byte STB_N v (port_b e))) as H
      by (apply (is_byte_line_byte 1); tauto).
    eexists [_]. split; [ reflexivity | ].
    split; [ repeat constructor; now apply GB | exact H ].
Qed.

Lemma after_op_wrote_bytes (w0 w : elf_fp.World) (o : elf_fp.Op) :
  match o with elf_fp.SetData v => is_byte v | _ => True end ->
  wrote_bytes_since w0 w -> wrote_bytes_since w0 (after [o] w).
Proof.
  intros Ho (t & Ht & Hf & Hb).
  unfold wrote_bytes_since, after, apply_ops.
  cbn [elf_fp.CARD fold_left]. rewrite apply_op_step.
  assert (forall c,
             match c with CallData v => is_byte v | _ => True end ->
             exists t0 : list (Reg * Z),
               writes (_mcp (step c (elf_fp.CARD w))) =
                 (writes (_mcp (elf_fp.CARD w0)) ++ t0)%list /\
               Forall gpio_byte t0 /\
               is_byte (port_b (step c (elf_fp.CARD w)))) as S.
  { intros c Hc.
    destruct (step_writes_byte c (elf_fp.CARD w) Hc Hb)
      as (t' & Ht' & Hf' & Hb').
    exists (t ++ t')%list. split; [ | split ].
    - now rewrite Ht', Ht, app_assoc.
    - now apply Forall_app.
    - exact Hb'. }
  destruct o as [v|m|b|b|b|ms]; try (apply S; exact Ho || exact I).
  exists t. split; [ exact Ht | split; assumption ].
Qed.

Lemma after_op_keeps_bytes (w0 w : elf_fp.World) (o : elf_fp.Op) :
  match o with elf_fp.SetData v => is_byte v | _ => True end ->
  wrote_bytes_since w0 w /\ is_byte (data (elf_fp.CARD w)) ->
  wrote_bytes_since w0 (after [o] w) /\
  is_byte (data (elf_fp.CARD (after [o] w))).
Proof.
  intros Ho [H Hd]. split; [ now apply after_op_wrote_bytes | ].
  unfold after, apply_ops. cbn [elf_fp.CARD fold_left].
  rewrite apply_op_step.
  destruct o as [v|m|b|b|b|ms]; try exact Hd; exact Ho.
Qed.

Lemma run_card_keeps_bytes (wide_lower : N -> str) (w0 : elf_fp.World)
    (input : list elf_fp.Event) :
  Forall narrow input ->
  keeps (fun w => wrote_bytes_since w0 w /\ is_byte (data (elf_fp.CARD w)))
    (elf_fp.run_card wide_lower input).
Proof.
  intros Hin. apply steps_run_card; [ | | | | | | | | | exact Hin ].
  - intros v Hv w H. rewrite (runs_set_data v w).
    now apply (after_op_keeps_bytes w0 w (elf_fp.SetData v)).
  - intros m w H. rewrite (runs_set_mode m w).
    now apply (after_op_keeps_bytes w0 w (elf_fp.SetMode m)).
  - intros b w H. rewrite (runs_set_mem_protect b w).
    now apply (after_op_keeps_bytes w0 w (elf_fp.SetMemProtect b)).
  - intros b w H. rewrite (runs_set_ef4_n b w).
    now apply (after_op_keeps_bytes w0 w (elf_fp.SetEf4N b)).
  - intros b w H. rewrite (runs_set_stb_n b w).
    now apply (after_op_keeps_bytes w0 w (elf_fp.SetStbN b)).
  - intros t w H. exact H.
  - intros mode. apply keeps_update_status. intros o w H. exact H.
  - intros w H. exact H.
  - intros h w H. exact H.
Qed.

(** X14.  A session in which every character typed has a code below 256
    writes only bytes, and only to the two data registers: if port B and
    the stored data hold a byte when [run_card] starts, then whether the
    session ends or raises, every port write it has made is a value from 0
    to 255 to GPIOA or GPIOB (the direction registers are never written),
    and port B and the data byte still hold a byte.  The condition on the
    input is needed: in KEYBOARD mode a character whose lower-case form is
    one character of code [n] (not q, not of code 0) has [n] itself
    assigned to GPIOA, which is a byte only if [n] is below 256. *)
Theorem session_writes_only_bytes :
  (forall (wide_lower : N -> str) (input : list elf_fp.Event)
          (w : elf_fp.World),
     Forall narrow input ->
     is_byte (port_b (elf_fp.CARD w)) ->
     is_byte (data (elf_fp.CARD w)) ->
     exists t : list (Reg * Z),
       writes (_mcp (elf_fp.CARD
                       (snd (elf_fp.run_card wide_lower input w)))) =
         (writes (_mcp (elf_fp.CARD w)) ++ t)%list /\
       Forall gpio_byte t /\
       is_byte (port_b (elf_fp.CARD
                          (snd (elf_fp.run_card wide_lower input w)))) /\
       is_byte (data (elf_fp.CARD
                        (snd (elf_fp.run_card wide_lower input w))))) /\
  (forall (wide_lower : N -> str) (c n : N) (w : elf_fp.World),
     lower wide_lower [c] = [n] -> n <> code "q" -> n <> 0%N ->
     exists w' : elf_fp.World,
       elf_fp.loop_body wide_lower [c] elf_fp.KEYBOARD w =
         (Return (false, elf_fp.KEYBOARD), w') /\
       writes (_mcp (elf_fp.CARD w')) =
         (writes (_mcp (elf_fp.CARD w)) ++
          [(GPIOA, Z.of_N n);
           (GPIOB, line_byte STB_N true (port_b (elf_fp.CARD w)))])%list /\
       (is_byte (Z.of_N n) <-> (n < 256)%N)).
Proof.
  split.
  - intros wide_lower input w Hin Hb Hd.
    destruct (run_card_keeps_bytes wide_lower w input Hin w)
      as [(t & Ht & Hf & Hb') Hd'].
    + split; [ | exact Hd ].
      exists []. rewrite app_nil_r.
      split; [ reflexivity | split; [ constructor | exact Hb ] ].
    + exists t.
      split; [ exact Ht | split; [ exact Hf | split; assumption ] ].
  - intros wide_lower c n w Hl Hq H0.
    eexists. split; [ now apply (loop_body_keyboard wide_lower [c] n) | ].
    split; [ | unfold is_byte; lia ].
    cbn [elf_fp.CARD]. rewrite set_stb_n_eq, set_data_eq.
    cbn [snd with_mcp with_data with_stb_n assign _mcp writes port_b gpiob].
    now rewrite <- app_assoc.
Qed.

Lemma session_writes_only_bytes_witness :
  (exists t : list (Reg * Z),
     writes
       (_mcp (elf_fp.CARD
                (snd (elf_fp.run_card caseless
                        [elf_fp.Typed (code "m"); elf_fp.Typed (code "q")]
                        bench)))) =
       (writes (_mcp (elf_fp.CARD bench)) ++ t)%list /\
     Forall gpio_byte t) /\
  (exists w' : elf_fp.World,
     elf_fp.loop_body caseless [8364%N] elf_fp.KEYBOARD bench =
       (Return (false, elf_fp.KEYBOARD), w') /\
     writes (_mcp (elf_fp.CARD w')) =
       (writes (_mcp (elf_fp.CARD bench)) ++
        [(GPIOA, 8364);
         (GPIOB, line_byte STB_N true (port_b (elf_fp.CARD bench)))])%list).
Proof.
  destruct session_writes_only_bytes as [H1 H2].
  split.
  - destruct (H1 caseless
                [elf_fp.Typed (code "m"); elf_fp.Typed (code "q")] bench)
      as (t & Ht & Hf & _).
    + repeat constructor.
    + unfold is_byte. replace (port_b (elf_fp.CARD bench)) with 22
        by (vm_compute; reflexivity).
      lia.
    + unfold is_byte. replace (data (elf_fp.CARD bench)) with 0
        by (vm_compute; reflexivity).
      lia.
    + exists t. split; [ exact Ht | exact Hf ].
  - destruct (H2 caseless 8364%N 8364%N bench) as (w' & Hl & Hw & _).
    + reflexivity.
    + discriminate.
    + discriminate.
    + exists w'. split; [ exact Hl | exact Hw ].
Defined.

(** ** The status line *)

Lemma string_length_append (s1 s2 : string) :
  String.length (String.append s1 s2) =
  (String.length s1 + String.length s2)%nat.
Proof.
  induction s1 as [|c s1 IH]; cbn [String.append String.length];
    [ reflexivity | now rewrite IH ].
Qed.

Lemma format_02X_byte (d : Z) :
  is_byte d -> String.length (elf_fp.format_02X d) = 2%nat.
Proof.
  intros Hd.
  assert (forallb
            (fun k => Nat.eqb
                        (String.length (elf_fp.format_02X (Z.of_nat k))) 2)
            (seq 0 256) = true) as H by (vm_compute; reflexivity).
  rewrite forallb_forall in H.
  specialize (H (Z.to_nat d)).
  rewrite Z2Nat.id in H by (unfold is_byte in Hd; lia).
  apply Nat.eqb_eq, H, in_seq. unfold is_byte in Hd. lia.
Qed.

Lemma status_line_length (shown : option Mode) (protect : bool) (d : Z) :
  is_byte d ->
  String.length (elf_fp.render (elf_fp.StatusLine shown protect d)) = 38%nat.
Proof.
  intros Hd. cbn [elf_fp.render].
  rewrite !string_length_append, (format_02X_byte d Hd).
  destruct shown as [[]|], protect; reflexivity.
Qed.

Lemma update_status_fixed_width (w0 : elf_fp.World) (mode : elf_fp.Mode) :
  keeps (printed_fixed_width_since w0) (elf_fp.update_status mode).
Proof.
  intros w (Hd & outs & Ho & Hf).
  split; [ exact Hd | ].
  exists (outs ++
          [elf_fp.StatusLine
             (match mode with
              | elf_fp.KEYBOARD => None
              | elf_fp.CONTROL => Some (elf.mode (elf_fp.CARD w))
              end)
             (mem_protect (elf_fp.CARD w)) (data (elf_fp.CARD w))])%list.
  split.
  - cbn. now rewrite Ho, app_assoc.
  - apply Forall_app. split; [ exact Hf | ].
    constructor; [ | constructor ]. right. now apply status_line_length.
Qed.

Lemma after_op_fixed_width (w0 w : elf_fp.World) (o : elf_fp.Op) :
  match o with elf_fp.SetData v => is_byte v | _ => True end ->
  printed_fixed_width_since w0 w -> printed_fixed_width_since w0 (after [o] w).
Proof.
  intros Ho (Hd & outs & Hs & Hf).
  split; [ | now exists outs ].
  unfold after, apply_ops. cbn [elf_fp.CARD fold_left].
  rewrite apply_op_step.
  destruct o as [v|m|b|b|b|ms]; try exact Hd; exact Ho.
Qed.

Lemma run_card_fixed_width (wide_lower : N -> str) (w0 : elf_fp.World)
    (input : list elf_fp.Event) :
  Forall narrow input ->
  keeps (printed_fixed_width_since w0) (elf_fp.run_card wide_lower input).
Proof.
  intros Hin. apply steps_run_card; [ | | | | | | | | | exact Hin ].
  - intros v Hv w H. rewrite (runs_set_data v w).
    now apply (after_op_fixed_width w0 w (elf_fp.SetData v)).
  - intros m w H. rewrite (runs_set_mode m w).
    now apply (after_op_fixed_width w0 w (elf_fp.SetMode m)).
  - intros b w H. rewrite (runs_set_mem_protect b w).
    now apply (after_op_fixed_width w0 w (elf_fp.SetMemProtect b)).
  - intros b w H. rewrite (runs_set_ef4_n b w).
    now apply (after_op_fixed_width w0 w (elf_fp.SetEf4N b)).
  - intros b w H. rewrite (runs_set_stb_n b w).
    now apply (after_op_fixed_width w0 w (elf_fp.SetStbN b)).
  - intros t w H. exact H.
  - apply update_status_fixed_width.
  - intros w (Hd & outs & Hs & Hf). split; [ exact Hd | ].
    exists (outs ++ [elf_fp.NewLine])%list. split.
    + cbn. now rewrite Hs, app_assoc.
    + apply Forall_app. split; [ exact Hf | ].
      constructor; [ now left | constructor ].
  - intros h w H. exact H.
Qed.

(** X15.  The status line has a fixed width in a session in which every
    character typed has a code below 256.  If the stored data byte is a
    byte when [run_card] starts, everything such a session prints is status
    lines of exactly 38 characters (the carriage return, the mode label
    padded to five, ON or OFF padded to three, two hexadecimal digits) and
    the closing line end; so each line wholly covers the one before it.
    For a byte the data field is two digits; a larger value gets more
    digits and a negative one a minus sign.  The condition on the input is
    needed: in KEYBOARD mode a character whose lower-case form is one
    character of code [n] (not q, not of code 0) makes the turn print the
    line for the data value [n], which for the euro sign (8364) has 40
    characters. *)
Theorem status_lines_have_fixed_width :
  (forall (wide_lower : N -> str) (input : list elf_fp.Event)
          (w : elf_fp.World),
     Forall narrow input ->
     is_byte (data (elf_fp.CARD w)) ->
     exists outs : list elf_fp.Out,
       elf_fp.stdout (snd (elf_fp.run_card wide_lower input w)) =
         (elf_fp.stdout w ++ outs)%list /\
       Forall
         (fun o => o = elf_fp.NewLine \/
                   String.length (elf_fp.render o) = 38%nat) outs) /\
  elf_fp.render (elf_fp.StatusLine (Some RUN) false 0x0C) =
    String "013" "Mode: RUN   Mem Protect: OFF Data: 0C" /\
  elf_fp.render (elf_fp.StatusLine None true 0xFF) =
    String "013" "Mode: KEYBD Mem Protect: ON  Data: FF" /\
  elf_fp.format_02X 0x1234 = "1234"%string /\
  elf_fp.format_02X (-1) = "-1"%string /\
  (forall (wide_lower : N -> str) (c n : N) (w : elf_fp.World),
     lower wide_lower [c] = [n] -> n <> code "q" -> n <> 0%N ->
     elf_fp.stdout (snd (elf_fp.loop_body wide_lower [c] elf_fp.KEYBOARD w)) =
       (elf_fp.stdout w ++
        [elf_fp.StatusLine None (mem_protect (elf_fp.CARD w))
           (Z.of_N n)])%list) /\
  elf_fp.render (elf_fp.StatusLine None false 8364) =
    String "013" "Mode: KEYBD Mem Protect: OFF Data: 20AC" /\
  String.length (elf_fp.render (elf_fp.StatusLine None false 8364)) = 40%nat.
Proof.
  split; [ | repeat split ].
  - intros wide_lower input w Hin Hd.
    destruct (run_card_fixed_width wide_lower w input Hin w)
      as (_ & outs & Hs & Hf).
    + split; [ exact Hd | ]. exists []. now rewrite app_nil_r.
    + now exists outs.
  - intros wide_lower c n w Hl Hq H0.
    now rewrite (loop_body_keyboard wide_lower [c] n w Hl Hq H0).
Qed.

Lemma status_lines_have_fixed_width_witness :
  (exists outs : list elf_fp.Out,
     elf_fp.stdout
       (snd (elf_fp.run_card caseless
               [elf_fp.Typed (code "5"); elf_fp.Typed (code "q")] bench)) =
       (elf_fp.stdout bench ++ outs)%list /\
     Forall
       (fun o => o = elf_fp.NewLine \/
                 String.length (elf_fp.render o) = 38%nat) outs) /\
  elf_fp.stdout
    (snd (elf_fp.loop_body caseless [8364%N] elf_fp.KEYBOARD bench)) =
    [elf_fp.StatusLine None false 8364].
Proof.
  destruct status_lines_have_fixed_width
    as (H & _ & _ & _ & _ & H2 & _).
  split.
  - apply (H caseless [elf_fp.Typed (code "5"); elf_fp.Typed (code "q")]
             bench).
    + repeat constructor.
    + unfold is_byte. replace (data (elf_fp.CARD bench)) with 0
        by (vm_compute; reflexivity).
      lia.
  - apply (H2 caseless 8364%N 8364%N bench).
    + reflexivity.
    + discriminate.
    + discriminate.
Defined.

(** ** Fields and port byte determine each other *)

Lemma low_five_bit (b k : Z) :
  k = 0 \/ k = 1 \/ k = 2 \/ k = 3 \/ k = 4 ->
  Z.testbit (Z.land b 0x1F) k = Z.testbit b k.
Proof.
  intros H. rewrite Z.land_spec.
  destruct H as [->|[->|[->|[->| ->]]]]; apply andb_true_r.
Qed.

Lemma control_bits_of_coherent (e : Elf) :
  coherent e ->
  Z.land (port_b e) 0x1F =
  control_bits (mode e) (mem_protect e) (ef4_n e) (stb_n e).
Proof.
  intros (Hm & He & Hs & Hp).
  rewrite mode_field_value in Hm.
  assert (mode e =
          mode_of_lines (Z.testbit (port_b e) 4) (Z.testbit (port_b e) 3))
    as -> by (destruct (mode e), (Z.testbit (port_b e) 4),
                (Z.testbit (port_b e) 3); try reflexivity; discriminate Hm).
  rewrite He, Hs, Hp. clear Hm He Hs Hp.
  generalize (port_b e). intros b.
  apply Z.bits_inj'. intros n Hn.
  low_bit_cases n.
  1-5: rewrite low_five_bit by tauto;
       unfold control_bits; rewrite !Z.lor_spec;
       destruct (Z.testbit b 0), (Z.testbit b 1), (Z.testbit b 2),
         (Z.testbit b 3), (Z.testbit b 4); reflexivity.
  rewrite Z.land_spec, (testbit_5bit_high 0x1F n), andb_false_r by lia.
  unfold control_bits. rewrite !Z.lor_spec.
  destruct (Z.testbit b 0), (Z.testbit b 1), (Z.testbit b 2),
    (Z.testbit b 3), (Z.testbit b 4); cbn [negb mode_of_lines value];
    change EF4_N with 4; change STB_N with 2; change MEM_PROTECT with 1;
    rewrite !(testbit_5bit_high _ n) by lia; reflexivity.
Qed.

Lemma coherent_of_control_bits (e : Elf) :
  Z.land (port_b e) 0x1F =
    control_bits (mode e) (mem_protect e) (ef4_n e) (stb_n e) ->
  coherent e.
Proof.
  intros H. unfold coherent.
  rewrite <- (low_five_bit (port_b e) 2), <- (low_five_bit (port_b e) 1),
    <- (low_five_bit (port_b e) 0) by tauto.
  assert (Z.land (port_b e) MODE = Z.land (Z.land (port_b e) 0x1F) MODE) as ->
    by (rewrite <- Z.land_assoc; reflexivity).
  rewrite H.
  destruct (mode e), (mem_protect e), (ef4_n e), (stb_n e);
    repeat split.
Qed.

(** X16.  The stored fields and the low five bits of port B say the same
    thing, in both directions: the fields are the decoding of the byte (the
    mode from bits 4 and 3, the lines as the inverse of bits 2 and 1,
    protection as bit 0) exactly when the byte's low five bits are the
    encoding of the fields (the mode value, 4 and 2 for a released line, 1
    for protection on).  On every card the program reaches both hold. *)
Theorem fields_and_port_byte_agree (e : Elf) :
  (coherent e <->
   Z.land (port_b e) 0x1F =
   control_bits (mode e) (mem_protect e) (ef4_n e) (stb_n e)) /\
  (reachable e ->
   Z.land (port_b e) 0x1F =
   control_bits (mode e) (mem_protect e) (ef4_n e) (stb_n e)).
Proof.
  split; [ split | ].
  - apply control_bits_of_coherent.
  - apply coherent_of_control_bits.
  - intros H. apply control_bits_of_coherent. now apply reachable_coherent.
Qed.

Lemma fields_and_port_byte_agree_witness :
  Z.land (port_b (attached cold_bus)) 0x1F = 0x16.
Proof.
  destruct (fields_and_port_byte_agree (attached cold_bus)) as [_ H].
  rewrite H; [ reflexivity | ].
  apply (reach_new cold_bus). reflexivity.
Defined.

(** ** The last write to a field decides *)

Lemma apply_ops_cons (o : elf_fp.Op) (t : list elf_fp.Op) (e : Elf) :
  apply_ops (o :: t) e = apply_ops t (apply_op o e).
Proof. reflexivity. Qed.

Lemma apply_ops_fields (t : list elf_fp.Op) (e : Elf) :
  data (apply_ops t e) = last_written data_of t (data e) /\
  mode (apply_ops t e) = last_written mode_of t (mode e) /\
  mem_protect (apply_ops t e) = last_written protect_of t (mem_protect e) /\
  ef4_n (apply_ops t e) = last_written ef4_of t (ef4_n e) /\
  stb_n (apply_ops t e) = last_written stb_of t (stb_n e).
Proof.
  revert e. induction t as [|o t IH]; intros e.
  - repeat split.
  - rewrite apply_ops_cons. cbn [last_written].
    destruct (IH (apply_op o e)) as (Hd & Hm & Hp & He & Hs).
    rewrite Hd, Hm, Hp, He, Hs, apply_op_step.
    destruct o; repeat split.
Qed.

(** X17.  After any run of setter calls and sleeps each stored field holds
    the last value the run wrote to it, and its old value when the run
    wrote none: the fields do not disturb one another, and sleeping
    changes none.  So a procedure that returns leaves in each field the
    last value it assigned to it. *)
Theorem fields_hold_last_written (t : list elf_fp.Op) (e : Elf)
    (m : St elf_fp.World unit) (w : elf_fp.World) :
  (data (apply_ops t e) = last_written data_of t (data e) /\
   mode (apply_ops t e) = last_written mode_of t (mode e) /\
   mem_protect (apply_ops t e) = last_written protect_of t (mem_protect e) /\
   ef4_n (apply_ops t e) = last_written ef4_of t (ef4_n e) /\
   stb_n (apply_ops t e) = last_written stb_of t (stb_n e)) /\
  (runs m w t ->
   mode (elf_fp.CARD (snd (m w))) =
     last_written mode_of t (mode (elf_fp.CARD w)) /\
   data (elf_fp.CARD (snd (m w))) =
     last_written data_of t (data (elf_fp.CARD w))).
Proof.
  split; [ apply apply_ops_fields | ].
  intros ->. cbn [snd after elf_fp.CARD].
  destruct (apply_ops_fields t (elf_fp.CARD w)) as (Hd & Hm & _).
  now split.
Qed.

Lemma fields_hold_last_written_witness :
  mode (elf_fp.CARD (snd (elf_fp.run_monitor bench))) = RUN /\
  data (elf_fp.CARD (snd (elf_fp.run_monitor bench))) = 0.
Proof.
  destruct (fields_hold_last_written run_monitor_ops (elf_fp.CARD bench)
              elf_fp.run_monitor bench) as [_ H].
  apply H. vm_compute. reflexivity.
Defined.

Lemma last_written_app {A} (pick : elf_fp.Op -> option A)
    (t1 t2 : list elf_fp.Op) (d : A) :
  last_written pick (t1 ++ t2) d =
  last_written pick t2 (last_written pick t1 d).
Proof.
  revert d. induction t1 as [|o t1 IH]; intros d;
    [ reflexivity | cbn [app last_written]; apply IH ].
Qed.

Lemma image_cons (b : byte) (bs : list byte) :
  image (b :: bs) = (stage (elf_fp.byte_value b) ++ image bs)%list.
Proof. reflexivity. Qed.

Lemma last_written_image_other {A} (pick : elf_fp.Op -> option A)
    (bs : list byte) (d : A) :
  (forall v, pick (elf_fp.SetData v) = None) ->
  (forall b, pick (elf_fp.SetEf4N b) = None) ->
  (forall ms, pick (elf_fp.Sleep ms) = None) ->
  last_written pick (image bs) d = d.
Proof.
  intros Hd He Hs. induction bs as [|b bs IH]; [ reflexivity | ].
  rewrite image_cons, last_written_app.
  cbn [stage pulse last_written]. now rewrite Hd, !He, Hs.
Qed.

Lemma last_written_image_ef4 (bs : list byte) (d : bool) :
  last_written ef4_of (image bs) d = match bs with [] => d | _ => false end.
Proof.
  revert d. induction bs as [|b bs IH]; intros d; [ reflexivity | ].
  rewrite image_cons, last_written_app.
  cbn [stage pulse last_written ef4_of]. rewrite IH. now destruct bs.
Qed.

Lemma last_written_image_data (bs : list byte) (d : Z) :
  last_written data_of (image bs) d =
  match bs with
  | [] => d
  | _ => elf_fp.byte_value (last bs x00)
  end.
Proof.
  revert d. induction bs as [|b bs IH]; intros d; [ reflexivity | ].
  rewrite image_cons, last_written_app.
  cbn [stage pulse last_written data_of]. rewrite IH.
  destruct bs as [|c bs]; [ reflexivity | ].
  change (last (b :: c :: bs) x00) with (last (c :: bs) x00). reflexivity.
Qed.

(** X18.  What [load_monitor] leaves: with the three images present the
    card ends in RESET mode with memory protection off and the input line
    released; the data byte is the last byte of the BIOS image, or 0x00 when
    that image is empty; the strobe is as it was. *)
Theorem load_monitor_final_fields (w : elf_fp.World) (i1 i2 i3 : list byte) :
  elf_fp.files w "bootstrap.bin" = Some i1 ->
  elf_fp.files w "max_mon.bin" = Some i2 ->
  elf_fp.files w "max_bios.bin" = Some i3 ->
  exists w' : elf_fp.World,
    elf_fp.load_monitor w = (Return tt, w') /\
    mode (elf_fp.CARD w') = RESET /\
    mem_protect (elf_fp.CARD w') = false /\
    ef4_n (elf_fp.CARD w') = false /\
    stb_n (elf_fp.CARD w') = stb_n (elf_fp.CARD w) /\
    data (elf_fp.CARD w') =
      match i3 with
      | [] => 0x00
      | _ => elf_fp.byte_value (last i3 x00)
      end.
Proof.
  intros H1 H2 H3.
  exists (after (load_monitor_ops i1 i2 i3) w).
  split; [ now apply runs_load_monitor | ].
  cbn [after elf_fp.CARD].
  destruct (apply_ops_fields (load_monitor_ops i1 i2 i3) (elf_fp.CARD w))
    as (Hd & Hm & Hp & He & Hs).
  rewrite Hd, Hm, Hp, He, Hs. clear Hd Hm Hp He Hs.
  unfold load_monitor_ops.
  repeat split; rewrite !last_written_app;
    rewrite ?last_written_image_ef4, ?last_written_image_data,
      ?last_written_image_other by reflexivity;
    cbn [stage pulse last_written data_of mode_of protect_of ef4_of stb_of];
    rewrite ?last_written_image_ef4, ?last_written_image_data,
      ?last_written_image_other by reflexivity;
    try reflexivity.
  now destruct i3.
Qed.

Lemma load_monitor_final_fields_witness :
  exists w' : elf_fp.World,
    elf_fp.load_monitor bench = (Return tt, w') /\
    mode (elf_fp.CARD w') = RESET /\
    data (elf_fp.CARD w') = 6.
Proof.
  destruct (load_monitor_final_fields bench [x01; x02; x03] [x04; x05] [x06]
              eq_refl eq_refl eq_refl) as (w' & Hr & Hm & _ & _ & _ & Hd).
  exists w'. split; [ exact Hr | ]. split; [ exact Hm | exact Hd ].
Defined.

(** ** Construction keeps to bytes *)

Lemma is_byte_cold_start (b : Z) : is_byte b -> is_byte (cold_b4 b).
Proof.
  intros H. unfold cold_b4, cold_b3, cold_b2, cold_b1.
  rewrite protect_as_line.
  apply (is_byte_line_byte 0); [ tauto | ].
  apply (is_byte_line_byte 1); [ tauto | ].
  apply (is_byte_line_byte 2); [ tauto | ].
  now apply is_byte_mode_byte.
Qed.

(** X19.  [Elf()] keeps to bytes: when the two port registers of the
    driver hold bytes, the card it returns has a byte as data and a byte on
    port B, whichever of the four warm and cold combinations applies, and
    every value it has written to a register is a byte. *)
Theorem new_keeps_to_bytes (bus : MCP23017) (e : Elf) :
  new bus = Return e ->
  is_byte (gpioa bus) -> is_byte (gpiob bus) ->
  is_byte (data e) /\
  is_byte (port_a e) /\
  is_byte (port_b e) /\
  exists t : list (Reg * Z),
    writes (_mcp e) = (writes bus ++ t)%list /\
    Forall (fun x => is_byte (snd x)) t.
Proof.
  rewrite new_eq. intros H Ha Hb. injection H as <-.
  assert (is_byte 0) as H0 by (unfold is_byte; lia).
  pose proof (is_byte_cold_start _ Hb) as H4.
  assert (is_byte (cold_b1 (gpiob bus))) as H1
    by now apply is_byte_mode_byte.
  assert (is_byte (cold_b2 (gpiob bus))) as H2
    by (apply (is_byte_line_byte 2); [ tauto | exact H1 ]).
  assert (is_byte (cold_b3 (gpiob bus))) as H3
    by (apply (is_byte_line_byte 1); [ tauto | exact H2 ]).
  destruct bus as [ia ib ga gb ws].
  unfold attached, after_port_b, after_port_a, port_a, port_b, data.
  cbn [iodira iodirb gpioa gpiob writes _mcp _data] in *.
  destruct (ia =? OUTPUT); cbn [assign iodira iodirb gpioa gpiob writes];
    destruct (ib =? OUTPUT); cbn [assign iodira iodirb gpioa gpiob writes];
    (split; [ assumption | split; [ assumption | split; [ assumption | ] ] ]);
    rewrite <- ?app_assoc; cbn [app];
    eexists; (split; [ try reflexivity; symmetry; apply app_nil_r | ]);
    repeat (apply Forall_cons; [ cbn [snd]; assumption | ]);
    apply Forall_nil.
Qed.

Lemma new_keeps_to_bytes_witness :
  is_byte (data (attached cold_bus)) /\ is_byte (port_b (attached cold_bus)).
Proof.
  destruct (new_keeps_to_bytes cold_bus (attached cold_bus))
    as (Hd & _ & Hb & _).
  - reflexivity.
  - unfold is_byte. cbn. lia.
  - unfold is_byte. cbn. lia.
  - split; [ exact Hd | exact Hb ].
Defined.
